(** * pyflexplot: layout and labelling engine

    A shallow embedding of the text-box, layout, legend and plot-configuration
    code of pyflexplot ([src/pyflexplot/plot.py] and [src/pyflexplot/plots.py])
    together with the properties that its specification states about it.

    Conventions of the embedding:
    - Python [float]s are IEEE binary64 numbers, modelled by Rocq's primitive
      floats; number formatting works on the exact value of the float, as
      CPython's correctly rounded conversion does.
    - A function that can raise returns a [res]; a method that draws returns
      the list of draw calls it issued next to its result.
    - Keyword arguments ([**kwargs]) are finite maps from names to values.
    - Strings are byte strings; the texts of the program are ASCII. *)

From Stdlib Require Import ZArith Floats Uint63 String Ascii DecimalString Lia.
From Stdlib Require DecimalZ.
From stdpp Require Import gmap strings list.

Open Scope string_scope.
Set Warnings "-inexact-float".
Set Warnings "-clear-no-such-hyp".

(** ** Python values, exceptions and results *)

(** The values that travel through keyword arguments: alignment names, font
    sizes and families, colours given by name or as an RGBA tuple. *)
Inductive pyval : Type :=
| VNone
| VStr (s : string)
| VInt (n : Z)
| VFloat (x : float)
| VRGB (r g b : float)
| VRGBA (r g b a : float).

(** A piece of text to draw: a [str], or a [ColorStr] carrying its colour. *)
Inductive text_t : Type :=
| Str (s : string)
| ColorStr (s : string) (c : pyval).

(** The message of an exception: text, and interpolated values which Python
    shows by their [str()]. *)
Inductive msg_part : Type :=
| Txt (s : string)
| Fmt (v : pyval)
| FmtSeq (ts : list text_t).

Definition message : Type := list msg_part.
Definition msg_of_string (s : string) : message := [Txt s].
Coercion msg_of_string : string >-> message.

Inductive exn : Type :=
| ValueError (msg : message)
| NameError (name : string)
| UnboundLocalError (name : string)
| KeyError (key : string)
| IndexError (msg : message)
| TypeError (msg : message)
| AssertionError (msg : message)
| NotImplementedError (msg : message)
| Exception (msg : message)
| FieldAllNaNError.

Inductive res (A : Type) : Type :=
| Ok (a : A)
| Raise (e : exn).
Arguments Ok {A} a.
Arguments Raise {A} e.

#[global] Instance res_ret : MRet res := fun _ a => Ok a.
#[global] Instance res_bind : MBind res := fun _ _ f m =>
  match m with
  | Ok a => f a
  | Raise e => Raise e
  end.

Definition is_Ok {A} (r : res A) : Prop := exists a, r = Ok a.

(** ** Calls on collaborators

    A computation that calls a drawing surface: the calls issued, in order,
    and the result.  The calls issued before an exception stay issued. *)
Definition trace (C A : Type) : Type := (list C * res A)%type.

#[global] Instance trace_ret {C} : MRet (trace C) := fun _ a => ([], Ok a).
#[global] Instance trace_bind {C} : MBind (trace C) := fun _ _ f m =>
  match m with
  | (w, Ok a) => let '(w', r) := f a in ((w ++ w')%list, r)
  | (w, Raise e) => (w, Raise e)
  end.

Definition emit {C} (c : C) : trace C unit := ([c], Ok tt).
Definition lift {C A} (r : res A) : trace C A := ([], r).
Definition throw {C A} (e : exn) : trace C A := ([], Raise e).

(** ** Python string helpers *)

Definition tab : string := String "009"%char EmptyString.
Definition newline : string := String "010"%char EmptyString.

(** [str(n)] for an [int]. *)
Definition str_of_Z (n : Z) : string := NilZero.string_of_int (Z.to_int n).

(** The ASCII characters for which [str.isspace] holds. *)
Definition is_space (c : ascii) : bool :=
  let n := nat_of_ascii c in
  ((9 <=? n)%nat && (n <=? 13)%nat) || ((28 <=? n)%nat && (n <=? 32)%nat).

Fixpoint lstrip (s : string) : string :=
  match s with
  | String c s' => if is_space c then lstrip s' else s
  | EmptyString => EmptyString
  end.

(** [rstrip] keeps a character when something other than white space
    follows it. *)
Fixpoint rstrip (s : string) : string :=
  match s with
  | String c s' =>
      match rstrip s' with
      | EmptyString => if is_space c then EmptyString else String c EmptyString
      | r => String c r
      end
  | EmptyString => EmptyString
  end.

(** [s.strip()] *)
Definition strip (s : string) : string := rstrip (lstrip s).

(** [s.split(sep)] for a non-empty separator: the leftmost occurrences of
    [sep], not overlapping.  [skip] counts the characters of a separator
    just matched that are still to be dropped, [cur] is the piece read so
    far. *)
Fixpoint split_aux (sep : string) (skip : nat) (cur s : string) : list string :=
  match s with
  | EmptyString => [cur]
  | String c s' =>
      match skip with
      | S k => split_aux sep k cur s'
      | O =>
          if String.prefix sep s
          then cur :: split_aux sep (String.length sep - 1) EmptyString s'
          else split_aux sep 0 (cur +:+ String c EmptyString) s'
      end
  end.

Definition split (sep s : string) : list string := split_aux sep 0 EmptyString s.

(** [s.split(c, 1)] for a single character [c]: the part before the first
    [c] and, when there is one, the part after it. *)
Fixpoint split1 (c : ascii) (s : string) : string * option string :=
  match s with
  | EmptyString => (EmptyString, None)
  | String a s' =>
      if Ascii.eqb a c then (EmptyString, Some s')
      else let '(l, r) := split1 c s' in (String a l, r)
  end.

Fixpoint spaces (n : nat) : string :=
  match n with
  | O => EmptyString
  | S k => String " "%char (spaces k)
  end.

(** [f"{s:>w}"] and [f"{s:<w}"] *)
Definition rjust (w : nat) (s : string) : string := spaces (w - String.length s) +:+ s.
Definition ljust (w : nat) (s : string) : string := s +:+ spaces (w - String.length s).

(** [c.upper()] on ASCII letters. *)
Definition upper_ascii (c : ascii) : ascii :=
  let n := nat_of_ascii c in
  if ((97 <=? n)%nat && (n <=? 122)%nat) then ascii_of_nat (n - 32) else c.

(** ** [BoxLocation] (plot.py) *)

Module BoxLocation.

(** The location parameter is an [int] or a [str]. *)
Inductive loc_param : Type :=
| LocInt (n : Z)
| LocStr (s : string).

Definition str (loc : loc_param) : string :=
  match loc with
  | LocInt n => str_of_Z n
  | LocStr s => s
  end.

(** [loc in (0, '0', 'b', 'bottom')]: the component is a [str], which never
    equals the [int] member of the tuple. *)
Definition _eval_loc_vert (loc : string) : res string :=
  if bool_decide (loc ∈ ["0"; "b"; "bottom"]) then Ok "b"
  else if bool_decide (loc ∈ ["1"; "c"; "center"]) then Ok "c"
  else if bool_decide (loc ∈ ["2"; "t"; "top"]) then Ok "t"
  else Raise (ValueError ("invalid vertical location component '" +:+ loc +:+ "'")).

Definition _eval_loc_horz (loc : string) : res string :=
  if bool_decide (loc ∈ ["0"; "l"; "left"]) then Ok "l"
  else if bool_decide (loc ∈ ["1"; "c"; "center"]) then Ok "c"
  else if bool_decide (loc ∈ ["2"; "r"; "right"]) then Ok "r"
  else Raise (ValueError ("invalid horizontal location component '" +:+ loc +:+ "'")).

(** The last branch of the source reads [line.split(' ', 1)]; no name
    [line] is bound in the method or in the module. *)
Definition _prepare_loc (self_loc : loc_param) : res (string * string) :=
  let loc := str self_loc in
  '(loc_y, loc_x) ←
    match loc with
    | String a (String b EmptyString) => Ok (String a EmptyString, String b EmptyString)
    | _ => if String.eqb loc "center" then Ok (loc, loc)
           else Raise (NameError "line")
    end;
  loc_y ← _eval_loc_vert loc_y;
  loc_x ← _eval_loc_horz loc_x;
  Ok (loc_y, loc_x).

Record t : Type := mk { loc : loc_param; loc_y : string; loc_x : string }.

Definition __init__ (loc : loc_param) : res t :=
  '(loc_y, loc_x) ← _prepare_loc loc;
  Ok (mk loc loc_y loc_x).

Definition get_va (self : t) : res string :=
  match loc_y self with
  | "b" => Ok "baseline"
  | "c" => Ok "center_baseline"
  | "t" => Ok "top"
  | k => Raise (KeyError k)
  end.

Definition get_ha (self : t) : res string :=
  match loc_x self with
  | "l" => Ok "left"
  | "c" => Ok "center"
  | "r" => Ok "right"
  | k => Raise (KeyError k)
  end.

Definition get_y0 (self : t) (dy : float) : res float :=
  match loc_y self with
  | "b" => Ok (0.0 + dy)%float
  | "c" => Ok 0.5%float
  | "t" => Ok (1.0 - dy)%float
  | k => Raise (KeyError k)
  end.

Definition get_x0 (self : t) (dx : float) : res float :=
  match loc_x self with
  | "l" => Ok (0.0 + dx)%float
  | "c" => Ok 0.5%float
  | "r" => Ok (1.0 - dx)%float
  | k => Raise (KeyError k)
  end.

(** The alignment and baseline values of a location parameter, derived in
    the order in which [FlexAxesTextBox.text] derives them. *)
Definition derive (loc : loc_param) (dx dy : float) : res (string * string * float * float) :=
  loc ← __init__ loc;
  ha ← get_ha loc;
  va ← get_va loc;
  x0 ← get_x0 loc dx;
  y0 ← get_y0 loc dy;
  Ok (ha, va, x0, y0).

(** The table of the class docstring: code, short form, long form. *)
Definition choices : list (string * string * string) :=
  [ ("00", "bl", "bottom left"); ("01", "bc", "bottom center"); ("02", "br", "bottom right");
    ("10", "cl", "center left"); ("11", "cc", "center"); ("12", "cr", "center right");
    ("20", "tl", "top left"); ("21", "tc", "top center"); ("22", "tr", "top right") ].

End BoxLocation.

(** ** [FlexAxesTextBox] (plot.py) *)

Abbreviation kwargs := (gmap string pyval).

Module FlexAxesTextBox.
Import BoxLocation.

(** What the methods need of [self]: the unit distances computed by
    [compute_unit_distances] and the baseline switch for debugging. *)
Record t : Type := mk {
  dx : float;
  dy : float;
  _show_baseline : bool;
  _baseline_kwargs : kwargs;
}.

(** Calls on the matplotlib axes [self.ax]. *)
Inductive ax_call : Type :=
| ax_text (x y : float) (s : text_t) (kw : kwargs)
| ax_axhline (y : float) (kw : kwargs).

(** A drawing computation on the axes of the box. *)
Abbreviation draw := (trace ax_call).

Definition is_str (v : pyval) (s : string) : bool :=
  match v with
  | VStr s' => String.eqb s' s
  | _ => false
  end.

(** [kwargs.get(k1, kwargs.get(k2, d))] *)
Definition get2 (kw : kwargs) (k1 k2 : string) (d : pyval) : pyval :=
  default (default d (kw !! k2)) (kw !! k1).

Definition text (self : t) (loc : loc_param) (s : text_t)
    (dx dy : option float) (kw : kwargs) : draw unit :=
  let dx := default 0.0%float dx in
  let dy := default 0.0%float dy in
  (* Derive location variables from parameter *)
  '(ha, va, x0, y0) ← lift (derive loc (FlexAxesTextBox.dx self) (FlexAxesTextBox.dy self));
  (* Text position *)
  let x := (x0 + dx * FlexAxesTextBox.dx self)%float in
  let y := (y0 + dy * FlexAxesTextBox.dy self)%float in
  (* Add alignment parameters, unless specified in input kwargs *)
  let kw := <["ha" := get2 kw "horizontalalignment" "ha" (VStr ha)]> kw in
  let kw := <["va" := get2 kw "verticalalignment" "va" (VStr va)]> kw in
  _ ← (if is_str (default VNone (kw !! "va")) "top_baseline"
       then match kw !! "vs" with
            | Some v => throw (NotImplementedError [Txt "verticalalignment='"; Fmt v; Txt "'"])
            | None => throw (KeyError "vs")
            end
       else mret tt);
  let kw := match s with
            | ColorStr _ c => <["color" := c]> kw
            | Str _ => kw
            end in
  (* Add text *)
  _ ← emit (ax_text x y s kw);
  if _show_baseline self then emit (ax_axhline y (_baseline_kwargs self)) else mret tt.

(** [kwargs.pop('color', kwargs.pop('c', 'black'))]: the inner [pop] is
    evaluated first, and both keys leave [kwargs]. *)
Definition pop_color (kw : kwargs) : pyval * kwargs :=
  (default (default (VStr "black") (kw !! "c")) (kw !! "color"),
   delete "color" (delete "c" kw)).

Definition is_none (v : pyval) : bool :=
  match v with
  | VNone => true
  | _ => false
  end.

Definition index_error : exn := IndexError "list index out of range".

(** [for j in range(len(block)): if colors_blocks[i][j] is None: ...] on a
    colour list that is given; [n] is [len(block)]. *)
Fixpoint fill_line_colors (default_color : pyval) (n : nat) (cs : list pyval)
    : res (list pyval) :=
  match n with
  | O => Ok cs
  | S k =>
      match cs with
      | [] => Raise index_error
      | c :: cs' =>
          rest ← fill_line_colors default_color k cs';
          Ok ((if is_none c then default_color else c) :: rest)
      end
  end.

(** [for i, block in enumerate(blocks)]: prepare the line colours of every
    block.  The test [len(colors_blocks) != len(blocks)] of the inner
    [elif] is false whenever this loop is reached. *)
Fixpoint fill_colors (default_color : pyval) (blocks : list (list text_t))
    (colors_blocks : list (option (list pyval))) : res (list (list pyval)) :=
  match blocks with
  | [] => Ok []
  | block :: blocks' =>
      match colors_blocks with
      | [] => Raise index_error
      | c :: colors_blocks' =>
          line ← match c with
                 | None => Ok (replicate (length block) default_color)
                 | Some cs => fill_line_colors default_color (length block) cs
                 end;
          rest ← fill_colors default_color blocks' colors_blocks';
          Ok (line :: rest)
      end
  end.

(** [[[l for l in lst[::-1]] for lst in lsts[::-1]]] *)
Definition revert {A} (lsts : list (list A)) : list (list A) :=
  reverse <$> reverse lsts.

(** [for j, line in enumerate(block)]; [cs] holds [colors_blocks[i][j:]].
    Returns the running [dy]. *)
Fixpoint draw_lines (self : t) (loc : loc_param) (dx : option float) (kw : kwargs)
    (dy_line : float) (block : list text_t) (cs : list pyval) (dy : float) : draw float :=
  match block with
  | [] => mret dy
  | line :: block' =>
      c ← lift (match cs with
                | c :: _ => Ok c
                | [] => Raise index_error
                end);
      _ ← text self loc line dx (Some dy) (<["color" := c]> kw);
      draw_lines self loc dx kw dy_line block' (tail cs) (dy + dy_line)%float
  end.

(** [for i, block in enumerate(blocks)]; [cbs] holds [colors_blocks[i:]]. *)
Fixpoint draw_blocks (self : t) (loc : loc_param) (dx : option float) (kw : kwargs)
    (dy_line dy_block : float) (blocks : list (list text_t)) (cbs : list (list pyval))
    (dy : float) : draw float :=
  match blocks with
  | [] => mret dy
  | block :: blocks' =>
      dy ← draw_lines self loc dx kw dy_line block (hd [] cbs) dy;
      draw_blocks self loc dx kw dy_line dy_block blocks' (tail cbs) (dy + dy_block)%float
  end.

(** [colors]: [None], or a list with, per block, [None] or a list of
    colours in which [VNone] omits a line. *)
Definition colors_t : Type := option (list (option (list pyval))).

(** [text_blocks].  The keyword [dx], which the source leaves in
    [**kwargs] and hands on to [text], is a parameter of its own; [kw]
    holds the formatting options.  The method fills the colour lists it
    is given in place: the result is the state of [colors] afterwards.
    After [del colors] the message of the length check reads the name
    [colors] again. *)
Definition text_blocks (self : t) (loc : loc_param) (blocks : list (list text_t))
    (dy0 dy_line dy_block : option float) (reverse : bool) (colors : colors_t)
    (dx : option float) (kw : kwargs) : draw colors_t :=
  let dy_line := default 2.5%float dy_line in
  let dy0 := default dy_line dy0 in
  let dy_block := default dy_line dy_block in
  (* Fetch text color (fall-back if no line-specific color) *)
  let '(default_color, kw) := pop_color kw in
  (* Prepare line colors *)
  colors_blocks ← lift (match colors with
                        | None => Ok (replicate (length blocks) None)
                        | Some cbs =>
                            if (length cbs =? length blocks)%nat then Ok cbs
                            else Raise (UnboundLocalError "colors")
                        end);
  filled ← lift (fill_colors default_color blocks colors_blocks);
  let '(blocks', colors') :=
    if reverse then (revert blocks, revert filled) else (blocks, filled) in
  _ ← draw_blocks self loc dx kw dy_line dy_block blocks' colors' dy0;
  mret (match colors with
        | None => None
        | Some _ => Some (Some <$> filled)
        end).

(** [text_block]: [self.text_blocks(loc, [block], colors=[colors], **kwargs)] *)
Definition text_block (self : t) (loc : loc_param) (block : list text_t)
    (colors : option (list pyval))
    (dy0 dy_line dy_block : option float) (reverse : bool)
    (dx : option float) (kw : kwargs) : draw colors_t :=
  text_blocks self loc [block] dy0 dy_line dy_block reverse (Some [colors]) dx kw.

(** The forms of the argument [blocks] of [text_blocks_hfill]: a string or
    a list; of a block: a string or a list of lines; of a line: a string
    or a sequence of parts. *)
Inductive line_t : Type :=
| LStr (s : string)
| LSeq (parts : list text_t).

Inductive block_t : Type :=
| BStr (s : string)
| BList (lines : list line_t).

Inductive blocks_t : Type :=
| BlocksStr (s : string)
| BlocksList (blocks : list block_t).

(** Obtain left and right part of line *)
Definition split_line (line : line_t) : res (text_t * text_t) :=
  match line with
  | LStr s =>
      match split1 "009"%char s with
      | (str_l, Some str_r) => Ok (Str str_l, Str str_r)
      | (_, None) => Raise (ValueError "not enough values to unpack (expected 2, got 1)")
      end
  | LSeq [str_l; str_r] => Ok (str_l, str_r)
  | LSeq parts => Raise (ValueError [Txt "invalid line: "; FmtSeq parts])
  end.

(** Handle case where a multiblock string is embedded in a blocks list
    alongside string or list blocks *)
Definition flatten_blocks (blocks_orig : list block_t) : list block_t :=
  blocks_orig ≫= (fun block =>
    match block with
    | BStr s => BStr <$> split (newline +:+ newline) (strip s)
    | BList _ => [block]
    end).

Definition block_lines (block : block_t) : list line_t :=
  match block with
  | BStr s => LStr <$> split newline (strip s)
  | BList lines => lines
  end.

(** Separate left and right parts of lines *)
Fixpoint split_lines (block : list line_t) : res (list text_t * list text_t) :=
  match block with
  | [] => Ok ([], [])
  | line :: block' =>
      '(str_l, str_r) ← split_line line;
      '(ls, rs) ← split_lines block';
      Ok (str_l :: ls, str_r :: rs)
  end.

Fixpoint split_blocks (blocks : list block_t)
    : res (list (list text_t) * list (list text_t)) :=
  match blocks with
  | [] => Ok ([], [])
  | block :: blocks' =>
      '(ls, rs) ← split_lines (block_lines block);
      '(blocks_l, blocks_r) ← split_blocks blocks';
      Ok (ls :: blocks_l, rs :: blocks_r)
  end.

(** [text_blocks_hfill].  The two calls of [text_blocks] receive the same
    keyword arguments, hence the same [colors] object: the second call
    sees it as the first one left it. *)
Definition text_blocks_hfill (self : t) (loc_y : loc_param) (blocks : blocks_t)
    (dy0 dy_line dy_block : option float) (reverse : bool) (colors : colors_t)
    (dx : option float) (kw : kwargs) : draw colors_t :=
  let blocks :=
    match blocks with
    | BlocksStr s => BStr <$> split (newline +:+ newline) (strip s)
    | BlocksList bs => bs
    end in
  let blocks := flatten_blocks blocks in
  '(blocks_l, blocks_r) ← lift (split_blocks blocks);
  let dx_l := dx in
  let dx_r := PrimFloat.opp <$> dx_l in
  (* Add lines to box *)
  colors ← text_blocks self (LocStr "bl") blocks_l dy0 dy_line dy_block reverse colors dx_l kw;
  text_blocks self (LocStr "br") blocks_r dy0 dy_line dy_block reverse colors dx_r kw.

(** [text_block_hfill]: [self.text_blocks_hfill(loc_y, [block], **kwargs)] *)
Definition text_block_hfill (self : t) (loc_y : loc_param) (block : block_t)
    (dy0 dy_line dy_block : option float) (reverse : bool) (colors : colors_t)
    (dx : option float) (kw : kwargs) : draw colors_t :=
  text_blocks_hfill self loc_y (BlocksList [block]) dy0 dy_line dy_block reverse colors dx kw.

(** The dictionary that [__init__] creates as [_baseline_kwargs_default] and
    binds to [_baseline_kwargs] as well. *)
Definition _baseline_kwargs_default : kwargs :=
  {["color" := VStr "black"; "linewidth" := VFloat 0.5]}.

(** [show_baseline].  [defaults] is the content of the dictionary
    [self._baseline_kwargs_default].  The method binds [_baseline_kwargs]
    to this very dictionary and then updates it in place: the box and the
    content of the default dictionary afterwards. *)
Definition show_baseline (self : t) (defaults : kwargs) (val : bool) (kw : kwargs)
    : t * kwargs :=
  let updated := kw ∪ defaults in
  (mk (dx self) (dy self) val updated, updated).

(** Add sample text labels in corners etc. *)
Definition add_sample_labels (self : t) : draw unit :=
  let kw : kwargs := {["fontsize" := VInt 9]} in
  _ ← text self (LocStr "bl") (Str "bot. left") None None kw;
  _ ← text self (LocStr "bc") (Str "bot. center") None None kw;
  _ ← text self (LocStr "br") (Str "bot. right") None None kw;
  _ ← text self (LocStr "cl") (Str "center left") None None kw;
  _ ← text self (LocStr "cc") (Str "center") None None kw;
  _ ← text self (LocStr "cr") (Str "center right") None None kw;
  _ ← text self (LocStr "tl") (Str "top left") None None kw;
  _ ← text self (LocStr "tc") (Str "top center") None None kw;
  text self (LocStr "tr") (Str "top right") None None kw.

End FlexAxesTextBox.

(** ** [ColorStr] (plot.py) *)

Module ColorStr.

(** [str.split(s, sep, maxsplit)] for a non-empty separator: [n] is the
    number of splits that are left, [None] when it is not bounded; [skip]
    and [cur] are as in [split_aux]. *)
Fixpoint split_max_aux (sep : string) (n : option nat) (skip : nat) (cur s : string)
    : list string :=
  match s with
  | EmptyString => [cur]
  | String c s' =>
      match skip with
      | S k => split_max_aux sep n k cur s'
      | O =>
          match n with
          | Some O => [cur +:+ s]
          | _ =>
              if String.prefix sep s
              then cur :: split_max_aux sep (Nat.pred <$> n) (String.length sep - 1)
                                        EmptyString s'
              else split_max_aux sep n 0 (cur +:+ String c EmptyString) s'
          end
      end
  end.

(** [str.split(s, sep, maxsplit)] with a separator; a negative [maxsplit]
    does not bound the number of splits. *)
Definition str_split (s sep : string) (maxsplit : Z) : res (list string) :=
  if String.eqb sep EmptyString then Raise (ValueError "empty separator")
  else Ok (split_max_aux sep (if (maxsplit <? 0)%Z then None else Some (Z.to_nat maxsplit))
                         0 EmptyString s).

(** [str(self)] *)
Definition __str__ (self : text_t) : string :=
  match self with
  | ColorStr s _ => s
  | Str s => s
  end.

(** [ColorStr(s, c).split(sep, maxsplit)] *)
Definition split (s : string) (c : pyval) (sep : string) (maxsplit : Z) : res (list text_t) :=
  parts ← str_split s sep maxsplit;
  Ok (List.map (fun part => ColorStr part c) parts).

(** [ColorStr(s, c).strip()] *)
Definition strip (s : string) (c : pyval) : text_t := ColorStr (strip s) c.

End ColorStr.

(** ** Formatting numbers

    [format(x, spec)] for a float [x]: the decimal digits are those of the
    exact value of [x], rounded half to even at the requested position. *)

(** [float(n)] for an [int] of magnitude below [2^63]. *)
Definition float_of_Z (n : Z) : float :=
  if (n <? 0)%Z then (- PrimFloat.of_uint63 (Uint63.of_Z (- n)))%float
  else PrimFloat.of_uint63 (Uint63.of_Z n).

(** The value [m * 2^e] as a fraction of two positive integers. *)
Definition float_frac (m : positive) (e : Z) : Z * Z :=
  if (0 <=? e)%Z then (Z.pos m * 2 ^ e, 1)%Z else (Z.pos m, 2 ^ (- e))%Z.

Definition round_half_even (num den : Z) : Z :=
  let q := (num / den)%Z in
  let r := (num mod den)%Z in
  match (2 * r ?= den)%Z with
  | Lt => q
  | Gt => (q + 1)%Z
  | Eq => if Z.even q then q else (q + 1)%Z
  end.

Fixpoint zeros (n : nat) : string :=
  match n with
  | O => EmptyString
  | S k => String "0"%char (zeros k)
  end.

(** The decimal digits of [n >= 0], padded with zeros to [w] digits. *)
Definition digits (w : nat) (n : Z) : string :=
  let s := str_of_Z n in zeros (w - String.length s) +:+ s.

Definition sign_str (s : bool) : string := if s then "-" else EmptyString.

(** [r] is the magnitude scaled by [10^p]: the integer part, and [p]
    decimals when [p > 0]. *)
Definition fixed_str (p : nat) (r : Z) : string :=
  let pow := (10 ^ Z.of_nat p)%Z in
  str_of_Z (r / pow) +:+
  match p with
  | O => EmptyString
  | S _ => "." +:+ digits p (r mod pow)
  end.

(** [f"{x:.pf}"] *)
Definition format_f (p : nat) (x : float) : string :=
  match Prim2SF x with
  | S754_nan => "nan"
  | S754_infinity s => sign_str s +:+ "inf"
  | S754_zero s => sign_str s +:+ fixed_str p 0
  | S754_finite s m e =>
      let '(num, den) := float_frac m e in
      sign_str s +:+ fixed_str p (round_half_even (num * 10 ^ Z.of_nat p) den)
  end.

(** [f"{x:.p%}"]: the value is multiplied by 100 as a float first. *)
Definition format_pct (p : nat) (x : float) : string :=
  format_f p (x * 100)%float +:+ "%".

(** The number of decimal digits of [n > 0]. *)
Fixpoint ndigits_aux (fuel : nat) (n : Z) : Z :=
  match fuel with
  | O => 0%Z
  | S k => if (n <? 10)%Z then 1%Z else (1 + ndigits_aux k (n / 10))%Z
  end.

Definition ndigits (n : Z) : Z := ndigits_aux (S (Z.to_nat (Z.log2 n))) n.

(** [floor (log10 (num / den))] for positive [num] and [den]. *)
Definition log10_floor (num den : Z) : Z :=
  if (den <=? num)%Z then (ndigits (num / den) - 1)%Z
  else (- ndigits ((den + num - 1) / num - 1))%Z.

(** Scientific notation with [p] decimals: the [p + 1] digits of the
    significand, as an integer, and the decimal exponent. *)
Definition sci (p : nat) (num den : Z) : Z * Z :=
  let x := log10_floor num den in
  let k := (Z.of_nat p - x)%Z in
  let r := if (0 <=? k)%Z then round_half_even (num * 10 ^ k) den
           else round_half_even num (den * 10 ^ (- k)) in
  if (10 ^ Z.of_nat (S p) <=? r)%Z then ((10 ^ Z.of_nat p)%Z, (x + 1)%Z) else (r, x).

Definition exp_str (upper : bool) (x : Z) : string :=
  (if upper then "E" else "e") +:+ (if (x <? 0)%Z then "-" else "+") +:+ digits 2 (Z.abs x).

(** [f"{x:.pe}"], and [f"{x:.pE}"] when [upper]. *)
Definition format_e (upper : bool) (p : nat) (x : float) : string :=
  match Prim2SF x with
  | S754_nan => if upper then "NAN" else "nan"
  | S754_infinity s => sign_str s +:+ (if upper then "INF" else "inf")
  | S754_zero s => sign_str s +:+ fixed_str p 0 +:+ exp_str upper 0
  | S754_finite s m e =>
      let '(num, den) := float_frac m e in
      let '(r, x) := sci p num den in
      sign_str s +:+ fixed_str p r +:+ exp_str upper x
  end.

(** Drop the zeros that end a decimal fraction, and the point with them when
    no decimal is left. *)
Fixpoint rstrip_zeros_aux (s : string) : string :=
  match s with
  | String c s' =>
      match rstrip_zeros_aux s' with
      | EmptyString => if (Ascii.eqb c "0" || Ascii.eqb c ".")%bool then EmptyString
                       else String c EmptyString
      | r => String c r
      end
  | EmptyString => EmptyString
  end.

Fixpoint has_point (s : string) : bool :=
  match s with
  | String c s' => Ascii.eqb c "." || has_point s'
  | EmptyString => false
  end.

Definition strip_zeros (s : string) : string :=
  if has_point s then
    match split1 "." s with
    | (i, Some f) => i +:+ rstrip_zeros_aux ("." +:+ f)
    | (i, None) => i
    end
  else s.

(** [f"{x:g}"]: six significant digits; fixed notation when the decimal
    exponent lies in [-4 .. 5], and no trailing zeros. *)
Definition format_g (x : float) : string :=
  match Prim2SF x with
  | S754_nan => "nan"
  | S754_infinity s => sign_str s +:+ "inf"
  | S754_zero s => sign_str s +:+ "0"
  | S754_finite s m e =>
      let '(num, den) := float_frac m e in
      let '(r, x) := sci 5 num den in
      if ((-4 <=? x)%Z && (x <? 6)%Z)%bool then
        let p := Z.to_nat (5 - x) in
        sign_str s +:+ strip_zeros (fixed_str p (round_half_even (num * 10 ^ Z.of_nat p) den))
      else
        sign_str s +:+ strip_zeros (fixed_str 5 r) +:+ exp_str false x
  end.

(** ** [FlexPlotConcentration] (plot.py) *)

Module FlexPlotConcentration.

(** *** The text boxes around the map plot *)









(** *** The contour levels, their colours and the legend labels *)

(** [float(n)] *)
Definition float_of_nat (n : nat) : float := float_of_Z (Z.of_nat n).

(** [np.linspace(0, 1, num)] *)
Definition linspace01 (num : nat) : list float :=
  let div := (num - 1)%nat in
  let step := (1 / float_of_nat div)%float in
  let y := (fun i => (float_of_nat i * (if (div =? 0)%nat then 1 else step) + 0)%float)
             <$> seq 0 num in
  if (1 <? num)%nat then <[(num - 1)%nat := 1%float]> y else y.

(** What [map_add_particle_concentrations] stores on [self]. *)
Record props : Type := mk_props {
  levels : list float;
  extend : string;
  colors : list pyval;
}.

(** [colors[1:-1]], [colors[:-1]], [colors[1:]] *)
Definition slice_1_m1 {A} (l : list A) : list A := take (length l - 2) (drop 1 l).
Definition slice_m1 {A} (l : list A) : list A := take (length l - 1) l.
Definition slice_1 {A} (l : list A) : list A := drop 1 l.

(** [{'none': colors[1:-1], 'min': colors[:-1], 'max': colors[1:],
     'both': colors[:]}[extend]] *)
Definition colors_by_extend {A} (colors : list A) (extend : string) : res (list A) :=
  match extend with
  | "none" => Ok (slice_1_m1 colors)
  | "min" => Ok (slice_m1 colors)
  | "max" => Ok (slice_1 colors)
  | "both" => Ok colors
  | k => Raise (KeyError k)
  end.

(** The colours and properties that [map_add_particle_concentrations]
    derives from the colour map and stores, for a level ladder [levels]
    (in the source [10**levels_log10]) and an extend mode (in the source
    fixed to ['max']). *)
Definition store_properties (cmap : float -> pyval) (levels : list float)
    (extend : string) : res props :=
  let colors := cmap <$> linspace01 (length levels + 1) in
  colors ← colors_by_extend colors extend;
  Ok (mk_props levels extend colors).

Definition format_level (lvl : option float) : string :=
  match lvl with
  | None => EmptyString
  | Some lvl => strip (format_g lvl)
  end.

(** [f"{format_level(lvl0):>6} > {format_level(lvl1):<6}"] *)
Definition format_label (lvl0 lvl1 : option float) : string :=
  rjust 6 (format_level lvl0) +:+ " > " +:+ ljust 6 (format_level lvl1).

Definition nat_str (n : nat) : string := str_of_Z (Z.of_nat n).

(** [self.levels[0]] and [self.levels[-1]] *)
Definition first_level (levels : list float) : res float :=
  match levels with
  | l :: _ => Ok l
  | [] => Raise (IndexError "list index out of range")
  end.
Definition last_level (levels : list float) : res float :=
  match last levels with
  | Some l => Ok l
  | None => Raise (IndexError "list index out of range")
  end.

Definition _format_level_ranges (self : props) : res (list string) :=
  let labels := [] in
  (* 'Under' color *)
  labels ← (if bool_decide (extend self ∈ ["min"; "both"])
            then l ← first_level (levels self);
                 Ok (labels ++ [format_label None (Some l)])%list
            else Ok labels);
  (* Regular colors *)
  let labels :=
    (labels ++ zip_with (fun lvl0 lvl1 => format_label (Some lvl0) (Some lvl1))
                        (slice_m1 (levels self)) (slice_1 (levels self)))%list in
  (* 'Over' color *)
  labels ← (if bool_decide (extend self ∈ ["max"; "both"])
            then l ← last_level (levels self);
                 Ok (labels ++ [format_label None (Some l)])%list
            else Ok labels);
  if (length labels =? length (colors self))%nat then Ok labels
  else Raise (AssertionError (nat_str (length labels) +:+ " != "
                              +:+ nat_str (length (colors self)))).

(** *** Filling the boxes

    The texts are those of the source, whose values are fixed for the time
    being; a float is interpolated by its [repr]. *)

(** Fill the box above the map plot. *)
Definition fill_box_top (box : FlexAxesTextBox.t) : FlexAxesTextBox.draw unit :=
  let varname := "Concentration" in
  let level_str := "500 $\endash$ 2000 m AGL" in
  let species := "Cs-137" in
  let timestep_fmtd := "2019-05-28 03:00 UTC" in
  let release_site := "Goesgen" in
  let tz_str := "T0 + 03:00 h" in
  let xx_large : kwargs := {["size" := VStr "xx-large"]} in
  let large : kwargs := {["size" := VStr "large"]} in
  (* Top left: variable and level *)
  _ ← FlexAxesTextBox.text box (BoxLocation.LocStr "tl")
        (Str (varname +:+ " " +:+ level_str)) None None xx_large;
  (* Top center: species *)
  _ ← FlexAxesTextBox.text box (BoxLocation.LocStr "tc") (Str species) None None xx_large;
  (* Top right: datetime *)
  _ ← FlexAxesTextBox.text box (BoxLocation.LocStr "tr") (Str timestep_fmtd) None None xx_large;
  (* Bottom left: release site *)
  _ ← FlexAxesTextBox.text box (BoxLocation.LocStr "bl")
        (Str ("Release site: " +:+ release_site)) None None large;
  (* Bottom right: time zone *)
  FlexAxesTextBox.text box (BoxLocation.LocStr "br") (Str tz_str) None None large.

(** Fill the box to the top-right of the map plot.  The block handed to
    [text_block_hfill] is a list of pairs of a colour label and a range
    label; [color_labels[0]] is read on the way. *)
Definition fill_box_top_right (self : props) (box : FlexAxesTextBox.t)
    : FlexAxesTextBox.draw unit :=
  let varname := "Concentration" in
  let unit_fmtd := "Bq m$^-3$" in
  (* Add box title *)
  _ ← FlexAxesTextBox.text box (BoxLocation.LocStr "tc")
        (Str (varname +:+ " (" +:+ unit_fmtd +:+ ")")) None None {["size" := VStr "large"]};
  (* Format level ranges (contour plot legend) *)
  labels ← lift (_format_level_ranges self);
  let color_labels := (fun c => ColorStr "###" c) <$> colors self in
  let block := zip_with (fun cl l => FlexAxesTextBox.LSeq [cl; Str l]) color_labels labels in
  _ ← lift (match colors self with
            | c :: _ => ColorStr.split "###" c "X" 1
            | [] => Raise FlexAxesTextBox.index_error
            end);
  _ ← FlexAxesTextBox.text_block_hfill box (BoxLocation.LocStr "b")
        (FlexAxesTextBox.BList block) (Some 2.0%float) (Some 2.5%float) None false None
        (Some 2.0%float) {["size" := VStr "medium"; "family" := VStr "monospace"]};
  mret tt.

(** The text of [info_blocks] in [fill_box_bottom_right], once [dedent] has
    removed the indentation. *)
Definition info_blocks : string :=
  let line (l r : string) : string := l +:+ tab +:+ r +:+ newline in
  let lat_fmtd := "47$^\circ$ 22' N (=47.37$^\circ$ N)" in
  let lon_fmtd := "7$^\circ$ 58' E (=7.97$^\circ$ E)" in
  line "Latitude:" lat_fmtd
  +:+ line "Longitude:" lon_fmtd
  +:+ line "Height:" "100 m AGL"
  +:+ newline
  +:+ line "Start:" "2019-05-28 00:00 UTC"
  +:+ line "End:" "2019-05-28 08:00 UTC"
  +:+ line "Rate:" "34722.2 Bq s$^{-1}$"
  +:+ line "Total Mass:" "1000000000.0 Bq"
  +:+ newline
  +:+ line "Substance:" "Cs$\endash$137"
  +:+ line "Half-Life:" "30.0 years"
  +:+ line "Deposit. Vel.:" "0.0015 m s$^{-1}$"
  +:+ line "Sediment. Vel.:" "0.0 m s$^{-1}$"
  +:+ line "Washout Coeff.:" "7e-05 s$^{-1}$"
  +:+ line "Washout Exponent:" "0.8".

(** Fill the box to the bottom-right of the map plot. *)
Definition fill_box_bottom_right (box : FlexAxesTextBox.t) : FlexAxesTextBox.draw unit :=
  (* Add box title *)
  _ ← FlexAxesTextBox.text box (BoxLocation.LocStr "tc") (Str "Release") None None
        {["size" := VStr "large"]};
  (* Add lines bottom-up (to take advantage of baseline alignment) *)
  let dy := 2.75%float in
  _ ← FlexAxesTextBox.text_blocks_hfill box (BoxLocation.LocStr "b")
        (FlexAxesTextBox.BlocksStr info_blocks) None (Some dy) None true None None
        {["size" := VStr "small"]};
  mret tt.

(** *** Saving the plot *)

(** [s.lower()] on ASCII letters. *)
Definition lower_ascii (c : ascii) : ascii :=
  let n := nat_of_ascii c in
  if ((65 <=? n)%nat && (n <=? 90)%nat) then ascii_of_nat (n + 32) else c.

Fixpoint lower (s : string) : string :=
  match s with
  | EmptyString => EmptyString
  | String c s' => String (lower_ascii c) (lower s')
  end.

(** [s.rfind(c)]: the index of the last [c] in [s], or [-1]. *)
Fixpoint rfind_aux (c : ascii) (i found : Z) (s : string) : Z :=
  match s with
  | EmptyString => found
  | String a s' => rfind_aux c (i + 1) (if Ascii.eqb a c then i else found) s'
  end.

Definition rfind (c : ascii) (s : string) : Z := rfind_aux c 0 (-1) s.

(** [s[i:]] for an index that is not negative. *)
Definition from_index (i : Z) (s : string) : string :=
  String.substring (Z.to_nat i) (String.length s - Z.to_nat i) s.

(** [os.path.splitext(p)[1]]: the extension starts at the last dot of the
    last component of the path, unless only dots come before it there. *)
Definition splitext_ext (p : string) : string :=
  let sepIndex := rfind "/" p in
  let dotIndex := rfind "." p in
  (* skip all leading dots *)
  let before := take (Z.to_nat (dotIndex - (sepIndex + 1)))
                     (drop (Z.to_nat (sepIndex + 1)) (list_ascii_of_string p)) in
  if (sepIndex <? dotIndex)%Z && existsb (fun a => negb (Ascii.eqb a ".")) before
  then from_index dotIndex p
  else EmptyString.

(** [os.path.basename(p)] *)
Definition basename (p : string) : string := from_index (rfind "/" p + 1) p.

(** Calls on the figure and on [matplotlib.pyplot]. *)
Inductive fig_call : Type :=
| fig_savefig (file_path : string) (kw : kwargs)
| plt_close.

(** [save]: [facecolor] and [edgecolor] are the colours that the figure
    reports.  The format that is derived or given does not reach
    [savefig]. *)
Definition save (facecolor edgecolor : pyval) (file_path : string) (format : option string)
    : trace fig_call unit :=
  format ← lift (match format with
                 | None =>
                     let ext := lower (splitext_ext file_path) in
                     if bool_decide (ext ∈ [".pdf"; ".png"]) then Ok (from_index 1 ext)
                     else Raise (ValueError
                            ("Cannot derive format from extension '" +:+ ext +:+ "'"
                             +:+ "derived from '" +:+ basename file_path +:+ "'"))
                 | Some format => Ok format
                 end);
  _ ← emit (fig_savefig file_path
              {["facecolor" := facecolor; "edgecolor" := edgecolor;
                "bbox_inches" := VStr "tight"; "pad_inches" := VFloat 0.15]});
  emit plt_close.

End FlexPlotConcentration.

(** ** Plot types (plots.py) *)

(** A [dict] whose order of insertion matters. *)
Definition dict (V : Type) : Type := list (string * V).

Fixpoint dict_get {V} (k : string) (d : dict V) : option V :=
  match d with
  | [] => None
  | (k', v) :: d' => if String.eqb k' k then Some v else dict_get k d'
  end.

(** [d[k] = v]: a key that is present keeps its position. *)
Fixpoint dict_set {V} (k : string) (v : V) (d : dict V) : dict V :=
  match d with
  | [] => [(k, v)]
  | (k', v') :: d' => if String.eqb k' k then (k, v) :: d' else (k', v') :: dict_set k v d'
  end.

(** [d[k]] *)
Definition dict_item {V} (k : string) (d : dict V) : res V :=
  match dict_get k d with
  | Some v => Ok v
  | None => Raise (KeyError k)
  end.

(** Capitalize the first letter while leaving all others as they are. *)
Definition capitalize (s : string) : string :=
  match s with
  | EmptyString => s
  | String c s' => String (upper_ascii c) s'
  end.

Definition colors_core_8 : list string :=
  ["bisque"; "violet"; "rebeccapurple"; "cornflowerblue";
   "forestgreen"; "yellowgreen"; "greenyellow"; "yellow"].

(** [[colors_core_8[i] for i in idxs]], for indices below 8. *)
Definition pick (idxs : list nat) : list string :=
  (fun i => default EmptyString (colors_core_8 !! i)) <$> idxs.

Definition colors_core_7 : list string := pick [0; 1; 2; 3; 5; 6; 7]%nat.
Definition colors_core_6 : list string := pick [1; 2; 3; 4; 5; 7]%nat.
Definition colors_core_5 : list string := pick [1; 2; 4; 5; 7]%nat.
Definition colors_core_4 : list string := pick [1; 2; 4; 7]%nat.

Definition color_under : string := "darkgray".
Definition color_over : string := "lightgray".

(** The table [{5: colors_core_4, ..., 9: colors_core_8}] *)
Definition colors_core (n_levels : Z) : option (list string) :=
  if (n_levels =? 5)%Z then Some colors_core_4
  else if (n_levels =? 6)%Z then Some colors_core_5
  else if (n_levels =? 7)%Z then Some colors_core_6
  else if (n_levels =? 8)%Z then Some colors_core_7
  else if (n_levels =? 9)%Z then Some colors_core_8
  else None.

Definition colors_flexplot (n_levels : Z) (extend : string) : res (list string) :=
  colors_core ← match colors_core n_levels with
                | Some cs => Ok cs
                | None => Raise (ValueError ("n_levels=" +:+ str_of_Z n_levels))
                end;
  if String.eqb extend "none" then Ok colors_core
  else if String.eqb extend "min" then Ok ([color_under] ++ colors_core)%list
  else if String.eqb extend "max" then Ok (colors_core ++ [color_over])%list
  else if String.eqb extend "both" then Ok ([color_under] ++ colors_core ++ [color_over])%list
  else Raise (ValueError ("extend='" +:+ extend +:+ "'")).

(** *** The plot, its configuration and its field *)

(** A label is a text; the label named ["lines"] is a list of texts. *)
Inductive label : Type :=
| L (s : string)
| Lines (ls : list string).

(** [config.labels], by group. *)
Record Labels : Type := mk_labels {
  top : dict string;
  right_top : dict label;
  right_middle : dict string;
  right_bottom : dict string;
  bottom : dict string;
}.

Record FontSizes : Type := mk_font_sizes {
  title_large : pyval;
  title_small : pyval;
  content_large : pyval;
  content_medium : pyval;
  content_small : pyval;
}.

(** The meta data, each value as the text that [str()] or [format()] gives
    for it; latitude and longitude of the release site as numbers. *)
Record MetaData : Type := mk_mdata {
  simulation_integr_start_rel : string;
  simulation_now : string;
  simulation_now_rel : string;
  simulation_model_name : string;
  simulation_start : string;
  species_name : string;
  variable_unit : string;            (* mdata.format("variable_unit") *)
  release_site_name : string;
  release_site_lat : float;
  release_site_lon : float;
}.

Record Field : Type := mk_field {
  fld : list (list float);
  lat : list float;
  lon : list float;
}.

Record BoxedPlotConfig : Type := mk_config {
  mdata : MetaData;
  labels : Labels;
  font_name : pyval;
  font_sizes : FontSizes;
  level_range_style : string;
  extend : string;
  legend_rstrip_zeros : bool;
  level_ranges_align : string;
  colors : list pyval;
  mark_field_max : bool;
  mark_release_site : bool;
  markers : option (dict kwargs);
}.

Record BoxedPlot : Type := mk_plot {
  config : BoxedPlotConfig;
  field : Field;
  levels : list float;
}.

(** The calls that the box fillers and [plot_add_markers] issue: on the text
    box, on the plot, on the map axes, and warnings. *)
Inductive call : Type :=
| box_text (s : string) (kw : kwargs)
| box_text_block (lines : list string) (kw : kwargs)
| box_color_rect (kw : kwargs)
| box_marker (kw : kwargs)
| plot_add_marker (kw : kwargs)
| ax_map_marker (kw : kwargs)
| warnings_warn (msg : string).

(** Keyword arguments written out in a call, before a dictionary that is
    unpacked into it and that holds none of their names. *)
Definition kw_add (items : list (string * pyval)) (kw : kwargs) : kwargs :=
  foldr (fun '(k, v) m => <[k := v]> m) kw items.

(** [np.isnan(fld).all()] *)
Definition all_nan (fld : list (list float)) : bool :=
  forallb (forallb PrimFloat.is_nan) fld.

(** [np.nanmax(fld)] *)
Definition nanmax (fld : list (list float)) : float :=
  foldl (fun acc x =>
           if PrimFloat.is_nan x then acc
           else if PrimFloat.is_nan acc then x
           else if PrimFloat.ltb acc x then x else acc)
        nan (concat fld).

(** Modelled from the spec: [Field.locate_max] of the data module, which is
    not part of the sources at hand.  On a field whose values are all NaN it
    raises [FieldAllNaNError]; otherwise it returns latitude and longitude
    of the position of the maximum. *)
Definition locate_max (f : Field) : res (float * float) :=
  if all_nan (fld f) then Raise FieldAllNaNError
  else
    let m := nanmax (fld f) in
    let hit := fun x => PrimFloat.eqb x m in
    match list_find (fun row => existsb hit row = true) (fld f) with
    | Some (j, row) =>
        match list_find (fun x => hit x = true) row, lat f !! j with
        | Some (i, _), Some la =>
            match lon f !! i with
            | Some lo => Ok (la, lo)
            | None => Raise (IndexError "index out of bounds")
            end
        | _, _ => Raise (IndexError "index out of bounds")
        end
    | None => Raise (IndexError "index out of bounds")
    end.

(** The text of the field maximum in [fill_box_right_middle]. *)
Definition s_val_of_max (fld_max : float) : string :=
  if PrimFloat.leb 0.001 fld_max && PrimFloat.ltb fld_max 0.01 then format_f 5 fld_max
  else if PrimFloat.leb 0.01 fld_max && PrimFloat.ltb fld_max 0.1 then format_f 4 fld_max
  else if PrimFloat.leb 0.1 fld_max && PrimFloat.ltb fld_max 1 then format_f 3 fld_max
  else if PrimFloat.leb 1 fld_max && PrimFloat.ltb fld_max 10 then format_f 2 fld_max
  else if PrimFloat.leb 10 fld_max && PrimFloat.ltb fld_max 100 then format_f 1 fld_max
  else if PrimFloat.leb 100 fld_max && PrimFloat.ltb fld_max 1000 then format_f 0 fld_max
  else format_e true 2 fld_max.

Definition assert_markers (cfg : BoxedPlotConfig) : res (dict kwargs) :=
  match markers cfg with
  | Some m => Ok m
  | None => Raise (AssertionError [])
  end.

Section box_fillers.

(** [format_level_ranges] of the formatting module, which is not part of
    the sources at hand: levels, style, extend, rstrip_zeros, align. *)
Variable format_level_ranges :
  list float -> string -> string -> bool -> string -> list string.

(** [for color in colors[::-1]]: one legend colour box per colour. *)
Fixpoint legend_color_boxes (dx_legend_box : pyval) (w_legend_box h_legend_box dy_line : float)
    (colors : list pyval) (dy : float) : trace call unit :=
  match colors with
  | [] => mret tt
  | color :: colors' =>
      _ ← emit (box_color_rect (kw_add
             [("loc", VStr "tc"); ("x_anker", VStr "left"); ("dx", dx_legend_box);
              ("dy", VFloat dy); ("w", VFloat w_legend_box); ("h", VFloat h_legend_box);
              ("fc", color); ("ec", VStr "black"); ("lw", VFloat 1.0)] ∅));
      legend_color_boxes dx_legend_box w_legend_box h_legend_box dy_line colors'
                         (dy - dy_line)%float
  end.

(** Fill the top box to the right of the map plot. *)
Definition fill_box_right_middle (plot : BoxedPlot) : trace call unit :=
  let cfg := config plot in
  let labels := right_middle (labels cfg) in
  let mdata := mdata cfg in
  (* Box title *)
  title_unit ← lift (dict_item "title_unit" labels);
  _ ← emit (box_text title_unit (kw_add
         [("loc", VStr "tc"); ("fontname", font_name cfg);
          ("size", title_small (font_sizes cfg))] ∅));
  let dy_line := 2.5%float in
  let w_legend_box := 4.0%float in
  let h_legend_box := 2.0%float in
  let dx_legend_box := (-10)%Z in
  let dx_legend_label := (-3)%Z in
  let dx_marker := (float_of_Z dx_legend_box + 0.5 * w_legend_box)%float in
  let dx_marker_label := (float_of_Z dx_legend_label - 0.5)%float in
  (* Vertical position of legend (depending on number of levels) *)
  let dy0_labels := (-5.0)%float in
  let dy0_boxes := (dy0_labels - 0.8 * h_legend_box)%float in
  (* Format level ranges (contour plot legend) *)
  let legend_labels :=
    format_level_ranges (levels plot) (level_range_style cfg) (extend cfg)
                        (legend_rstrip_zeros cfg) (level_ranges_align cfg) in
  (* Legend labels (level ranges) *)
  _ ← emit (box_text_block (reverse legend_labels) (kw_add
         [("loc", VStr "tc"); ("dy_unit", VFloat dy0_labels); ("dy_line", VFloat dy_line);
          ("dx", VInt dx_legend_label); ("ha", VStr "left"); ("fontname", font_name cfg);
          ("size", content_medium (font_sizes cfg)); ("family", VStr "monospace")] ∅));
  (* Legend color boxes *)
  _ ← legend_color_boxes (VInt dx_legend_box) w_legend_box h_legend_box dy_line
                         (reverse (colors cfg)) dy0_boxes;
  let dy0_markers :=
    (dy0_boxes - dy_line * (float_of_Z (Z.of_nat (length legend_labels)) - 0.3))%float in
  let dy0_marker := dy0_markers in
  (* Field maximum marker *)
  dy0_marker ←
    (if mark_field_max cfg then
       let dy_marker_label_max := dy0_marker in
       let dy0_marker := (dy0_marker - dy_line)%float in
       let dy_max_marker := (dy_marker_label_max - 0.7)%float in
       markers ← lift (assert_markers cfg);
       style ← lift (dict_item "max" markers);
       _ ← emit (box_marker (kw_add
              [("loc", VStr "tc"); ("dx", VFloat dx_marker); ("dy", VFloat dy_max_marker)]
              style));
       let s_val :=
         if all_nan (fld (field plot)) then "NaN"
         else s_val_of_max (nanmax (fld (field plot))) in
       label_max ← lift (dict_item "max" labels);
       let s := label_max +:+ ": " +:+ s_val in
       _ ← emit (box_text s (kw_add
              [("loc", VStr "tc"); ("dx", VFloat dx_marker_label);
               ("dy", VFloat dy_marker_label_max); ("ha", VStr "left");
               ("fontname", font_name cfg); ("size", content_medium (font_sizes cfg))] ∅));
       mret dy0_marker
     else mret dy0_marker);
  (* Release site marker *)
  if mark_release_site cfg then
    let dy_site_label := dy0_marker in
    let dy_site_marker := (dy_site_label - 0.7)%float in
    markers ← lift (assert_markers cfg);
    style ← lift (dict_item "site" markers);
    _ ← emit (box_marker (kw_add
           [("loc", VStr "tc"); ("dx", VFloat dx_marker); ("dy", VFloat dy_site_marker)]
           style));
    label_site ← lift (dict_item "site" labels);
    let s := label_site +:+ ": " +:+ release_site_name mdata in
    emit (box_text s (kw_add
           [("loc", VStr "tc"); ("dx", VFloat dx_marker_label);
            ("dy", VFloat dy_site_label); ("ha", VStr "left");
            ("fontname", font_name cfg); ("size", content_medium (font_sizes cfg))] ∅))
  else mret tt.

End box_fillers.

Definition plot_add_markers (plot : BoxedPlot) : trace call unit :=
  let config := config plot in
  _ ← (if mark_release_site config then
         markers ← lift (assert_markers config);
         style ← lift (dict_item "site" markers);
         emit (plot_add_marker (kw_add
                [("lat", VFloat (release_site_lat (mdata config)));
                 ("lon", VFloat (release_site_lon (mdata config)))] style))
       else mret tt);
  if mark_field_max config then
    markers ← lift (assert_markers config);
    match locate_max (field plot) with
    | Raise FieldAllNaNError => emit (warnings_warn "skip maximum marker (all-nan field)")
    | Raise e => throw e
    | Ok (max_lat, max_lon) =>
        style ← lift (dict_item "max" markers);
        emit (ax_map_marker (kw_add [("lat", VFloat max_lat); ("lon", VFloat max_lon)] style))
    end
  else mret tt.

(** *** The plot configuration *)

Record InputSetup : Type := mk_setup {
  lang : string;
  input_variable : string;
  integrate : bool;
  deposition_type : string;
  plot_variable : string;
  ens_variable : string;
  ens_member_id : option (list Z);
  ens_param_thr : string;              (* the text of str(setup.ens_param_thr) *)
  ens_param_mem_min : option Z;
  simulation_type : string;            (* setup.get_simulation_type() *)
}.

(** A translated word: its text, and the attributes [.s], [.c] and [.t]. *)
Record Word : Type := mk_word { w_str : string; w_s : string; w_c : string; w_t : string }.

(** The entries of [new_config_dct] next to the labels; an entry that is
    not set is [None]. *)
Record ConfigDct : Type := mk_dct {
  dct_labels : Labels;
  dct_n_levels : Z;
  dct_model_info : option string;
  dct_extend : option string;
  dct_legend_rstrip_zeros : option bool;
  dct_level_range_style : option string;
  dct_level_ranges_align : option string;
  dct_mark_field_max : option bool;
  dct_levels_scale : option string;
  dct_d_level : option Z;
  dct_colors : list pyval;
  dct_markers : dict kwargs;
}.

(** The local variables of [create_plot_config] that its branches assign. *)
Record Locals : Type := mk_locals {
  long_name : string;
  short_name : string;
  var_name : string;
  unit_ : string;
  variable_rel : option string;
  n_levels : option Z;
  right_top_lines : list string;
  right_middle_tc : option string;
  model_info : option string;
  extend_ : option string;
  ens_defaults : bool;                 (* the update of the last [else] branch *)
  d_level : option Z;
}.

(** [str(x)] of an optional [int]. *)
Definition str_of_opt_Z (x : option Z) : string :=
  match x with
  | Some n => str_of_Z n
  | None => "None"
  end.

Definition markers_fixed : dict kwargs :=
  [ ("max", kw_add [("marker", VStr "+"); ("color", VStr "black");
                    ("markersize", VInt 10); ("markeredgewidth", VFloat 1.5)] ∅);
    ("site", kw_add [("marker", VStr "^"); ("markeredgecolor", VStr "red");
                     ("markerfacecolor", VStr "white"); ("markersize", VFloat 7.5);
                     ("markeredgewidth", VFloat 1.5)] ∅) ].

(** The label named ["lines"] is capitalized line by line, every other
    label as a whole; [capitalize] fails on a non-empty list. *)
Definition capitalize_label (name : string) (l : label) : res label :=
  match l with
  | Lines ls =>
      if String.eqb name "lines" then Ok (Lines (capitalize <$> ls))
      else match ls with
           | [] => Ok l
           | _ => Raise (ValueError "s not capitalizable")
           end
  | L s =>
      if String.eqb name "lines"
      then Ok (Lines ((fun c => capitalize (String c EmptyString)) <$> list_ascii_of_string s))
      else Ok (L (capitalize s))
  end.

Fixpoint capitalize_labels (d : dict label) : res (dict label) :=
  match d with
  | [] => Ok []
  | (name, l) :: d' =>
      l ← capitalize_label name l;
      d' ← capitalize_labels d';
      Ok ((name, l) :: d')
  end.

(** A group all of whose labels are texts with names other than ["lines"]. *)
Definition capitalize_texts (d : dict string) : dict string :=
  (fun '(name, s) => (name, capitalize s)) <$> d.

Section plot_config.

(** The collaborators: the word tables, by language; the symbols; and the
    formatting helpers whose modules are not part of the sources at hand
    or whose results are texts computed from the meta data alone. *)
Variable words : string -> string -> option string -> Word.
Variable symbols : string -> string.
Variable format_integr_period : MetaData -> InputSetup -> res string.
Variable format_level_label : MetaData -> res string.
Variable format_range : list Z -> string.

(** [s.replace("{", "{{").replace("}", "}}")] *)
Fixpoint escape_format_keys (s : string) : string :=
  match s with
  | EmptyString => EmptyString
  | String c s' =>
      if (Ascii.eqb c "{" || Ascii.eqb c "}")%bool
      then String c (String c (escape_format_keys s'))
      else String c (escape_format_keys s')
  end.

Definition format_coord_label (lang : string) (direction : string) : res string :=
  let deg_unit := symbols "deg" +:+ symbols "short_space" in
  let min_unit := "'" +:+ symbols "short_space" in
  let dir_unit := w_str (words lang direction (Some "abbr")) in
  deg_dir_unit ←
    (if String.eqb direction "north" then Ok (w_str (words lang "degN" None))
     else if String.eqb direction "east" then Ok (w_str (words lang "degE" None))
     else Raise (NotImplementedError "unit for direction"));
  Ok ("{d}" +:+ deg_unit +:+ "{m}" +:+ min_unit +:+ dir_unit
      +:+ " ({f:.4f}" +:+ deg_dir_unit +:+ ")").

Definition use_variable_rel (l : Locals) : res string :=
  match variable_rel l with
  | Some v => Ok v
  | None => Raise (UnboundLocalError "variable_rel")
  end.

(** The line with the number of members of the two cloud branches. *)
Definition members_line (W : string -> option string -> Word) (setup : InputSetup) : string :=
  let n_min := match ens_param_mem_min setup with
               | Some 0%Z | None => 1%Z
               | Some n => n
               end in
  let n_tot := Z.of_nat (length (default [] (ens_member_id setup))) in
  w_c (W "number_of" (Some "abbr")) +:+ " " +:+ w_str (W "member" (Some "pl")) +:+ ":"
  +:+ tab +:+ w_str (W "minimum" (Some "abbr")) +:+ " "
  +:+ str_of_opt_Z (ens_param_mem_min setup)
  +:+ "$\,/\,$"
  +:+ str_of_Z n_tot +:+ " ("
  +:+ format_pct 0 (float_of_Z n_min / float_of_Z (if (n_tot =? 0)%Z then 1 else n_tot))%float
  +:+ ")".

Definition cloud_density_line (W : string -> option string -> Word) (setup : InputSetup)
    (mdata : MetaData) : string :=
  w_c (W "cloud_density" None) +:+ ":" +:+ tab +:+ w_str (W "minimum" (Some "abbr"))
  +:+ " " +:+ ens_param_thr setup +:+ " " +:+ variable_unit mdata.

(** [if setup.input_variable == "concentration": ... elif ... "deposition"] *)
Definition branch_input_variable (W : string -> option string -> Word)
    (setup : InputSetup) (mdata : MetaData) (l : Locals) : res Locals :=
  if String.eqb (input_variable setup) "concentration" then
    level ← format_level_label mdata;
    let tc := w_str (W "level" None) +:+ ": " +:+ escape_format_keys level in
    let var_name := w_str (W "activity_concentration" None) in
    let '(long_name, short_name, variable_rel) :=
      if integrate setup then
        (w_str (W "integrated" None) +:+ " " +:+ var_name,
         w_str (W "integrated" (Some "abbr")) +:+ " " +:+ w_str (W "concentration" (Some "abbr")),
         w_str (W "of" (Some "fg")) +:+ " " +:+ w_str (W "integrated" (Some "g")) +:+ " "
           +:+ w_str (W "activity_concentration" None))
      else
        (var_name,
         w_str (W "concentration" None),
         w_str (W "of" (Some "fg")) +:+ " " +:+ w_str (W "activity_concentration" None)) in
    level' ← format_level_label mdata;
    Ok (mk_locals long_name short_name var_name (unit_ l) (Some variable_rel) (Some 8%Z)
          ((w_c (W "level" None) +:+ ":" +:+ tab +:+ escape_format_keys level')
             :: right_top_lines l)
          (Some tc) (model_info l) (extend_ l) (ens_defaults l) (d_level l))
  else if String.eqb (input_variable setup) "deposition" then
    let dep_type_word :=
      if String.eqb (deposition_type setup) "tot" then "total" else deposition_type setup in
    let var_name := w_str (W dep_type_word (Some "f")) +:+ " "
                    +:+ w_str (W "surface_deposition" None) in
    let variable_rel := w_str (W "of" (Some "fg")) +:+ " " +:+ w_str (W dep_type_word (Some "g"))
                        +:+ " " +:+ w_str (W "surface_deposition" None) in
    Ok (mk_locals var_name (w_str (W "deposition" None)) var_name (unit_ l)
          (Some variable_rel) (Some 9%Z) (right_top_lines l) (right_middle_tc l)
          (model_info l) (extend_ l) (ens_defaults l) (d_level l))
  else Ok l.

(** The statistics of the last [else] of the ensemble branch. *)
Definition branch_ens_variable (W : string -> option string -> Word)
    (setup : InputSetup) (mdata : MetaData) (l : Locals) : res Locals :=
  let l := mk_locals (long_name l) (short_name l) (var_name l) (unit_ l) (variable_rel l)
             (n_levels l) (right_top_lines l) (right_middle_tc l) (model_info l)
             (Some "both") true (d_level l) in
  if String.eqb (ens_variable setup) "probability" then
    let lines := (right_top_lines l ++
      [w_str (W "cloud" None) +:+ ":" +:+ tab +:+ symbols "geq" +:+ " "
       +:+ ens_param_thr setup +:+ " " +:+ variable_unit mdata])%list in
    let short_name := w_str (W "probability" None) in
    rel ← use_variable_rel l;
    Ok (mk_locals (w_str (W "probability" None) +:+ " " +:+ rel) short_name
          (var_name l) "%" (variable_rel l) (Some 9%Z) lines (right_middle_tc l)
          (model_info l) (extend_ l) true (Some 10%Z))
  else if bool_decide (ens_variable setup ∈ ["cloud_arrival_time"; "cloud_departure_time"]) then
    let lines := (right_top_lines l ++
      [cloud_density_line W setup mdata; members_line W setup])%list in
    let '(long_name, short_name) :=
      if String.eqb (ens_variable setup) "cloud_arrival_time"
      then (w_str (W "cloud_arrival_time" None), w_str (W "arrival" None))
      else if String.eqb (ens_variable setup) "cloud_departure_time"
      then (w_str (W "cloud_departure_time" None), w_str (W "departure" None))
      else (long_name l, short_name l) in
    Ok (mk_locals long_name short_name (var_name l) (w_str (W "hour" (Some "pl")))
          (variable_rel l) (Some 9%Z) lines (right_middle_tc l)
          (model_info l) (extend_ l) true (Some 3%Z))
  else if String.eqb (ens_variable setup) "cloud_occurrence_probability" then
    let lines := (right_top_lines l ++
      [cloud_density_line W setup mdata; members_line W setup])%list in
    Ok (mk_locals (w_str (W "cloud_occurrence_probability" None))
          (w_str (W "probability" None)) (var_name l) "%"
          (variable_rel l) (Some 9%Z) lines (right_middle_tc l)
          (model_info l) (extend_ l) true (Some 10%Z))
  else Ok l.

(** [if setup.get_simulation_type() == "deterministic": ... elif ... "ensemble"] *)
Definition branch_simulation_type (W : string -> option string -> Word)
    (setup : InputSetup) (mdata : MetaData) (model_info_det model_info_ens : string)
    (l : Locals) : res Locals :=
  let with_long_name (l : Locals) (long_name : string) : Locals :=
    mk_locals long_name (short_name l) (var_name l) (unit_ l) (variable_rel l)
      (n_levels l) (right_top_lines l) (right_middle_tc l) (model_info l)
      (extend_ l) (ens_defaults l) (d_level l) in
  let with_model_info (l : Locals) (info : string) : Locals :=
    mk_locals (long_name l) (short_name l) (var_name l) (unit_ l) (variable_rel l)
      (n_levels l) (right_top_lines l) (right_middle_tc l) (Some info)
      (extend_ l) (ens_defaults l) (d_level l) in
  if String.eqb (simulation_type setup) "deterministic" then
    let l := with_model_info l model_info_det in
    if String.prefix "affected_area" (plot_variable setup) then
      rel ← use_variable_rel l;
      let l := with_long_name l (w_str (W "affected_area" None) +:+ " " +:+ rel) in
      if String.eqb (plot_variable setup) "affected_area_mono" then
        Ok (mk_locals (long_name l) (short_name l) (var_name l) (unit_ l) (variable_rel l)
              (Some 1%Z) (right_top_lines l) (right_middle_tc l) (model_info l)
              (Some "none") (ens_defaults l) (d_level l))
      else Ok l
    else Ok l
  else if String.eqb (simulation_type setup) "ensemble" then
    let l := with_model_info l model_info_ens in
    let stat (word : string) : res Locals :=
      rel ← use_variable_rel l;
      Ok (with_long_name l (w_str (W word None) +:+ " " +:+ rel)) in
    if String.eqb (ens_variable setup) "minimum" then stat "ensemble_minimum"
    else if String.eqb (ens_variable setup) "maximum" then stat "ensemble_maximum"
    else if String.eqb (ens_variable setup) "median" then stat "ensemble_median"
    else if String.eqb (ens_variable setup) "mean" then stat "ensemble_mean"
    else branch_ens_variable W setup mdata l
  else Ok l.

(** [create_plot_config].  The texts put into [_info_fmt_base] are taken
    to hold no braces, so that its [format] fills in [ens] alone. *)
Definition create_plot_config (setup : InputSetup) (mdata : MetaData) : res ConfigDct :=
  let W := words (lang setup) in
  integr_period ← format_integr_period mdata setup;
  let top : dict string :=
    [ ("tl", EmptyString);
      ("bl", integr_period +:+ " " +:+ w_str (W "since" None)
             +:+ " +" +:+ simulation_integr_start_rel mdata);
      ("tr", simulation_now mdata +:+ " (+" +:+ simulation_now_rel mdata +:+ ")");
      ("br", simulation_now_rel mdata +:+ " " +:+ w_str (W "since" None)
             +:+ " " +:+ w_str (W "release_start" None)) ] in
  let right_top_title := w_c (W "data" None) in
  let right_middle : dict string :=
    [ ("title", EmptyString); ("title_unit", EmptyString);
      ("release_site", w_s (W "release_site" None));
      ("site", w_s (W "site" None));
      ("max", w_s (W "maximum" (Some "abbr")));
      ("maximum", w_s (W "maximum" None)) ] in
  lat_deg_fmt ← format_coord_label (lang setup) "north";
  lon_deg_fmt ← format_coord_label (lang setup) "east";
  let right_bottom : dict string :=
    [ ("title", w_t (W "release" None));
      ("start", w_s (W "start" None));
      ("end", w_s (W "end" None));
      ("latitude", w_s (W "latitude" None));
      ("longitude", w_s (W "longitude" None));
      ("lat_deg_fmt", lat_deg_fmt);
      ("lon_deg_fmt", lon_deg_fmt);
      ("height", w_s (W "height" None));
      ("rate", w_s (W "rate" None));
      ("mass", w_s (W "total_mass" None));
      ("site", w_s (W "site" None));
      ("release_site", w_s (W "release_site" None));
      ("max", w_s (W "maximum" (Some "abbr")));
      ("name", w_s (W "substance" None));
      ("half_life", w_s (W "half_life" None));
      ("deposit_vel", w_s (W "deposition_velocity" (Some "abbr")));
      ("sediment_vel", w_s (W "sedimentation_velocity" (Some "abbr")));
      ("washout_coeff", w_s (W "washout_coeff" None));
      ("washout_exponent", w_s (W "washout_exponent" None)) ] in
  let _info_fmt_base (ens : string) : string :=
    w_str (W "flexpart" None) +:+ " " +:+ w_str (W "based_on" None)
    +:+ " " +:+ simulation_model_name mdata +:+ ens +:+ ","
    +:+ " " +:+ simulation_start mdata in
  let members := default [] (ens_member_id setup) in
  let model_info_det := _info_fmt_base EmptyString in
  let model_info_ens :=
    _info_fmt_base (" " +:+ w_str (W "ensemble" None)
                    +:+ " (" +:+ str_of_Z (Z.of_nat (length members)) +:+ " "
                    +:+ w_str (W "member" (Some "pl")) +:+ ":"
                    +:+ " " +:+ format_range members +:+ ")") in
  let bottom : dict string :=
    [ ("model_info_det", model_info_det);
      ("model_info_ens", model_info_ens);
      ("copyright", symbols "copyright" +:+ w_str (W "meteoswiss" None)) ] in
  let l := mk_locals EmptyString EmptyString EmptyString (variable_unit mdata) None None [] None None None false None in
  l ← branch_input_variable W setup mdata l;
  l ← branch_simulation_type W setup mdata model_info_det model_info_ens l;
  _ ← ((if String.eqb (short_name l) EmptyString then Raise (Exception "no short name")
        else Ok tt) : res unit);
  _ ← ((if String.eqb (long_name l) EmptyString then Raise (Exception "no short name")
        else Ok tt) : res unit);
  let top := dict_set "tl" (long_name l +:+ " " +:+ w_str (W "of" None)
                            +:+ " " +:+ species_name mdata) top in
  let lines := (w_c (W "input_variable" None) +:+ ":" +:+ tab +:+ capitalize (var_name l))
               :: right_top_lines l in
  let right_top : dict label := [("title", L right_top_title); ("lines", Lines lines)] in
  let right_middle :=
    match right_middle_tc l with
    | Some tc => dict_set "tc" tc right_middle
    | None => right_middle
    end in
  let right_middle := dict_set "title" (short_name l) right_middle in
  let right_middle :=
    dict_set "title_unit" (short_name l +:+ " (" +:+ unit_ l +:+ ")") right_middle in
  let right_middle := dict_set "unit" (unit_ l) right_middle in
  (* Capitalize all labels *)
  right_top ← capitalize_labels right_top;
  let labels := mk_labels (capitalize_texts top) right_top (capitalize_texts right_middle)
                  (capitalize_texts right_bottom) (capitalize_texts bottom) in
  (* Colors *)
  n_levels ← (match n_levels l with
              | Some n => Ok n
              | None => Raise (KeyError "n_levels")
              end : res Z);
  let extend := default "max" (extend_ l) in
  colors ←
    ((if String.eqb (plot_variable setup) "affected_area_mono"
      then let g := (200 / 255)%float in Ok [VRGB g g g]
      else cs ← colors_flexplot n_levels extend; Ok (List.map VStr cs)) : res (list pyval));
  Ok (mk_dct labels n_levels (model_info l) (extend_ l)
        (if ens_defaults l then Some false else None)
        (if ens_defaults l then Some "int" else None)
        (if ens_defaults l then Some "left" else None)
        (if ens_defaults l then Some false else None)
        (if ens_defaults l then Some "lin" else None)
        (d_level l) colors markers_fixed).

End plot_config.

(** ** [FlexAxesMapRotatedPole] (plot.py) *)

Module FlexAxesMapRotatedPole.

(** The padding factor: a single number, or a sequence. *)
Inductive pad_rel_t : Type :=
| PadNum (x : float)
| PadSeq (l : list float).

(** The zorder of the unique plot elements, from low to high. *)
Definition zorder : dict Z :=
  let zorders_const := ["map"; "grid"; "fld"] in
  let d0 := 1%Z in
  let dz := 1%Z in
  imap (fun i e => (e, (d0 + Z.of_nat i * dz)%Z)) zorders_const.

(** [rlon[0]] and [rlon[-1]] *)
Definition first_last (a : list float) : res (float * float) :=
  match a, last a with
  | x :: _, Some y => Ok (x, y)
  | _, _ => Raise (IndexError "index 0 is out of bounds for axis 0 with size 0")
  end.

(** [padded_bbox]: [conf_bbox_pad_rel] is the entry [bbox_pad_rel] of
    [self.conf], when there is one.  Unpacking a number raises the
    [TypeError] that is caught; unpacking a sequence that does not hold two
    factors raises a [ValueError].  Adding the array of the paddings to the
    list [bbox] adds element by element.  Both paddings are fractions of
    the extent in longitude. *)
Definition padded_bbox (rlat rlon : list float) (conf_bbox_pad_rel : option pad_rel_t)
    (pad_rel : pad_rel_t) : res (list float) :=
  (* Default: data domain *)
  '(lon0, lon1) ← first_last rlon;
  '(lat0, lat1) ← first_last rlat;
  let bbox := [lon0; lon1; lat0; lat1] in
  (* Get padding factor -- either a single number, or a (x, y) tuple *)
  let bbox_pad_rel := default pad_rel conf_bbox_pad_rel in
  '(pad_fact_x, pad_fact_y) ←
    match bbox_pad_rel with
    | PadNum x => Ok (x, x)
    | PadSeq [x; y] => Ok (x, y)
    | PadSeq l =>
        Raise (ValueError (if (length l <? 2)%nat
                           then "not enough values to unpack"
                           else "too many values to unpack"))
    end;
  (* Add padding: grow (or shrink) bbox by a factor *)
  let dlon := (lon1 - lon0)%float in
  let dlat := (lat1 - lat0)%float in
  let padx := (dlon * pad_fact_x)%float in
  let pady := (dlon * pad_fact_y)%float in
  let bbox_pad := [(- padx)%float; padx; (- pady)%float; pady] in
  Ok (zip_with PrimFloat.add bbox bbox_pad).

(** The corners of the outline of the data domain that
    [add_data_domain_outline] plots. *)
Definition data_domain_outline (rlat rlon : list float) : res (list float * list float) :=
  '(lon0, lon1) ← first_last rlon;
  '(lat0, lat1) ← first_last rlat;
  let xs := [lon0; lon1; lon1; lon0; lon0] in
  let ys := [lat0; lat0; lat1; lat1; lat0] in
  Ok (xs, ys).

End FlexAxesMapRotatedPole.

(** ** [FlexPlotter] (plot.py) *)

Module FlexPlotter.

(** A value of a variable of the field keys: an index, an id or a name. *)
Inductive key_val : Type :=
| KInt (n : Z)
| KStr (s : string).

#[global] Instance key_val_eq_dec : EqDecision key_val.
Proof. solve_decision. Defined.

(** [s] starts with [p]: what follows. *)
Fixpoint strip_prefix (p s : string) : option string :=
  match p, s with
  | EmptyString, _ => Some s
  | String a p', String b s' => if Ascii.eqb a b then strip_prefix p' s' else None
  | String _ _, EmptyString => None
  end.

(** Any characters of the line and a closing brace match at the start of
    [s]: a closing brace comes before the end of the line. *)
Fixpoint brace_in_line (s : string) : bool :=
  match s with
  | EmptyString => false
  | String c s' =>
      if Ascii.eqb c "}" then true
      else if Ascii.eqb c "010" then false
      else brace_in_line s'
  end.

(** The pattern of the source matches at the start of [s]: an opening
    brace, the name, then optionally a colon and any characters of the
    line, and a closing brace.  The [name] consists of letters and
    underscores. *)
Definition rx_match (name s : string) : bool :=
  match strip_prefix ("{" +:+ name) s with
  | Some (String c rest) =>
      Ascii.eqb c "}" || (Ascii.eqb c ":" && brace_in_line rest)
  | _ => false
  end.

(** [rx.search(s)] *)
Fixpoint rx_search (name s : string) : bool :=
  rx_match name s ||
  match s with
  | String _ s' => rx_search name s'
  | EmptyString => false
  end.

(** [_check_file_path_fmt__core]: [values name] are the values that the
    method [name + 's'] of the data returns under the restrictions.  The
    message of the exception reads a name [fmt_key] that is bound
    nowhere. *)
Definition _check_file_path_fmt__core (values : string -> list key_val)
    (file_path_fmt name : string) : res unit :=
  if (1 <? length (remove_dups (values name)))%nat && negb (rx_search name file_path_fmt)
  then Raise (NameError "fmt_key")
  else Ok tt.

Definition format_keys : list string :=
  ["age_ind"; "relpt_ind"; "time_ind"; "level_ind"; "species_id"; "field_type"].

Definition check_file_path_fmt (values : string -> list key_val) (file_path_fmt : string)
    : res unit :=
  mapM (_check_file_path_fmt__core values file_path_fmt) format_keys ≫= fun _ => Ok tt.

End FlexPlotter.

(** ** Plot types (plots.py), continued *)

Module Plots.

(** *** The configuration of the map *)

Inductive conf_val : Type :=
| CStr (s : string)
| CInt (n : Z)
| CFloat (x : float)
| CPair (x y : float)
| CDict (d : list (string * Z)).

(** [{**d1, **d2}] *)
Definition dict_merge {V} (d1 d2 : dict V) : dict V :=
  foldl (fun acc kv => dict_set kv.1 kv.2 acc) d1 d2.

(** [create_map_conf]: [domain] and [lang] are what the setups of the
    field agree on, [model] is the model of the analysis.  The result is
    the dictionary that is handed to [MapAxesConf]. *)
Definition create_map_conf (domain model lang : string) : res (dict conf_val) :=
  let conf_base := [("lang", CStr lang)] in
  let conf_model_ifs := [("geo_res", CStr "50m")] in
  let conf_model_cosmo := [("geo_res", CStr "10m")] in
  let conf_domain_japan :=
    [("geo_res_cities", CStr "50m"); ("geo_res_rivers", CStr "50m");
     ("min_city_pop", CInt 4000000); ("lllat", CInt 20); ("urlat", CInt 50);
     ("lllon", CInt 110); ("urlon", CInt 160); ("ref_dist_conf", CDict [("dist", 500%Z)])] in
  let conf_scale_continent :=
    [("geo_res_cities", CStr "50m"); ("geo_res_rivers", CStr "50m");
     ("min_city_pop", CInt 300000)] in
  let conf_scale_country :=
    [("geo_res_cities", CStr "10m"); ("geo_res_rivers", CStr "10m");
     ("min_city_pop", CInt 0); ("ref_dist_conf", CDict [("dist", 25%Z)])] in
  if bool_decide ((model, domain) ∈ [("cosmo1", "auto"); ("cosmo2", "auto")]) then
    Ok (dict_merge (dict_merge (dict_merge conf_base conf_model_cosmo) conf_scale_continent)
          [("zoom_fact", CFloat 1.05)])
  else if bool_decide ((model, domain) = ("cosmo1", "ch")) then
    Ok (dict_merge (dict_merge (dict_merge conf_base conf_model_cosmo) conf_scale_country)
          [("zoom_fact", CFloat 3.6); ("rel_offset", CPair (-0.02) 0.045)])
  else if bool_decide ((model, domain) = ("cosmo2", "ch")) then
    Ok (dict_merge (dict_merge (dict_merge conf_base conf_model_cosmo) conf_scale_country)
          [("zoom_fact", CFloat 3.23); ("rel_offset", CPair 0.037 0.1065)])
  else if bool_decide ((model, domain) = ("ifs", "auto")) then
    Ok (dict_merge (dict_merge conf_base conf_model_ifs) conf_domain_japan)
  else
    Raise (Exception ("unknown domain '" +:+ domain +:+ "' for model '" +:+ model +:+ "'")).

(** *** The box above the map *)

(** [for position, label in plot.config.labels.get("top", {}).items()] *)
Fixpoint fill_box_top_items (plot : BoxedPlot) (items : dict string) : trace call unit :=
  match items with
  | [] => mret tt
  | (position, label) :: items' =>
      let font_size :=
        if String.eqb position "tl" then title_large (font_sizes (config plot))
        else content_large (font_sizes (config plot)) in
      _ ← emit (box_text label (kw_add
             [("loc", VStr position); ("fontname", font_name (config plot));
              ("size", font_size)] ∅));
      fill_box_top_items plot items'
  end.

Definition fill_box_top (plot : BoxedPlot) : trace call unit :=
  fill_box_top_items plot (top (labels (config plot))).

(** *** The label of the vertical level *)

(** A level given from outside: a number, or a sequence of numbers. *)
Inductive level_t : Type :=
| LNum (x : float)
| LSeq (l : list float).

(** [sorted(l)]: the sorted part is kept in reverse, and an element goes
    past those that are greater.  For up to three elements these are the
    comparisons of the sort of CPython; of a longer list,
    [format_vertical_level_range] reads the length alone. *)
Fixpoint insert_rev (x : float) (sorted_rev : list float) : list float :=
  match sorted_rev with
  | [] => [x]
  | e :: rest => if PrimFloat.ltb x e then e :: insert_rev x rest else x :: sorted_rev
  end.

Definition sorted (l : list float) : list float :=
  reverse (foldl (fun acc x => insert_rev x acc) [] l).

(** [f"{bot:g}" + r"$-$" + f"{top:g} {unit}"] *)
Definition fmt (unit : string) (bot top : float) : string :=
  format_g bot +:+ "$-$" +:+ format_g top +:+ " " +:+ unit.

Definition format_vertical_level_range (value_bottom value_top : level_t) (unit : string)
    : res (option string) :=
  match value_bottom, value_top with
  | LNum b, LNum t =>
      if PrimFloat.eqb b (-1) && PrimFloat.eqb t (-1) then Ok None
      else (* One level range (early exit) *)
        Ok (Some (fmt unit b t))
  | LNum _, LSeq _ | LSeq _, LNum _ =>
      (* [fmt] raises the [TypeError] that is caught; the number fails its [assert] *)
      Raise (AssertionError [])
  | LSeq value_bottom, LSeq value_top =>
      (* Multiple level ranges *)
      let bots := sorted value_bottom in
      let tops := sorted value_top in
      if negb (length bots =? length tops)%nat then
        Raise (Exception ("inconsistent no. levels: " +:+ str_of_Z (Z.of_nat (length bots))
                          +:+ " != " +:+ str_of_Z (Z.of_nat (length tops))))
      else
        match bots, tops with
        | [b0; b1], [t0; t1] =>
            (* Two level ranges *)
            if PrimFloat.eqb t0 b1 then Ok (Some (fmt unit b0 t1))
            else Ok (Some (fmt unit b0 t0 +:+ " + " +:+ fmt unit b1 t1))
        | [b0; b1; b2], [t0; t1; t2] =>
            (* Three level ranges *)
            if PrimFloat.eqb t0 b1 && PrimFloat.eqb t1 b2 then Ok (Some (fmt unit b0 t2))
            else Raise (NotImplementedError "3 non-continuous level ranges")
        | _, _ =>
            Raise (NotImplementedError (str_of_Z (Z.of_nat (length bots))
                                        +:+ " sets of levels"))
        end
  end.

(** The values of the meta data that [format_level_label] reads. *)
Record LevelMetaData : Type := mk_level_mdata {
  variable_level_bot : level_t;
  variable_level_top : level_t;
  variable_level_bot_unit : string;
  variable_level_top_unit : string;
}.

Section level_label.

(** [format_unit] of the meta data module, which is not part of the
    sources at hand. *)
Variable format_unit : string -> string.

Definition format_level_label (mdata : LevelMetaData) : res string :=
  let unit := variable_level_bot_unit mdata in
  if negb (String.eqb (variable_level_top_unit mdata) unit) then
    Raise (Exception [Txt "inconsistent level units";
                      Fmt (VStr (variable_level_bot_unit mdata));
                      Fmt (VStr (variable_level_top_unit mdata))])
  else
    level ← format_vertical_level_range (variable_level_bot mdata)
                                        (variable_level_top mdata) unit;
    match level with
    | None | Some EmptyString => Ok EmptyString
    | Some level => Ok (format_unit level)
    end.

End level_label.

End Plots.

(** ** Words in several languages (words/word.py) *)

Module Words.

(** [StopIteration] is raised by [next(iter(...))] on an empty dictionary. *)
Inductive error : Type :=
| Exn (e : exn)
| StopIteration.

Inductive result (A : Type) : Type :=
| Return (a : A)
| Fail (e : error).
Arguments Return {A} a.
Arguments Fail {A} e.

#[global] Instance result_ret : MRet result := fun _ a => Return a.
#[global] Instance result_bind : MBind result := fun _ _ f m =>
  match m with
  | Return a => f a
  | Fail e => Fail e
  end.

Definition is_Return {A} (r : result A) : Prop := exists a, r = Return a.

(** [type(v).__name__] *)
Definition type_name (v : pyval) : string :=
  match v with
  | VNone => "NoneType"
  | VStr _ => "str"
  | VInt _ => "int"
  | VFloat _ => "float"
  | VRGB _ _ _ | VRGBA _ _ _ _ => "tuple"
  end.

(** [list(d.keys())] *)
Definition keys {V} (d : dict V) : list string := fst <$> d.

(** [d] without the key [k]. *)
Definition dict_remove {V} (k : string) (d : dict V) : dict V :=
  filter (fun kv => kv.1 <> k) d.

(** [s.isidentifier()] on ASCII text. *)
Definition is_id_start (c : ascii) : bool :=
  let n := nat_of_ascii c in
  ((65 <=? n)%nat && (n <=? 90)%nat) || ((97 <=? n)%nat && (n <=? 122)%nat) || (n =? 95)%nat.

Definition is_id_continue (c : ascii) : bool :=
  let n := nat_of_ascii c in
  is_id_start c || ((48 <=? n)%nat && (n <=? 57)%nat).

Definition isidentifier (s : string) : bool :=
  match s with
  | EmptyString => false
  | String c s' => is_id_start c && forallb is_id_continue (list_ascii_of_string s')
  end.

Module WordVariants.

Record t : Type := mk {
  lang : option string;
  _variants : dict string;
  default : string;
}.

(** [for ctx, word in variants.items(): ... self._variants[ctx] = word] *)
Fixpoint set_variants (variants : dict pyval) (_variants : dict string)
    : result (dict string) :=
  match variants with
  | [] => Return _variants
  | (ctx, word) :: variants' =>
      match word with
      | VStr w => set_variants variants' (dict_set ctx w _variants)
      | _ => Fail (Exn (ValueError [Txt "invalid word: "; Fmt word]))
      end
  end.

(** The parameter [default_] is not read. *)
Definition __init__ (lang_ : option string) (default_ : option pyval)
    (variants : dict pyval) : result t :=
  _variants ← set_variants variants [];
  match _variants with
  | (ctx, _) :: _ => Return (mk lang_ _variants ctx)
  | [] => Fail StopIteration
  end.

(** [WordVariants(lang, **word)]: a key [lang_] of [word] meets the
    positional argument, a key [default_] binds the parameter of this name
    and does not reach [**variants].  The text of the [TypeError] is that
    of CPython 3.8. *)
Definition call (lang : string) (word : dict pyval) : result t :=
  match dict_get "lang_" word with
  | Some _ => Fail (Exn (TypeError "__init__() got multiple values for argument 'lang_'"))
  | None => __init__ (Some lang) (dict_get "default_" word) (dict_remove "default_" word)
  end.

Definition ctx (self : t) (name : option string) : result string :=
  let name := match name with
              | None => default self
              | Some n => n
              end in
  match dict_get name (_variants self) with
  | Some w => Return w
  | None => Fail (Exn (ValueError [Txt "invalid context specifier: "; Txt name]))
  end.

Definition ctxs (self : t) : list string := keys (_variants self).

Definition __str__ (self : t) : result string := ctx self (Some (default self)).

Definition s (self : t) : result string := __str__ self.

End WordVariants.

Module Word.

(** The word in one language: a value, which has to be a [str], or a
    [dict] of context-specific variants. *)
Inductive word_arg : Type :=
| WVal (v : pyval)
| WDict (d : dict pyval).

(** The argument [query]: a callable, given by the language it answers, or
    any other value. *)
Inductive query_arg : Type :=
| Callable (answer : string)
| NotCallable (v : pyval).

Record t : Type := mk {
  name : string;
  _langs : dict WordVariants.t;
  _default : string;
  _default_query : option string;
}.

(** List of languages the word is defined in. *)
Definition langs (self : t) : list string := keys (_langs self).

(** [set_default]: the word as the call leaves it, and the outcome.
    [self._default] is assigned before [query] is checked. *)
Definition set_default (self : t) (lang : option string) (query : option query_arg)
    : t * result unit :=
  let lang' :=
    match lang with
    | None =>
        match langs self with
        | l :: _ => Return l
        | [] => Fail StopIteration
        end
    | Some l =>
        if bool_decide (l ∈ langs self) then Return l
        else Fail (Exn (ValueError [Txt "invalid default language: "; Txt l;
                                    Txt " (not among "; FmtSeq (Str <$> langs self); Txt ")"]))
    end in
  match lang' with
  | Fail e => (self, Fail e)
  | Return l =>
      let self := mk (name self) (_langs self) l (_default_query self) in
      match query with
      | None | Some (NotCallable VNone) =>
          (mk (name self) (_langs self) (_default self) None, Return tt)
      | Some (Callable answer) =>
          (mk (name self) (_langs self) (_default self) (Some answer), Return tt)
      | Some (NotCallable v) =>
          (self, Fail (Exn (ValueError [Txt "query of type "; Txt (type_name v);
                                        Txt " not callable"])))
      end
  end.

(** Get the default language. *)
Definition default (self : t) : string :=
  match _default_query self with
  | Some answer => answer
  | None => _default self
  end.

(** Get word in a certain language. *)
Definition in_ (self : t) (lang : string) : result WordVariants.t :=
  match dict_get lang (_langs self) with
  | Some v => Return v
  | None => Fail (Exn (ValueError [Txt "word '"; Txt (name self);
                                   Txt "' not defined in language '"; Txt lang;
                                   Txt "', only in "; FmtSeq (Str <$> langs self)]))
  end.

Definition ctx (self : t) (name : option string) : result string :=
  v ← in_ self (default self);
  WordVariants.ctx v name.

Definition __str__ (self : t) : result string :=
  v ← in_ self (default self);
  WordVariants.__str__ v.

(** Check words and collect contexts.  When the loop runs, [self.__dict__]
    holds the key [name] alone. *)
Fixpoint check_words (self_name : string) (langs : dict word_arg)
    (ctxs : option (list string)) : result (option (list string)) :=
  match langs with
  | [] => Return ctxs
  | (lang, word) :: langs' =>
      if String.eqb lang "name"
      then Fail (Exn (ValueError [Txt "invalid language specifier: "; Txt lang]))
      else
        match word with
        | WVal (VStr _) => check_words self_name langs' ctxs
        | WVal v =>
            Fail (Exn (ValueError [Txt "word must be string or dict, not ";
                                   Txt (type_name v); Txt ": "; Fmt v]))
        | WDict d =>
            match ctxs with
            | None => check_words self_name langs' (Some (keys d))
            | Some cs =>
                if bool_decide (list_to_set cs =@{gset string} list_to_set (keys d))
                then check_words self_name langs' ctxs
                else Fail (Exn (ValueError
                       [Txt "word "; Txt self_name; Txt " in "; Txt lang;
                        Txt ": inconsistent contexts: set("; FmtSeq (Str <$> cs);
                        Txt ") != set("; FmtSeq (Str <$> keys d); Txt ")"]))
            end
        end
  end.

(** Define words with consistent contexts *)
Fixpoint define_words (ctxs : list string) (langs : dict word_arg)
    (_langs : dict WordVariants.t) : result (dict WordVariants.t) :=
  match langs with
  | [] => Return _langs
  | (lang, word) :: langs' =>
      word ← match word with
             | WVal (VStr w) => Return ((fun ctx => (ctx, VStr w)) <$> ctxs)
             | WVal _ => Fail (Exn (TypeError "argument after ** must be a mapping"))
             | WDict d => Return d
             end;
      v ← WordVariants.call lang word;
      define_words ctxs langs' (dict_set lang v _langs)
  end.

Definition __init__ (name default : option string) (default_query : option query_arg)
    (langs : dict word_arg) : result t :=
  match langs with
  | [] => Fail (Exn (ValueError "must pass the word in at least one language"))
  | (_, first) :: _ =>
      (* self.name = name or next(iter(langs.values())) *)
      let self_name :=
        match name with
        | Some (String _ _ as n) => Some n
        | _ => match first with
               | WVal (VStr w) => Some w
               | _ => None
               end
        end in
      let invalid_name :=
        Exn (ValueError [Txt "invalid name: ";
                         Fmt (match name with Some n => VStr n | None => VNone end)]) in
      self_name ← match self_name with
                  | Some n => if isidentifier n then Return n else Fail invalid_name
                  | None => Fail invalid_name
                  end;
      ctxs ← check_words self_name langs None;
      let ctxs := from_option id ["default"] ctxs in
      _langs ← define_words ctxs langs [];
      (* [_default] is assigned by [set_default] *)
      let self := mk self_name _langs EmptyString None in
      let '(self, r) := set_default self default default_query in
      _ ← r;
      Return self
  end.

End Word.

End Words.

(** ** Multi-page PDF files (srutils/pdf.py) *)

Module MultiPagePDF.

(** [head.rstrip("/")] *)
Fixpoint rstrip_sep (s : string) : string :=
  match s with
  | EmptyString => EmptyString
  | String c s' =>
      let r := rstrip_sep s' in
      if Ascii.eqb c "/" && String.eqb r EmptyString then EmptyString else String c r
  end.

(** [os.path.dirname(p)] *)
Definition dirname (p : string) : string :=
  let i := (FlexPlotConcentration.rfind "/" p + 1)%Z in
  let head := String.substring 0 (Z.to_nat i) p in
  if negb (String.eqb head EmptyString)
     && negb (forallb (fun c => Ascii.eqb c "/") (list_ascii_of_string head))
  then rstrip_sep head
  else head.

Section pdf.

(** The PDF library: the files and pages that it reads, what it raises,
    and which of its exceptions [_read_pages] catches ([ValueError],
    [TypeError] and [PdfReadError]). *)
Variables (file page err : Type).
Variable PdfFileReader : string -> file + err.
Variable getPage : file -> nat -> page + err.
Variable caught : err -> bool.

(** What escapes from [_read_pages]: the [PdfReadError] that names the
    path, raised from the exception that was caught, or an exception of
    the library as it is. *)
Inductive error : Type :=
| PdfReadError (path : string) (cause : err)
| Uncaught (e : err).

Record t : Type := mk { pages : list page }.

(** The calls of [write], in the order in which they are issued when none
    of them raises. *)
Inductive call : Type :=
| addPage (p : page)
| makedirs (dir_path : string)        (* with [exist_ok=True] *)
| open_wb (path : string)
| writer_write.

(** [write]: the file goes to disk. *)
Definition write (self : t) (path : string) : list call :=
  let dir_path := dirname path in
  (addPage <$> pages self)
  ++ (if negb (String.eqb dir_path EmptyString) then [makedirs dir_path] else [])
  ++ [open_wb path; writer_write].

(** [_read_pages]: the loop over the paths, with the pages read so
    far.  The first component holds the paths that were handed to the
    reader. *)
Fixpoint _read_pages_from (pages : list page) (paths : list string)
    : list string * (list page + error) :=
  match paths with
  | [] => ([], inl pages)
  | path_i :: paths' =>
      match PdfFileReader path_i with
      | inr e =>
          (* Occur sporadically; likely a file system issue *)
          ([path_i], inr (if caught e then PdfReadError path_i e else Uncaught e))
      | inl file =>
          match getPage file 0 with
          | inr e => ([path_i], inr (Uncaught e))
          | inl page =>
              let '(read, r) := _read_pages_from (pages ++ [page]) paths' in
              (path_i :: read, r)
          end
      end
  end.

Definition _read_pages (paths : list string) : list string * (list page + error) :=
  _read_pages_from [] paths.

Definition from_files (paths : list string) : list string * (t + error) :=
  let '(read, r) := _read_pages paths in
  (read, match r with
         | inl pages => inl (mk pages)
         | inr e => inr e
         end).

End pdf.

Arguments PdfReadError {err} path cause.
Arguments Uncaught {err} e.
Arguments mk {page} pages.
Arguments pages {page} _.
Arguments addPage {page} p.
Arguments makedirs {page} dir_path.
Arguments open_wb {page} path.
Arguments writer_write {page}.
Arguments write {page} self path.
Arguments _read_pages_from {file page err} PdfFileReader getPage caught pages paths.
Arguments _read_pages {file page err} PdfFileReader getPage caught paths.
Arguments from_files {file page err} PdfFileReader getPage caught paths.

End MultiPagePDF.

(** ** Vocabulary of the statements *)

(** The keyword arguments do not set an alignment of their own. *)
Definition no_alignment (kw : kwargs) : Prop :=
  kw !! "ha" = None /\ kw !! "horizontalalignment" = None /\
  kw !! "va" = None /\ kw !! "verticalalignment" = None.

(** The vertical alignment that [text] ends up with. *)
Definition requested_va (va : string) (kw : kwargs) : pyval :=
  FlexAxesTextBox.get2 kw "verticalalignment" "va" (VStr va).

(** The calls of one [text] that goes through: the text at [(x, y)] and,
    when the baseline is shown, the line at [y]. *)
Definition line_calls (self : FlexAxesTextBox.t) (x y : float) (s : text_t) (kw : kwargs)
    : list FlexAxesTextBox.ax_call :=
  FlexAxesTextBox.ax_text x y s kw ::
  (if FlexAxesTextBox._show_baseline self
   then [FlexAxesTextBox.ax_axhline y (FlexAxesTextBox._baseline_kwargs self)]
   else []).

(** The keyword arguments with which a line of a text block reaches
    [ax.text], when no alignment is set from outside: the colour of the
    line, the alignment of the anchor, and the colour of a [ColorStr]. *)
Definition line_kwargs (ha va : string) (color : pyval) (s : text_t) (kw : kwargs) : kwargs :=
  let kw := <["va" := VStr va]> (<["ha" := VStr ha]> (<["color" := color]> kw)) in
  match s with
  | ColorStr _ c => <["color" := c]> kw
  | Str _ => kw
  end.

(** The vertical offsets at which [text_blocks] places the lines of its
    blocks, in the order of placement. *)
Fixpoint sched_lines {A} (dy_line : float) (block : list A) (dy : float)
    : list (float * A) * float :=
  match block with
  | [] => ([], dy)
  | a :: block' =>
      let '(rows, dy') := sched_lines dy_line block' (dy + dy_line)%float in
      ((dy, a) :: rows, dy')
  end.

Fixpoint sched_blocks {A} (dy_line dy_block : float) (blocks : list (list A)) (dy : float)
    : list (float * A) :=
  match blocks with
  | [] => []
  | block :: blocks' =>
      let '(rows, dy') := sched_lines dy_line block dy in
      (rows ++ sched_blocks dy_line dy_block blocks' (dy' + dy_block)%float)%list
  end.

Definition schedule {A} (dy0 dy_line dy_block : option float) (reverse : bool)
    (blocks : list (list A)) : list (float * A) :=
  let dy_line := default 2.5%float dy_line in
  let dy0 := default dy_line dy0 in
  let dy_block := default dy_line dy_block in
  sched_blocks dy_line dy_block
    (if reverse then FlexAxesTextBox.revert blocks else blocks) dy0.


(** The calls for a line of a block of [text_blocks], for an anchor with the
    alignments [ha] and [va] and the baselines [x0] and [y0]: the line is
    placed at the vertical offset of its row, in the colour [c]. *)
Definition row_calls (self : FlexAxesTextBox.t) (dx : option float) (kw : kwargs)
    (ha va : string) (x0 y0 : float) (c : pyval) (row : float * text_t)
    : list FlexAxesTextBox.ax_call :=
  line_calls self
    (x0 + default 0.0 dx * FlexAxesTextBox.dx self)%float
    (y0 + row.1 * FlexAxesTextBox.dy self)%float
    row.2 (line_kwargs ha va c row.2 kw).



(** What [ax.text] is called with: position, text and horizontal alignment. *)
Definition text_call_summary (c : FlexAxesTextBox.ax_call) : option (float * float * text_t * option pyval) :=
  match c with
  | FlexAxesTextBox.ax_text x y s kw => Some (x, y, s, kw !! "ha")
  | FlexAxesTextBox.ax_axhline _ _ => None
  end.

Definition fill_color (default_color c : pyval) : pyval :=
  if FlexAxesTextBox.is_none c then default_color else c.

(** The colours of the lines of a block once [text_blocks] has prepared
    them: the default colour where none is given. *)
Definition block_colors (default_color : pyval) (block : list text_t)
    (colors : option (list pyval)) : list pyval :=
  match colors with
  | None => replicate (length block) default_color
  | Some cs => fill_color default_color <$> cs
  end.

Definition colored_row_calls (self : FlexAxesTextBox.t) (dx : option float) (kw : kwargs)
    (ha va : string) (x0 y0 : float) (row : float * (text_t * pyval)) : list FlexAxesTextBox.ax_call :=
  row_calls self dx kw ha va x0 y0 row.2.2 (row.1, row.2.1).

(** What [ax.text] is called with: position, text and colour. *)
Definition text_call_color (c : FlexAxesTextBox.ax_call) : option (float * float * text_t * option pyval) :=
  match c with
  | FlexAxesTextBox.ax_text x y s kw => Some (x, y, s, kw !! "color")
  | FlexAxesTextBox.ax_axhline _ _ => None
  end.

(** The line of the level in the right top box, which a concentration has
    and a deposition has not. *)
Definition level_lines (W : string -> option string -> Word) (setup : InputSetup)
    (level : string) : list string :=
  if String.eqb (input_variable setup) "concentration"
  then [w_c (W "level" None) +:+ ":" +:+ tab +:+ escape_format_keys level]
  else [].

(** [sub in s] *)
Fixpoint contains (sub s : string) : bool :=
  String.prefix sub s ||
  match s with
  | String _ s' => contains sub s'
  | EmptyString => false
  end.

(** The modes of extending the colour range. *)
Definition extend_modes : list string := ["none"; "min"; "max"; "both"].

(** The number of labels is that of the ranges between the levels, plus one
    for each side on which the colour range is extended. *)
Definition n_ranges (n_levels : nat) (extend : string) : nat :=
  (n_levels - 1)
  + (if bool_decide (extend ∈ ["min"; "both"]) then 1 else 0)
  + (if bool_decide (extend ∈ ["max"; "both"]) then 1 else 0).

(** [word] as [Word.define_words] hands it to [WordVariants]. *)
Definition expand_word (ctxs : list string) (word : Words.Word.word_arg)
    : Words.result (dict pyval) :=
  match word with
  | Words.Word.WVal (VStr w) => Words.Return ((fun ctx => (ctx, VStr w)) <$> ctxs)
  | Words.Word.WVal _ =>
      Words.Fail (Words.Exn (TypeError "argument after ** must be a mapping"))
  | Words.Word.WDict d => Words.Return d
  end.

(** The contexts of the variants of a word, as a set. *)
Definition ctx_set (v : Words.WordVariants.t) : gset string :=
  list_to_set (Words.keys (Words.WordVariants._variants v)).

(** The colour lists hold a colour for every line. *)
Definition colors_cover (blocks : list (list text_t)) (cbs : list (list pyval)) : Prop :=
  Forall2 (fun block cs => length block <= length cs) blocks cbs.

(** [sep.join(parts)] *)
Fixpoint join (sep : string) (parts : list string) : string :=
  match parts with
  | [] => EmptyString
  | [part] => part
  | part :: parts' => part +:+ sep +:+ join sep parts'
  end.

(** The text and the colour of a call of [ax.text]. *)
Definition text_and_color (c : FlexAxesTextBox.ax_call) : option (text_t * option pyval) :=
  match c with
  | FlexAxesTextBox.ax_text _ _ s kw => Some (s, kw !! "color")
  | FlexAxesTextBox.ax_axhline _ _ => None
  end.

(** The colour in which a line is drawn: its own when it is a [ColorStr]. *)
Definition drawn_color (color : pyval) (s : text_t) : pyval :=
  match s with
  | ColorStr _ c => c
  | Str _ => color
  end.

(** The groups of labels that are texts. *)
Definition label_groups (l : Labels) : list (dict string) :=
  [top l; right_middle l; right_bottom l; bottom l].

(** What [box.text] is called with: location and size. *)
Definition box_text_summary (c : call) : option (string * option pyval * option pyval) :=
  match c with
  | box_text s kw => Some (s, kw !! "loc", kw !! "size")
  | _ => None
  end.

(** The plot holds the labels and the markers of the configuration [c]. *)
Definition built_from (c : ConfigDct) (plot : BoxedPlot) : Prop :=
  labels (config plot) = dct_labels c /\ markers (config plot) = Some (dct_markers c).

(** All texts of the labels: those of the four groups of texts, then the
    title and the lines of the right top box. *)
Definition label_texts (l : Labels) : list string :=
  (snd <$> concat (label_groups l)) ++
  concat ((fun kv : string * label => match kv.2 with L s => [s] | Lines ls => ls end)
            <$> right_top l).

(** The text holds no newline. *)
Definition one_line (s : string) : Prop :=
  forall c, c ∈ list_ascii_of_string s -> c <> "010"%char.

(** The format string holds the key [name]: in braces, alone or followed by
    a colon and a format specification on one line. *)
Definition has_format_key (name fmt : string) : Prop :=
  exists pre post : string,
    fmt = pre +:+ "{" +:+ name +:+ "}" +:+ post \/
    exists spec, fmt = pre +:+ "{" +:+ name +:+ ":" +:+ spec +:+ "}" +:+ post /\ one_line spec.

(** The values hold two different ones. *)
Definition several {A} (l : list A) : Prop :=
  exists a b, a ∈ l /\ b ∈ l /\ a <> b.

(** The path ends in the extension of a plot format, in any case of the
    letters: a part [ext] that reads [.pdf] or [.png] in lower case, after
    a file name that holds a character [c] other than a dot. *)
Definition has_plot_extension (p : string) : Prop :=
  exists (pre : string) (c : ascii) (mid ext : string),
    p = pre +:+ String c mid +:+ ext /\
    c <> "."%char /\ c <> "/"%char /\ ("/"%char ∉ list_ascii_of_string mid) /\
    FlexPlotConcentration.lower ext ∈ [".pdf"; ".png"].



(** The first page of the file at a path. *)
Definition first_page {file page err : Type} (PdfFileReader : string -> file + err)
    (getPage : file -> nat -> page + err) (path : string) (p : page) : Prop :=
  exists f, PdfFileReader path = inl f /\ getPage f 0%nat = inl p.

(** What reading the first page of the file at a path raises: the error of
    the reader, wrapped with the path when it is one of those caught, or
    the error of the look-up of the page. *)
Definition read_error {file page err : Type} (PdfFileReader : string -> file + err)
    (getPage : file -> nat -> page + err) (caught : err -> bool) (path : string)
    (e : MultiPagePDF.error err) : Prop :=
  (exists c, PdfFileReader path = inr c /\
             e = if caught c then MultiPagePDF.PdfReadError path c
                 else MultiPagePDF.Uncaught c) \/
  (exists f c, PdfFileReader path = inl f /\ getPage f 0%nat = inr c /\
               e = MultiPagePDF.Uncaught c).

(** The pages that are added to the writer. *)
Definition added_pages {page : Type} (calls : list (MultiPagePDF.call page)) : list page :=
  omap (fun c => match c with MultiPagePDF.addPage p => Some p | _ => None end) calls.

(** A finite number. *)
Definition finite_float (x : float) : Prop :=
  match Prim2SF x with
  | S754_zero _ | S754_finite _ _ _ => True
  | _ => False
  end.

(** A finite number other than the negative zero. *)
Definition proper_float (x : float) : Prop :=
  match Prim2SF x with
  | S754_zero false | S754_finite _ _ _ => True
  | _ => False
  end.


















(** ** Sample data *)

Definition sample_box : FlexAxesTextBox.t := FlexAxesTextBox.mk 0.25 0.5 false ∅.

(** A grey scale standing in for a matplotlib colour map. *)
Definition sample_cmap (v : float) : pyval := VRGBA v v v 1.

(** A few English words in the manner of the word table, by key and
    context; a word that the table lacks is shown by its key. *)
Definition sample_word_table : dict string :=
  [ ("number_of/abbr", "no."); ("member/pl", "members"); ("minimum/abbr", "min.");
    ("maximum/abbr", "max."); ("integrated/abbr", "int."); ("concentration/abbr", "conc.");
    ("cloud_density/", "cloud density"); ("activity_concentration/", "activity concentration");
    ("input_variable/", "input variable"); ("surface_deposition/", "surface deposition");
    ("cloud_occurrence_probability/", "cloud occurrence probability");
    ("cloud_arrival_time/", "cloud arrival time");
    ("cloud_departure_time/", "cloud departure time");
    ("release_start/", "release start"); ("based_on/", "based on");
    ("flexpart/", "FLEXPART"); ("meteoswiss/", "MeteoSwiss"); ("hour/pl", "hours") ].

Definition sample_words (lang key : string) (ctx : option string) : Word :=
  let w := match dict_get (key +:+ "/" +:+ default EmptyString ctx) sample_word_table with
           | Some w => w
           | None => match key with
                     | EmptyString => "?"
                     | _ => key
                     end
           end in
  mk_word w w (capitalize w) (capitalize w).

Definition sample_symbols (key : string) : string :=
  match key with
  | "geq" => "$\geq$"
  | "deg" => "$^\circ$"
  | "short_space" => "$\,$"
  | "copyright" => "(c) "
  | k => k
  end.

Definition sample_mdata : MetaData :=
  mk_mdata "00:00 h" "2019-07-27, 08:00 UTC" "08:00 h" "COSMO-2E" "2019-07-27, 00:00 UTC"
           "Cs-137" "Bq m$^{-3}$" "Goesgen" 47.37 7.97.

Definition sample_setup (ens_variable : string) : InputSetup :=
  mk_setup "en" "concentration" false "tot" "concentration" ens_variable
           (Some (Z.of_nat <$> seq 0 21)) "1e-09" (Some 10%Z) "ensemble".

Definition sample_create_plot_config : InputSetup -> MetaData -> res ConfigDct :=
  create_plot_config sample_words sample_symbols
    (fun _ _ => Ok "Averaged over 8:00$\,$h") (fun _ => Ok "500$-$2000 m AGL")
    (fun ids => "00-20").

(** The lines of the right top box of a configuration. *)
Definition right_top_lines_of (c : res ConfigDct) : list string :=
  match c with
  | Ok d => match dict_get "lines" (right_top (dct_labels d)) with
            | Some (Lines ls) => ls
            | _ => []
            end
  | Raise _ => []
  end.

Definition sample_markers : dict kwargs := markers_fixed.

Definition sample_labels : Labels :=
  mk_labels [] []
    [("title", "Concentration"); ("title_unit", "Concentration (Bq m$^{-3}$)");
     ("release_site", "Release site"); ("site", "Site"); ("max", "Max.");
     ("maximum", "Maximum"); ("unit", "Bq m$^{-3}$")]
    [] [].

Definition sample_config (mark_field_max mark_release_site : bool) : BoxedPlotConfig :=
  mk_config sample_mdata sample_labels (VStr "Liberation Sans")
    (mk_font_sizes (VFloat 14) (VFloat 12.5) (VFloat 12.5) (VFloat 10) (VFloat 9))
    "base" "max" true "center" (VStr <$> ["bisque"; "violet"; "lightgray"])
    mark_field_max mark_release_site (Some sample_markers).

(** A field without any valid value. *)
Definition sample_field_nan : Field :=
  mk_field [[nan; nan; nan]; [nan; nan; nan]] [46.0; 47.0]%float [7.0; 8.0; 9.0]%float.

Definition sample_field : Field :=
  mk_field [[nan; 0.5; nan]; [nan; 4.56; 1.0]]%float [46.0; 47.0]%float [7.0; 8.0; 9.0]%float.

Definition sample_format_level_ranges (levels : list float) (style extend : string)
    (rstrip_zeros : bool) (align : string) : list string :=
  ["1 > 10"; "10 > 100"; "> 100"].

Definition sample_plot (f : Field) (mark_field_max mark_release_site : bool) : BoxedPlot :=
  mk_plot (sample_config mark_field_max mark_release_site) f [1; 10; 100]%float.

Definition is_box_marker (c : call) : bool :=
  match c with
  | box_marker _ => true
  | _ => false
  end.

Definition is_ax_map_marker (c : call) : bool :=
  match c with
  | ax_map_marker _ => true
  | _ => false
  end.

(** An ensemble setup with the plot variable [affected_area_mono]. *)
Definition sample_setup_mono : InputSetup :=
  mk_setup "en" "concentration" false "tot" "affected_area_mono" "mean"
           (Some (Z.of_nat <$> seq 0 21)) "1e-09" (Some 10%Z) "ensemble".

(** A plot with the labels, the colours and the markers of a configuration. *)
Definition sample_plot_of (c : ConfigDct) : BoxedPlot :=
  mk_plot (mk_config sample_mdata (dct_labels c) (VStr "Liberation Sans")
             (mk_font_sizes (VFloat 14) (VFloat 12.5) (VFloat 12.5) (VFloat 10) (VFloat 9))
             "base" (default "max" (dct_extend c)) true "center" (dct_colors c)
             true true (Some (dct_markers c)))
          sample_field [1; 10; 100]%float.









(** * Properties *)

(** ** Location codes *)

Import BoxLocation.

Lemma _prepare_loc_two (a b : ascii) :
  _prepare_loc (LocStr (String a (String b EmptyString))) =
    (loc_y ← _eval_loc_vert (String a EmptyString);
     loc_x ← _eval_loc_horz (String b EmptyString);
     Ok (loc_y, loc_x)).
Proof. reflexivity. Qed.

(** A string that is neither two characters long nor ["center"] reaches the
    branch of the unbound name. *)
Lemma _prepare_loc_other (s : string) :
  String.length s <> 2%nat -> s <> "center" ->
  _prepare_loc (LocStr s) = Raise (NameError "line").
Proof.
  intros Hlen Hc. unfold _prepare_loc. cbn [str].
  destruct (String.eqb_spec s "center") as [->|_]; [congruence|].
  destruct s as [|a [|b [|c s]]]; try reflexivity.
  cbn in Hlen. congruence.
Qed.

(** The location that the constructor builds has components for which the
    four getters are defined. *)
Lemma __init___components (l : loc_param) (b : BoxLocation.t) :
  __init__ l = Ok b ->
  (loc_y b = "b" \/ loc_y b = "c" \/ loc_y b = "t") /\
  (loc_x b = "l" \/ loc_x b = "c" \/ loc_x b = "r").
Proof.
  unfold __init__, _prepare_loc.
  destruct (match str l with
            | String a (String b0 EmptyString) => _
            | _ => _
            end) as [[y x]|e]; cbn; [|discriminate].
  unfold _eval_loc_vert, _eval_loc_horz.
  repeat case_bool_decide; cbn; intros [= <-]; cbn; auto.
Qed.

(** C1: of the three forms of a location that the docstring of [BoxLocation]
    lists for each anchor of the 3x3 grid, the two-digit code and the short
    code resolve, and to the same alignments and baselines; the long form
    resolves for ["center"] alone, and for the eight other anchors it ends
    in the [NameError] of the unbound name [line]. *)
Theorem choices_resolution (dx dy : float) :
  Forall (fun '(code, short, long) =>
            is_Ok (derive (LocStr short) dx dy) /\
            derive (LocStr code) dx dy = derive (LocStr short) dx dy /\
            derive (LocStr long) dx dy =
              (if String.eqb long "center" then derive (LocStr short) dx dy
               else Raise (NameError "line")))
         choices.
Proof.
  unfold choices.
  repeat (constructor; [split; [eexists; reflexivity | split; reflexivity] |]).
  constructor.
Qed.

(** An integer code below ten has a one-character text, and the same
    branch is reached. *)
Example int_code_zero : __init__ (LocInt 0) = Raise (NameError "line").
Proof. reflexivity. Qed.

Example str_invalid : exists msg, __init__ (LocStr "xy") = Raise (ValueError msg).
Proof. eexists. reflexivity. Qed.

(** ** Colours of the contour levels (plots.py) *)

Lemma colors_core_length (n : Z) (core : list string) :
  colors_core n = Some core -> Z.of_nat (length core) = (n - 1)%Z.
Proof.
  unfold colors_core.
  repeat match goal with
         | |- context [(n =? ?k)%Z] =>
             destruct (Z.eqb_spec n k) as [->|_]; [intros [= <-]; reflexivity|]
         end.
  discriminate.
Qed.

Lemma colors_core_defined (n : Z) :
  (5 <= n <= 9)%Z <-> is_Some (colors_core n).
Proof.
  split.
  - intros H. assert (n = 5 \/ n = 6 \/ n = 7 \/ n = 8 \/ n = 9)%Z as Hn by lia.
    destruct Hn as [->|[->|[->|[->| ->]]]]; eexists; reflexivity.
  - intros [core H]. revert H. unfold colors_core.
    repeat match goal with
           | |- context [(n =? ?k)%Z] => destruct (Z.eqb_spec n k) as [->|_]; [lia|]
           end.
    discriminate.
Qed.

(** C8: for a level count from 5 to 9 and each of the four extend modes,
    [colors_flexplot] returns the core palette of the level count, which
    has one colour less than there are levels, with darkgray in front
    exactly for min and both, and lightgray at the end exactly for max and
    both; for 6 levels and both, these are the colours of the core palette
    and two more, the grays first and last; any other level count ends in
    the error that names the level count. *)
Theorem colors_flexplot_spec (n_levels : Z) (extend : string) :
  ((5 <= n_levels <= 9)%Z -> extend ∈ extend_modes ->
   exists core,
     colors_core n_levels = Some core /\
     Z.of_nat (length core) = (n_levels - 1)%Z /\
     colors_flexplot n_levels extend =
       Ok ((if bool_decide (extend ∈ ["min"; "both"]) then ["darkgray"] else []) ++
           core ++
           (if bool_decide (extend ∈ ["max"; "both"]) then ["lightgray"] else []))%list) /\
  (~ (5 <= n_levels <= 9)%Z ->
   colors_flexplot n_levels extend = Raise (ValueError ("n_levels=" +:+ str_of_Z n_levels))) /\
  (exists core cs,
     colors_core 6 = Some core /\ colors_flexplot 6 "both" = Ok cs /\
     length cs = (length core + 2)%nat /\
     head cs = Some "darkgray" /\ last cs = Some "lightgray").
Proof.
  split; [|split].
  - intros Hn He. apply colors_core_defined in Hn as [core Hcore].
    exists core. split; [done|]. split; [by apply colors_core_length|].
    unfold colors_flexplot. rewrite Hcore. cbn.
    unfold extend_modes in He.
    repeat (apply elem_of_cons in He as [->|He]);
      [cbn; rewrite ?app_nil_r; reflexivity..|].
    by apply elem_of_nil in He.
  - intros Hn. unfold colors_flexplot.
    destruct (colors_core n_levels) as [core|] eqn:Hcore; [|reflexivity].
    exfalso. apply Hn. apply colors_core_defined. by eexists.
  - eexists _, _. repeat split; reflexivity.
Qed.

Lemma colors_flexplot_spec_witness :
  (5 <= 7 <= 9)%Z /\ "max" ∈ extend_modes /\
  exists core,
    colors_core 7 = Some core /\
    Z.of_nat (length core) = (7 - 1)%Z /\
    colors_flexplot 7 "max" =
      Ok ((if bool_decide ("max" ∈ ["min"; "both"]) then ["darkgray"] else []) ++
          core ++
          (if bool_decide ("max" ∈ ["max"; "both"]) then ["lightgray"] else []))%list.
Proof.
  assert (H57 : (5 <= 7 <= 9)%Z) by lia.
  assert (Hmax : "max" ∈ extend_modes) by (unfold extend_modes; repeat constructor).
  split; [exact H57 | split; [exact Hmax |]].
  exact (proj1 (colors_flexplot_spec 7 "max") H57 Hmax).
Defined.

Example colors_flexplot_7_max :
  colors_flexplot 7 "max" =
    Ok ["violet"; "rebeccapurple"; "cornflowerblue"; "forestgreen"; "yellowgreen";
        "yellow"; "lightgray"].
Proof. reflexivity. Qed.

Example colors_flexplot_4 : colors_flexplot 4 "max" = Raise (ValueError "n_levels=4").
Proof. reflexivity. Qed.

Example colors_flexplot_extend : exists msg, colors_flexplot 7 "left" = Raise (ValueError msg).
Proof. eexists. reflexivity. Qed.

(** ** The text of the field maximum *)

(** The order of floats, through their specification: what is at least [b]
    is not below any [a <= b]. *)
Lemma SFleb_SFltb_trans (a b x : spec_float) :
  SFleb a b = true -> SFleb b x = true -> SFltb x a = false.
Proof.
  unfold SFleb, SFltb.
  destruct a as [sa|sa| |sa ma ea], b as [sb|sb| |sb mb eb], x as [sx|sx| |sx mx ex];
    cbn; try done;
    repeat match goal with s : bool |- _ => destruct s end; cbn; try done;
    change (Pos.compare_cont Eq) with Pos.compare;
    repeat match goal with
           | |- context [Z.compare ?u ?v] => destruct (Z.compare_spec u v)
           | |- context [Pos.compare ?u ?v] => destruct (Pos.compare_spec u v)
           end; cbn; try done; try lia.
Qed.

Lemma float_ge_not_lt (a b x : float) :
  PrimFloat.leb a b = true -> PrimFloat.leb b x = true -> PrimFloat.ltb x a = false.
Proof. rewrite !FloatAxioms.leb_spec, FloatAxioms.ltb_spec. apply SFleb_SFltb_trans. Qed.

Lemma float_lt_not_ge (a b x : float) :
  PrimFloat.leb a b = true -> PrimFloat.ltb x a = true -> PrimFloat.leb b x = false.
Proof.
  intros Hab Hx. destruct (PrimFloat.leb b x) eqn:Hb; [|done].
  rewrite (float_ge_not_lt a b x Hab Hb) in Hx. done.
Qed.

(** The rows of the table are tried from the smallest magnitude on; with
    these two tactics a row is skipped because the value lies above it or
    below it. *)
Ltac skip_row_above H :=
  match type of H with
  | PrimFloat.leb ?lo ?x = true =>
      match goal with
      | |- context [PrimFloat.ltb x ?hi] =>
          rewrite (float_ge_not_lt hi lo x eq_refl H), andb_false_r
      end
  end.

Ltac skip_row_below H :=
  match type of H with
  | PrimFloat.ltb ?x ?hi = true =>
      match goal with
      | |- context [PrimFloat.leb ?lo x && _] =>
          rewrite (float_lt_not_ge hi lo x eq_refl H); cbn [andb]
      end
  end.

(** C4 (as amended): the field maximum is shown with 5 decimals from 0.001
    to below 0.01, with 4, 3, 2, 1 and 0 decimals in the following decades
    up to below 1000, and in scientific notation with two decimals from
    1000 on as well as below 0.001; so 0.0456, 4.56, 456 and 45600 read
    "0.0456", "4.56", "456" and "4.56E+04". *)
Theorem s_val_of_max_table (x : float) :
  ((0.001 <=? x)%float = true -> (x <? 0.01)%float = true ->
   s_val_of_max x = format_f 5 x) /\
  ((0.01 <=? x)%float = true -> (x <? 0.1)%float = true ->
   s_val_of_max x = format_f 4 x) /\
  ((0.1 <=? x)%float = true -> (x <? 1)%float = true ->
   s_val_of_max x = format_f 3 x) /\
  ((1 <=? x)%float = true -> (x <? 10)%float = true ->
   s_val_of_max x = format_f 2 x) /\
  ((10 <=? x)%float = true -> (x <? 100)%float = true ->
   s_val_of_max x = format_f 1 x) /\
  ((100 <=? x)%float = true -> (x <? 1000)%float = true ->
   s_val_of_max x = format_f 0 x) /\
  ((1000 <=? x)%float = true -> s_val_of_max x = format_e true 2 x) /\
  ((x <? 0.001)%float = true -> s_val_of_max x = format_e true 2 x) /\
  s_val_of_max 0.0456 = "0.0456" /\
  s_val_of_max 4.56 = "4.56" /\
  s_val_of_max 456 = "456" /\
  s_val_of_max 45600 = "4.56E+04".
Proof.
  assert (E1 : s_val_of_max 0.0456 = "0.0456") by (vm_compute; reflexivity).
  assert (E2 : s_val_of_max 4.56 = "4.56") by (vm_compute; reflexivity).
  assert (E3 : s_val_of_max 456 = "456") by (vm_compute; reflexivity).
  assert (E4 : s_val_of_max 45600 = "4.56E+04") by (vm_compute; reflexivity).
  refine (conj _ (conj _ (conj _ (conj _ (conj _ (conj _ (conj _ (conj _
            (conj E1 (conj E2 (conj E3 E4)))))))))));
    clear E1 E2 E3 E4; unfold s_val_of_max.
  - intros H1 H2. by rewrite H1, H2.
  - intros H1 H2. skip_row_above H1. by rewrite H1, H2.
  - intros H1 H2. do 2 skip_row_above H1. by rewrite H1, H2.
  - intros H1 H2. do 3 skip_row_above H1. by rewrite H1, H2.
  - intros H1 H2. do 4 skip_row_above H1. by rewrite H1, H2.
  - intros H1 H2. do 5 skip_row_above H1. by rewrite H1, H2.
  - intros H1. do 6 skip_row_above H1. done.
  - intros H1. do 6 skip_row_below H1. done.
Qed.

Lemma s_val_of_max_table_witness :
  (0.01 <=? 0.0456)%float = true /\ (0.0456 <? 0.1)%float = true /\
  s_val_of_max 0.0456 = format_f 4 0.0456.
Proof.
  split; [reflexivity | split; [reflexivity |]].
  exact (proj1 (proj2 (s_val_of_max_table 0.0456)) eq_refl eq_refl).
Defined.

(** The value 0.0456 lies in the decade of four decimals. *)
Lemma s_val_of_max_0_0456 : s_val_of_max 0.0456 <> "0.04560".
Proof. vm_compute. discriminate. Qed.

Example s_val_of_max_rows :
  s_val_of_max <$> [0.000456; 0.001; 0.00456; 0.01; 0.456; 45.6; 999.4; 1000; 4560]%float
  = ["4.56E-04"; "0.00100"; "0.00456"; "0.0100"; "0.456"; "45.6"; "999"; "1.00E+03"; "4.56E+03"].
Proof. vm_compute. reflexivity. Qed.

(** ** Text boxes (plot.py) *)

Import FlexAxesTextBox.

Lemma lookup_ha_va (kw : kwargs) (v : pyval) (k : string) :
  k <> "ha" -> (<["ha" := v]> kw) !! k = kw !! k.
Proof. intros. by rewrite lookup_insert_ne. Qed.

(** [text] with a vertical alignment that is not ["top_baseline"] and a
    location that resolves issues its calls and returns. *)
Lemma text_calls (self : FlexAxesTextBox.t) (loc : loc_param) (s : text_t)
    (dx dy : option float) (kw : kwargs) (ha va : string) (x0 y0 : float) :
  derive loc (FlexAxesTextBox.dx self) (FlexAxesTextBox.dy self) = Ok (ha, va, x0, y0) ->
  is_str (requested_va va kw) "top_baseline" = false ->
  text self loc s dx dy kw =
    (line_calls self
       (x0 + default 0.0 dx * FlexAxesTextBox.dx self)%float
       (y0 + default 0.0 dy * FlexAxesTextBox.dy self)%float
       s
       (let kw := <["va" := requested_va va kw]>
                    (<["ha" := get2 kw "horizontalalignment" "ha" (VStr ha)]> kw) in
        match s with
        | ColorStr _ c => <["color" := c]> kw
        | Str _ => kw
        end),
     Ok tt).
Proof.
  intros Hloc Hva. unfold text. rewrite Hloc. cbn -[derive].
  rewrite lookup_insert_eq. cbn.
  assert (get2 (<["ha" := get2 kw "horizontalalignment" "ha" (VStr ha)]> kw)
               "verticalalignment" "va" (VStr va) = requested_va va kw) as ->.
  { unfold requested_va, get2. by rewrite !lookup_insert_ne. }
  rewrite Hva. cbn. unfold line_calls.
  destruct (_show_baseline self); reflexivity.
Qed.

(** [text] with the vertical alignment ["top_baseline"] draws nothing and
    raises: the [NotImplementedError] when a keyword [vs] is passed, and
    the [KeyError] of the key ['vs'] otherwise. *)
Lemma text_top_baseline (self : FlexAxesTextBox.t) (loc : loc_param) (s : text_t)
    (dx dy : option float) (kw : kwargs) (ha va : string) (x0 y0 : float) :
  derive loc (FlexAxesTextBox.dx self) (FlexAxesTextBox.dy self) = Ok (ha, va, x0, y0) ->
  is_str (requested_va va kw) "top_baseline" = true ->
  text self loc s dx dy kw =
    ([], Raise match kw !! "vs" with
               | Some v => NotImplementedError [Txt "verticalalignment='"; Fmt v; Txt "'"]
               | None => KeyError "vs"
               end).
Proof.
  intros Hloc Hva. unfold text. rewrite Hloc. cbn -[derive].
  rewrite lookup_insert_eq. cbn.
  assert (get2 (<["ha" := get2 kw "horizontalalignment" "ha" (VStr ha)]> kw)
               "verticalalignment" "va" (VStr va) = requested_va va kw) as ->.
  { unfold requested_va, get2. by rewrite !lookup_insert_ne. }
  rewrite Hva. rewrite !lookup_insert_ne by done.
  destruct (kw !! "vs"); reflexivity.
Qed.

(** The anchors never ask for ["top_baseline"] themselves. *)
Lemma derive_va (loc : loc_param) (dx dy : float) (ha va : string) (x0 y0 : float) :
  derive loc dx dy = Ok (ha, va, x0, y0) ->
  va = "baseline" \/ va = "center_baseline" \/ va = "top".
Proof.
  unfold derive. destruct (__init__ loc) as [b|e] eqn:Hb; [|discriminate].
  apply __init___components in Hb as [Hy Hx]. cbn.
  unfold get_ha, get_va, get_x0, get_y0.
  destruct Hy as [-> | [-> | ->]], Hx as [-> | [-> | ->]]; cbn; intros [= <- <- <- <-]; auto.
Qed.

(** C7: a call of [text] that asks for the vertical alignment
    ["top_baseline"] draws no text and fails at once -- with the intended
    [NotImplementedError] only when the caller passes a keyword [vs]; in
    every other call building the message of that error fails first, and
    the error raised is the [KeyError] of the key ['vs']. *)
Theorem text_top_baseline_error (self : FlexAxesTextBox.t) (loc : loc_param) (s : text_t)
    (dx dy : option float) (kw : kwargs) :
  is_Ok (derive loc (FlexAxesTextBox.dx self) (FlexAxesTextBox.dy self)) ->
  get2 kw "verticalalignment" "va" VNone = VStr "top_baseline" ->
  text self loc s dx dy kw =
    ([], Raise match kw !! "vs" with
               | Some v => NotImplementedError [Txt "verticalalignment='"; Fmt v; Txt "'"]
               | None => KeyError "vs"
               end).
Proof.
  intros [[[[ha va] x0] y0] Hloc] Hva.
  apply (text_top_baseline self loc s dx dy kw ha va x0 y0 Hloc).
  unfold requested_va. revert Hva. unfold get2.
  destruct (kw !! "verticalalignment") as [v|]; cbn.
  - by intros ->.
  - destruct (kw !! "va") as [v|]; cbn; [by intros ->|discriminate].
Qed.

Lemma text_top_baseline_error_witness :
  is_Ok (derive (LocStr "tl") (FlexAxesTextBox.dx sample_box) (FlexAxesTextBox.dy sample_box)) /\
  get2 {["va" := VStr "top_baseline"]} "verticalalignment" "va" VNone = VStr "top_baseline" /\
  text sample_box (LocStr "tl") (Str "Concentration") None None {["va" := VStr "top_baseline"]}
  = ([], Raise (KeyError "vs")).
Proof.
  assert (H1 : is_Ok (derive (LocStr "tl") (FlexAxesTextBox.dx sample_box)
                             (FlexAxesTextBox.dy sample_box)))
    by (eexists; reflexivity).
  assert (H2 : get2 ({["va" := VStr "top_baseline"]} : kwargs) "verticalalignment" "va" VNone
               = VStr "top_baseline") by reflexivity.
  split; [exact H1 | split; [exact H2 |]].
  exact (text_top_baseline_error sample_box (LocStr "tl") (Str "Concentration") None None
           {["va" := VStr "top_baseline"]} H1 H2).
Defined.


(** *** Blocks of lines *)

Lemma trace_bind_Ok {C A B} (w : list C) (a : A) (f : A -> trace C B) :
  ((w, Ok a) : trace C A) ≫= f = ((w ++ (f a).1)%list, (f a).2).
Proof. unfold mbind, trace_bind. by destruct (f a). Qed.

Lemma trace_bind_lift_Ok {C A B} (a : A) (f : A -> trace C B) :
  (lift (Ok a) : trace C A) ≫= f = f a.
Proof. unfold lift. rewrite trace_bind_Ok. by destruct (f a). Qed.

Lemma trace_bind_Raise {C A B} (w : list C) (e : exn) (f : A -> trace C B) :
  ((w, Raise e) : trace C A) ≫= f = (w, Raise e).
Proof. reflexivity. Qed.

Lemma no_alignment_insert_color (kw : kwargs) (c : pyval) :
  no_alignment kw -> no_alignment (<["color" := c]> kw).
Proof.
  unfold no_alignment. intros (? & ? & ? & ?).
  by rewrite !lookup_insert_ne.
Qed.

Lemma no_alignment_pop_color (kw : kwargs) :
  no_alignment kw -> no_alignment (pop_color kw).2.
Proof.
  unfold no_alignment, pop_color. cbn. intros (? & ? & ? & ?).
  by rewrite !lookup_delete_ne.
Qed.

(** A line of a block, placed at the offset [dy] in the colour [c]. *)
Lemma text_line (self : FlexAxesTextBox.t) (loc : loc_param) (s : text_t)
    (dx : option float) (dy : float) (c : pyval) (kw : kwargs)
    (ha va : string) (x0 y0 : float) :
  derive loc (FlexAxesTextBox.dx self) (FlexAxesTextBox.dy self) = Ok (ha, va, x0, y0) ->
  no_alignment kw ->
  text self loc s dx (Some dy) (<["color" := c]> kw) =
    (line_calls self
       (x0 + default 0.0 dx * FlexAxesTextBox.dx self)%float
       (y0 + dy * FlexAxesTextBox.dy self)%float
       s (line_kwargs ha va c s kw),
     Ok tt).
Proof.
  intros Hloc Hkw.
  apply (no_alignment_insert_color kw c) in Hkw as (Hha & Hha' & Hva & Hva').
  assert (requested_va va (<["color" := c]> kw) = VStr va) as Hreq.
  { unfold requested_va, get2. by rewrite Hva, Hva'. }
  rewrite (text_calls self loc s dx (Some dy) _ ha va x0 y0 Hloc).
  - unfold line_kwargs, get2. by rewrite Hreq, Hha, Hha'.
  - rewrite Hreq. apply derive_va in Hloc as [-> | [-> | ->]]; reflexivity.
Qed.

Section blocks.

Variables (self : FlexAxesTextBox.t) (loc : loc_param) (dx : option float) (kw : kwargs).
Variables (ha va : string) (x0 y0 : float) (c : pyval).
Hypothesis Hloc :
  derive loc (FlexAxesTextBox.dx self) (FlexAxesTextBox.dy self) = Ok (ha, va, x0, y0).
Hypothesis Hkw : no_alignment kw.

Lemma draw_lines_calls (dy_line : float) (block : list text_t) (dy : float) :
  draw_lines self loc dx kw dy_line block (replicate (length block) c) dy =
    (flat_map (row_calls self dx kw ha va x0 y0 c) (sched_lines dy_line block dy).1,
     Ok (sched_lines dy_line block dy).2).
Proof.
  revert dy. induction block as [|line block IH]; intros dy; [reflexivity|].
  cbn [draw_lines length replicate sched_lines tail].
  rewrite trace_bind_lift_Ok.
  rewrite (text_line self loc line dx dy c kw ha va x0 y0 Hloc Hkw).
  rewrite trace_bind_Ok, IH.
  destruct (sched_lines dy_line block (dy + dy_line)) as [rows dy'].
  reflexivity.
Qed.

Lemma draw_blocks_calls (dy_line dy_block : float) (blocks : list (list text_t)) (dy : float) :
  (draw_blocks self loc dx kw dy_line dy_block blocks
     ((fun block => replicate (length block) c) <$> blocks) dy).1 =
    flat_map (row_calls self dx kw ha va x0 y0 c) (sched_blocks dy_line dy_block blocks dy) /\
  is_Ok (draw_blocks self loc dx kw dy_line dy_block blocks
     ((fun block => replicate (length block) c) <$> blocks) dy).2.
Proof.
  revert dy. induction blocks as [|block blocks IH]; intros dy.
  - split; [reflexivity | by eexists].
  - cbn [draw_blocks fmap list_fmap hd tail sched_blocks].
    rewrite draw_lines_calls, trace_bind_Ok.
    destruct (sched_lines dy_line block dy) as [rows dy'].
    destruct (IH (dy' + dy_block)%float) as [IH1 IH2].
    cbn [fst snd]. rewrite IH1, flat_map_app. split; [reflexivity | exact IH2].
Qed.

End blocks.

Lemma fill_colors_None (c : pyval) (blocks : list (list text_t)) :
  fill_colors c blocks (replicate (length blocks) None) =
    Ok ((fun block => replicate (length block) c) <$> blocks).
Proof.
  induction blocks as [|block blocks IH]; [reflexivity|].
  cbn. rewrite IH. reflexivity.
Qed.


Lemma revert_replicate {A} (c : pyval) (blocks : list (list A)) :
  revert ((fun block => replicate (length block) c) <$> blocks) =
    (fun block => replicate (length block) c) <$> revert blocks.
Proof.
  unfold revert. rewrite <- fmap_reverse, <- !list_fmap_compose.
  apply list_fmap_ext. intros _ block _. unfold compose.
  by rewrite reverse_replicate, length_reverse.
Qed.

(** The calls and the result of [text_blocks] when no colours are given, no
    alignment is set from outside and the location resolves. *)
Lemma text_blocks_calls (self : FlexAxesTextBox.t) (loc : loc_param)
    (blocks : list (list text_t)) (dy0 dy_line dy_block : option float) (reverse : bool)
    (dx : option float) (kw : kwargs) (ha va : string) (x0 y0 : float) :
  derive loc (FlexAxesTextBox.dx self) (FlexAxesTextBox.dy self) = Ok (ha, va, x0, y0) ->
  no_alignment kw ->
  text_blocks self loc blocks dy0 dy_line dy_block reverse None dx kw =
    (flat_map (row_calls self dx (pop_color kw).2 ha va x0 y0 (pop_color kw).1)
              (schedule dy0 dy_line dy_block reverse blocks),
     Ok None).
Proof.
  intros Hloc Hkw. apply no_alignment_pop_color in Hkw.
  unfold text_blocks, schedule.
  destruct (pop_color kw) as [c kw'] eqn:Hpop. cbn [fst snd] in *.
  rewrite trace_bind_lift_Ok, fill_colors_None, trace_bind_lift_Ok.
  set (dl := default 2.5%float dy_line).
  assert (forall bs,
    draw_blocks self loc dx kw' dl (default dl dy_block) bs
      ((fun block => replicate (length block) c) <$> bs) (default dl dy0)
    ≫= (fun _ => mret None)
    = (flat_map (row_calls self dx kw' ha va x0 y0 c)
         (sched_blocks dl (default dl dy_block) bs (default dl dy0)),
       Ok (None : colors_t))) as Hdraw.
  { intros bs.
    destruct (draw_blocks_calls self loc dx kw' ha va x0 y0 c Hloc Hkw
                dl (default dl dy_block) bs (default dl dy0)) as [H1 [a H2]].
    destruct (draw_blocks _ _ _ _ _ _ _ _ _) as [w r]. cbn in H1, H2. subst.
    cbn. by rewrite app_nil_r. }
  destruct reverse.
  - rewrite revert_replicate. apply Hdraw.
  - apply Hdraw.
Qed.

(** *** Lines that fill the box horizontally *)




(** The left and the right parts of the lines of a block are as many. *)
Lemma split_lines_zip (block : list line_t) (ls rs : list text_t) :
  split_lines block = Ok (ls, rs) -> ls = (zip ls rs).*1 /\ rs = (zip ls rs).*2.
Proof.
  revert ls rs. induction block as [|line block IH]; intros ls rs; cbn.
  - by intros [= <- <-].
  - destruct (split_line line) as [[l r]|]; [|discriminate]. cbn.
    destruct (split_lines block) as [[ls' rs']|]; [|discriminate]. cbn.
    intros [= <- <-]. destruct (IH ls' rs' eq_refl) as [H1 H2].
    cbn. by rewrite <- H1, <- H2.
Qed.

Lemma split_blocks_zip (blocks : list block_t) (bl br : list (list text_t)) :
  split_blocks blocks = Ok (bl, br) ->
  bl = (fun block : list (text_t * text_t) => fst <$> block) <$> zip_with zip bl br /\
  br = (fun block : list (text_t * text_t) => snd <$> block) <$> zip_with zip bl br.
Proof.
  revert bl br. induction blocks as [|block blocks IH]; intros bl br; cbn.
  - by intros [= <- <-].
  - destruct (split_lines (block_lines block)) as [[ls rs]|] eqn:Hs; [|discriminate]. cbn.
    destruct (split_blocks blocks) as [[bl' br']|]; [|discriminate]. cbn.
    intros [= <- <-]. destruct (IH bl' br' eq_refl) as [H1 H2].
    apply split_lines_zip in Hs as [H3 H4].
    cbn. by rewrite <- H1, <- H2, <- H3, <- H4.
Qed.



Example height_line :
  text_call_summary <$>
    (text_blocks_hfill sample_box (LocStr "b")
       (BlocksList [BList [LStr ("Height:" +:+ tab +:+ "100 m AGL")]])
       None None None false None (Some 2.0%float) ∅).1
  = [Some (0.75, 1.75, Str "Height:", Some (VStr "left"));
     Some (0.25, 1.75, Str "100 m AGL", Some (VStr "right"))]%float.
Proof. vm_compute. reflexivity. Qed.

Example line_without_tab :
  exists msg,
    text_blocks_hfill sample_box (LocStr "b") (BlocksList [BList [LStr "Height: 100 m AGL"]])
      None None None false None None ∅ = ([], Raise (ValueError msg)).
Proof. eexists. reflexivity. Qed.

(** ** The text boxes around the map plot *)

Import FlexPlotConcentration.



(** ** The legend of the contour levels *)

Lemma linspace01_length (num : nat) : length (linspace01 num) = num.
Proof.
  unfold linspace01. destruct (1 <? num)%nat;
    rewrite ?length_insert, length_fmap, length_seq; reflexivity.
Qed.

Lemma slice_lengths {A} (l : list A) :
  length (slice_1_m1 l) = (length l - 2)%nat /\
  length (slice_m1 l) = (length l - 1)%nat /\
  length (slice_1 l) = (length l - 1)%nat.
Proof.
  unfold slice_1_m1, slice_m1, slice_1.
  rewrite !length_take, !length_drop. lia.
Qed.

Lemma first_last_level (levels : list float) :
  levels <> [] -> is_Ok (first_level levels) /\ is_Ok (last_level levels).
Proof.
  intros H. unfold first_level, last_level. split.
  - destruct levels; [done | by eexists].
  - destruct (last levels) eqn:Hl; [by eexists|].
    by apply last_None in Hl.
Qed.

(** C3 (as amended): for a ladder of at least one level and each of the four
    extend modes, the legend has as many range labels as there are colours
    selected for the ladder and the mode -- one per pair of neighbouring
    levels and one more for each extended side; for the levels 1, 10, 100
    and the mode max these are 3 labels and 3 colours. *)
Theorem _format_level_ranges_length (cmap : float -> pyval) (levels : list float)
    (extend : string) :
  levels <> [] -> extend ∈ extend_modes ->
  (exists p labels,
     store_properties cmap levels extend = Ok p /\
     _format_level_ranges p = Ok labels /\
     length labels = length (colors p) /\
     length labels = n_ranges (length levels) extend) /\
  (exists p labels,
     store_properties cmap [1; 10; 100]%float "max" = Ok p /\
     _format_level_ranges p = Ok labels /\
     length labels = 3%nat /\ length (colors p) = 3%nat).
Proof.
  intros Hne He. split; [|eexists _, _; repeat split; reflexivity].
  destruct (first_last_level levels Hne) as [[l0 H0] [ln Hn]].
  assert (0 < length levels)%nat as Hlen by (destruct levels; [done | cbn; lia]).
  pose proof (slice_lengths levels) as (_ & Hs1 & Hs2).
  pose proof (slice_lengths (cmap <$> linspace01 (length levels + 1))) as (Hc0 & Hc1 & Hc2).
  rewrite length_fmap, linspace01_length in Hc0, Hc1, Hc2.
  unfold extend_modes in He.
  repeat (apply elem_of_cons in He as [->|He]); [..|by apply elem_of_nil in He].
  all: unfold store_properties; cbn [colors_by_extend mbind res_bind];
    eexists _, _; split; [reflexivity|];
    unfold _format_level_ranges, n_ranges;
    cbn [FlexPlotConcentration.levels FlexPlotConcentration.extend
         FlexPlotConcentration.colors bool_decide decide_rel];
    rewrite ?H0, ?Hn.
  all: repeat match goal with
             | |- context [bool_decide ?P] =>
                 let b := eval vm_compute in (bool_decide P) in
                 change (bool_decide P) with b
             end;
    cbn [mbind res_bind app].
  all: match goal with
       | |- (if (length ?L =? ?C)%nat then _ else _) = _ /\ _ =>
           assert (length L = C) as HL
             by (repeat (progress cbn [length] || rewrite length_app
                         || rewrite length_zip_with);
                 rewrite Hs1, Hs2, ?Hc0, ?Hc1, ?Hc2, ?length_fmap, ?linspace01_length; lia);
           rewrite (proj2 (Nat.eqb_eq _ _) HL);
           split; [reflexivity | split; [exact HL |]]
       end.
  all: repeat (progress cbn [length] || rewrite length_app || rewrite length_zip_with);
    rewrite Hs1, Hs2; lia.
Qed.

Lemma _format_level_ranges_length_witness :
  [1; 10; 100; 1000]%float <> [] /\ "both" ∈ extend_modes /\
  exists p labels,
    store_properties sample_cmap [1; 10; 100; 1000]%float "both" = Ok p /\
    _format_level_ranges p = Ok labels /\
    length labels = length (colors p) /\
    length labels = n_ranges (length [1; 10; 100; 1000]%float) "both".
Proof.
  assert (H1 : [1; 10; 100; 1000]%float <> []) by discriminate.
  assert (H2 : "both" ∈ extend_modes) by (unfold extend_modes; repeat constructor).
  split; [exact H1 | split; [exact H2 |]].
  exact (proj1 (_format_level_ranges_length sample_cmap [1; 10; 100; 1000]%float "both" H1 H2)).
Defined.

(** The levels 1, 10 and 100 bound two ranges; with the range above 100
    these are three labels, and three colours. *)
Lemma _format_level_ranges_example :
  ~ (exists p labels,
       store_properties sample_cmap [1; 10; 100]%float "max" = Ok p /\
       _format_level_ranges p = Ok labels /\
       length labels = 4%nat /\ length (colors p) = 4%nat).
Proof.
  intros (p & labels & Hp & Hl & H4 & _).
  vm_compute in Hp. injection Hp as <-.
  vm_compute in Hl. injection Hl as <-.
  discriminate H4.
Qed.

Example _format_level_ranges_labels :
  (p ← store_properties sample_cmap [1; 10; 100]%float "max"; _format_level_ranges p)
  = Ok ["     1 > 10    "; "    10 > 100   "; "       > 100   "].
Proof. vm_compute. reflexivity. Qed.

Example _format_level_ranges_source_levels :
  (p ← store_properties sample_cmap [0.1; 1; 1e5; 1e6; 1e9]%float "both"; _format_level_ranges p)
  = Ok ["       > 0.1   "; "   0.1 > 1     "; "     1 > 100000"; "100000 > 1e+06 ";
        " 1e+06 > 1e+09 "; "       > 1e+09 "].
Proof. vm_compute. reflexivity. Qed.

(** On the empty ladder the label of an extended side has no level to
    show. *)
Example _format_level_ranges_empty :
  (p ← store_properties sample_cmap [] "min"; _format_level_ranges p)
  = Raise (IndexError "list index out of range").
Proof. vm_compute. reflexivity. Qed.

(** ** The marker of the field maximum *)

Lemma emit_bind {C B} (c : C) (f : unit -> trace C B) :
  emit c ≫= f = (c :: (f tt).1, (f tt).2).
Proof. unfold emit. by rewrite trace_bind_Ok. Qed.

Lemma legend_color_boxes_ok (dx_legend_box : pyval) (w_legend_box h_legend_box dy_line : float)
    (colors : list pyval) (dy : float) :
  (legend_color_boxes dx_legend_box w_legend_box h_legend_box dy_line colors dy).2 = Ok tt /\
  Forall (fun c => is_box_marker c = false)
    (legend_color_boxes dx_legend_box w_legend_box h_legend_box dy_line colors dy).1.
Proof.
  revert dy. induction colors as [|color colors IH]; intros dy; cbn [legend_color_boxes].
  - split; [reflexivity | constructor].
  - rewrite emit_bind. destruct (IH (dy - dy_line)%float) as [IH1 IH2].
    split; [exact IH1 | by constructor].
Qed.

Lemma locate_max_all_nan (f : Field) :
  all_nan (fld f) = true -> locate_max f = Raise FieldAllNaNError.
Proof. intros H. unfold locate_max. by rewrite H. Qed.

(** C6 (as amended): on a field whose values are all NaN, with the marker
    of the field maximum switched on, [plot_add_markers] returns, warns
    that the marker is skipped and puts no marker of the maximum on the
    map; [fill_box_right_middle] returns as well, and its legend still
    shows the symbol of the maximum, labelled with the text NaN. *)
Theorem all_nan_field_max (format_level_ranges :
      list float -> string -> string -> bool -> string -> list string)
    (plot : BoxedPlot) (mk : dict kwargs) (style_max : kwargs)
    (title_unit label_max : string) :
  all_nan (fld (field plot)) = true ->
  mark_field_max (config plot) = true ->
  markers (config plot) = Some mk ->
  dict_get "max" mk = Some style_max ->
  dict_get "title_unit" (right_middle (labels (config plot))) = Some title_unit ->
  dict_get "max" (right_middle (labels (config plot))) = Some label_max ->
  (mark_release_site (config plot) = true ->
   is_Some (dict_get "site" mk) /\
   is_Some (dict_get "site" (right_middle (labels (config plot))))) ->
  (plot_add_markers plot).2 = Ok tt /\
  last (plot_add_markers plot).1
    = Some (warnings_warn "skip maximum marker (all-nan field)") /\
  Forall (fun c => is_ax_map_marker c = false) (plot_add_markers plot).1 /\
  (fill_box_right_middle format_level_ranges plot).2 = Ok tt /\
  exists dx dy kw,
    box_marker (kw_add [("loc", VStr "tc"); ("dx", dx); ("dy", dy)] style_max)
      ∈ (fill_box_right_middle format_level_ranges plot).1 /\
    box_text (label_max +:+ ": NaN") kw
      ∈ (fill_box_right_middle format_level_ranges plot).1.
Proof.
  intros Hnan Hmax Hmk Hstyle Htitle Hlabel Hsite.
  assert (plot_add_markers plot =
            ((if mark_release_site (config plot)
              then [plot_add_marker
                      (kw_add [("lat", VFloat (release_site_lat (mdata (config plot))));
                               ("lon", VFloat (release_site_lon (mdata (config plot))))]
                              (default ∅ (dict_get "site" mk)))]
              else []) ++ [warnings_warn "skip maximum marker (all-nan field)"], Ok tt)%list)
    as ->.
  { unfold plot_add_markers, assert_markers, dict_item.
    rewrite Hmax, Hmk, (locate_max_all_nan _ Hnan).
    destruct (mark_release_site (config plot)).
    - destruct (Hsite eq_refl) as [[style_site Hs] _].
      by repeat first [ rewrite trace_bind_lift_Ok | rewrite emit_bind | rewrite Hs
                      | progress cbn [fst snd mret trace_ret] ].
    - by rewrite !trace_bind_lift_Ok. }
  cbn [fst snd]. split; [reflexivity|]. split; [by rewrite last_snoc|].
  split; [by destruct (mark_release_site (config plot)); repeat constructor|].
  unfold fill_box_right_middle, assert_markers, dict_item.
  rewrite Htitle, Hmax, Hmk.
  match goal with
  | |- context [legend_color_boxes ?a ?b ?c ?d ?e ?f] =>
      destruct (legend_color_boxes_ok a b c d e f) as [Hok _];
      destruct (legend_color_boxes a b c d e f) as [w r]
  end.
  cbn [fst snd] in Hok. subst r.
  destruct (mark_release_site (config plot)).
  - destruct (Hsite eq_refl) as [[style_site Hs1] [label_site Hs2]].
    repeat first [ rewrite trace_bind_lift_Ok | rewrite emit_bind | rewrite trace_bind_Ok
                 | rewrite Hstyle | rewrite Hlabel | rewrite Hnan | rewrite Hs1 | rewrite Hs2
                 | progress cbn [fst snd mret trace_ret] ].
    split; [reflexivity|]. eexists _, _, _.
    split; do 2 apply list_elem_of_further; apply elem_of_app; right.
    + apply list_elem_of_here.
    + apply list_elem_of_further, list_elem_of_here.
  - repeat first [ rewrite trace_bind_lift_Ok | rewrite emit_bind | rewrite trace_bind_Ok
                 | rewrite Hstyle | rewrite Hlabel | rewrite Hnan
                 | progress cbn [fst snd mret trace_ret] ].
    split; [reflexivity|]. eexists _, _, _.
    split; do 2 apply list_elem_of_further; apply elem_of_app; right.
    + apply list_elem_of_here.
    + apply list_elem_of_further, list_elem_of_here.
Qed.

Lemma all_nan_field_max_witness :
  let plot := sample_plot sample_field_nan true true in
  all_nan (fld (field plot)) = true /\
  mark_field_max (config plot) = true /\
  (plot_add_markers plot).2 = Ok tt /\
  last (plot_add_markers plot).1
    = Some (warnings_warn "skip maximum marker (all-nan field)") /\
  (fill_box_right_middle sample_format_level_ranges plot).2 = Ok tt.
Proof.
  intros plot.
  assert (H1 : all_nan (fld (field plot)) = true) by reflexivity.
  assert (H2 : mark_field_max (config plot) = true) by reflexivity.
  assert (H3 : mark_release_site (config plot) = true ->
               is_Some (dict_get "site" sample_markers) /\
               is_Some (dict_get "site" (right_middle (labels (config plot)))))
    by (intros _; split; eexists; reflexivity).
  pose proof (all_nan_field_max sample_format_level_ranges plot sample_markers _
                "Concentration (Bq m$^{-3}$)" "Max." H1 H2 eq_refl eq_refl eq_refl eq_refl H3)
    as (H4 & H5 & _ & H6 & _).
  repeat (split; [assumption|]). exact H6.
Defined.

(** The legend of an all-NaN field has the marker of the maximum drawn. *)
Lemma all_nan_field_legend_marker :
  ~ Forall (fun c => is_box_marker c = false)
      ((fill_box_right_middle sample_format_level_ranges
          (sample_plot sample_field_nan true false)).1
       ++ (plot_add_markers (sample_plot sample_field_nan true false)).1).
Proof.
  intros H. apply Forall_app in H as [H _].
  rewrite Forall_forall in H.
  assert (E : existsb is_box_marker
                (fill_box_right_middle sample_format_level_ranges
                   (sample_plot sample_field_nan true false)).1 = true)
    by (vm_compute; reflexivity).
  apply existsb_exists in E as (c & Hin & Hc).
  apply list_elem_of_In, H in Hin. congruence.
Qed.

Example all_nan_field_texts :
  omap (fun c => match c with box_text s _ => Some s | _ => None end)
    (fill_box_right_middle sample_format_level_ranges
       (sample_plot sample_field_nan true true)).1
  = ["Concentration (Bq m$^{-3}$)"; "Max.: NaN"; "Site: Goesgen"].
Proof. vm_compute. reflexivity. Qed.

Example field_max_text :
  omap (fun c => match c with box_text s _ => Some s | _ => None end)
    (fill_box_right_middle sample_format_level_ranges
       (sample_plot sample_field true false)).1
  = ["Concentration (Bq m$^{-3}$)"; "Max.: 4.56"].
Proof. vm_compute. reflexivity. Qed.

Example field_max_marker :
  (plot_add_markers (sample_plot sample_field true false)).1
  = [ax_map_marker (kw_add [("lat", VFloat 47.0); ("lon", VFloat 8.0)]%float
                           (default ∅ (dict_get "max" sample_markers)))].
Proof. vm_compute. reflexivity. Qed.

(** ** The lines of the right top box *)

Lemma format_pct_10_21 : format_pct 0 (float_of_Z 10 / float_of_Z 21)%float = "48%".
Proof. vm_compute. reflexivity. Qed.

Lemma members_line_10_21 (W : string -> option string -> Word) (setup : InputSetup) :
  ens_param_mem_min setup = Some 10%Z ->
  length (default [] (ens_member_id setup)) = 21%nat ->
  members_line W setup =
    w_c (W "number_of" (Some "abbr")) +:+ " " +:+ w_str (W "member" (Some "pl")) +:+ ":"
    +:+ tab +:+ w_str (W "minimum" (Some "abbr")) +:+ " 10$\,/\,$21 (48%)".
Proof.
  intros Hmin Htot. unfold members_line. rewrite Hmin, Htot.
  change (Z.of_nat 21) with 21%Z. cbn [Z.eqb Pos.eqb str_of_opt_Z].
  rewrite format_pct_10_21. reflexivity.
Qed.

Lemma last_cons_app_two {A} (x : A) (l : list A) (a b : A) :
  last (x :: l ++ [a; b])%list = Some b.
Proof.
  change (x :: l ++ [a; b])%list with ((x :: l) ++ [a] ++ [b])%list.
  by rewrite app_assoc, last_snoc.
Qed.

Lemma eqb_nonempty (s : string) : s <> EmptyString -> String.eqb s EmptyString = false.
Proof. intros H. by destruct (String.eqb_spec s EmptyString). Qed.

Section config_lines.

Variable words : string -> string -> option string -> Word.
Variable symbols : string -> string.
Variable format_integr_period : MetaData -> InputSetup -> res string.
Variable format_level_label : MetaData -> res string.
Variable format_range : list Z -> string.
Variables (setup : InputSetup) (mdata : MetaData) (integr_period level : string).

Hypothesis Hwords : forall key ctx, w_str (words (lang setup) key ctx) <> EmptyString.
Hypothesis Hperiod : format_integr_period mdata setup = Ok integr_period.
Hypothesis Hlevel : format_level_label mdata = Ok level.
Hypothesis Hens : simulation_type setup = "ensemble".

Local Abbreviation W := (words (lang setup)).
Local Abbreviation level_lines := (level_lines (words (lang setup)) setup level).

Lemma branch_input_variable_lines (l : Locals) :
  input_variable setup ∈ ["concentration"; "deposition"] ->
  exists l',
    branch_input_variable format_level_label W setup mdata l = Ok l' /\
    is_Some (variable_rel l') /\ is_Some (n_levels l') /\
    right_top_lines l' = (level_lines ++ right_top_lines l)%list.
Proof.
  intros Hiv. unfold branch_input_variable, level_lines.
  apply elem_of_cons in Hiv as [-> | Hiv]; [|apply list_elem_of_singleton in Hiv as ->].
  - rewrite Hlevel. cbn [String.eqb Ascii.eqb Bool.eqb mbind res_bind].
    destruct (integrate setup); eexists; (split; [reflexivity|]); cbn; eauto.
  - cbn [String.eqb Ascii.eqb Bool.eqb]. eexists. split; [reflexivity|]. cbn. eauto.
Qed.

Lemma append_nonempty (s t : string) : s <> EmptyString -> s +:+ t <> EmptyString.
Proof. destruct s; [done | discriminate]. Qed.

Lemma branch_simulation_type_cloud (info_det info_ens : string) (l : Locals) :
  ens_variable setup ∈ ["cloud_arrival_time"; "cloud_departure_time";
                        "cloud_occurrence_probability"] ->
  exists l',
    branch_simulation_type symbols W setup mdata info_det info_ens l = Ok l' /\
    short_name l' <> EmptyString /\ long_name l' <> EmptyString /\
    n_levels l' = Some 9%Z /\ extend_ l' = Some "both" /\
    var_name l' = var_name l /\
    right_top_lines l' =
      (right_top_lines l ++ [cloud_density_line W setup mdata; members_line W setup])%list.
Proof.
  intros Hev. unfold branch_simulation_type. rewrite Hens.
  cbn [String.eqb Ascii.eqb Bool.eqb]. unfold branch_ens_variable.
  repeat (apply elem_of_cons in Hev as [-> | Hev]); [..|by apply elem_of_nil in Hev].
  all: eexists; (split; [reflexivity|]); cbn; repeat split; try apply Hwords.
Qed.

Lemma branch_simulation_type_probability (info_det info_ens : string) (l : Locals) :
  ens_variable setup = "probability" -> is_Some (variable_rel l) ->
  exists l',
    branch_simulation_type symbols W setup mdata info_det info_ens l = Ok l' /\
    short_name l' <> EmptyString /\ long_name l' <> EmptyString /\
    n_levels l' = Some 9%Z /\ extend_ l' = Some "both" /\
    var_name l' = var_name l /\
    right_top_lines l' =
      (right_top_lines l ++
       [w_str (W "cloud" None) +:+ ":" +:+ tab +:+ symbols "geq" +:+ " "
        +:+ ens_param_thr setup +:+ " " +:+ variable_unit mdata])%list.
Proof.
  intros Hev [rel Hrel]. unfold branch_simulation_type. rewrite Hens.
  cbn [String.eqb Ascii.eqb Bool.eqb]. unfold branch_ens_variable. rewrite Hev.
  cbn [String.eqb Ascii.eqb Bool.eqb]. unfold use_variable_rel. cbn [variable_rel].
  rewrite Hrel. eexists. split; [reflexivity|]. cbn.
  repeat split; try apply Hwords. apply append_nonempty, Hwords.
Qed.

(** C5 (as amended): for an ensemble setup with 21 members and a minimum
    of 10 members, the configuration of the arrival time, of the departure
    time and of the occurrence probability of the cloud ends the lines of
    the right top box with the line of the number of members, whose value
    reads: the abbreviation of minimum, then [10$\,/\,$21 (48%)].  The
    configuration of the plain probability has no such line: its lines are
    those of the input variable, of the level when there is one, and of the
    threshold of the cloud. *)
Theorem create_plot_config_members :
  input_variable setup ∈ ["concentration"; "deposition"] ->
  ens_param_mem_min setup = Some 10%Z ->
  length (default [] (ens_member_id setup)) = 21%nat ->
  let config := create_plot_config words symbols format_integr_period format_level_label
                  format_range setup mdata in
  (ens_variable setup ∈ ["cloud_arrival_time"; "cloud_departure_time";
                         "cloud_occurrence_probability"] ->
   is_Ok config /\
   last (right_top_lines_of config) =
     Some (capitalize
             (w_c (W "number_of" (Some "abbr")) +:+ " " +:+ w_str (W "member" (Some "pl"))
              +:+ ":" +:+ tab +:+ w_str (W "minimum" (Some "abbr"))
              +:+ " 10$\,/\,$21 (48%)"))) /\
  (ens_variable setup = "probability" ->
   is_Ok config /\
   exists var_name,
     right_top_lines_of config =
       capitalize <$>
         ([w_c (W "input_variable" None) +:+ ":" +:+ tab +:+ capitalize var_name]
          ++ level_lines ++
          [w_str (W "cloud" None) +:+ ":" +:+ tab +:+ symbols "geq" +:+ " "
           +:+ ens_param_thr setup +:+ " " +:+ variable_unit mdata])%list).
Proof.
  intros Hiv Hmin Htot config.
  assert (forall (vn : string) (lines : list string),
    (forall d e, exists l1 l2,
       branch_input_variable format_level_label W setup mdata
         (mk_locals EmptyString EmptyString EmptyString (variable_unit mdata)
                    None None [] None None None false None) = Ok l1 /\
       branch_simulation_type symbols W setup mdata d e l1 = Ok l2 /\
       short_name l2 <> EmptyString /\ long_name l2 <> EmptyString /\
       n_levels l2 = Some 9%Z /\ extend_ l2 = Some "both" /\
       var_name l2 = vn /\ right_top_lines l2 = lines) ->
    is_Ok config /\
    right_top_lines_of config =
      capitalize <$> ((w_c (W "input_variable" None) +:+ ":" +:+ tab +:+ capitalize vn)
                      :: lines)) as Hbuild.
  { intros vn lines Hbranch. subst config. unfold create_plot_config.
    rewrite Hperiod. cbn [mbind res_bind].
    unfold format_coord_label. cbn [String.eqb Ascii.eqb Bool.eqb mbind res_bind].
        match goal with
    | |- context [branch_simulation_type _ _ _ _ ?d ?e _] =>
        destruct (Hbranch d e) as (l1 & l2 & -> & Hl2 & Hs & Hl & Hn & He & <- & <-)
    end.
    cbn [mbind res_bind]. rewrite Hl2. cbn [mbind res_bind].
    rewrite (eqb_nonempty _ Hs), (eqb_nonempty _ Hl). cbn [mbind res_bind].
    rewrite Hn, He. cbn [mbind res_bind capitalize_labels capitalize_label String.eqb
                         Ascii.eqb Bool.eqb default].
    destruct (String.eqb (plot_variable setup) "affected_area_mono");
      (split; [eexists; reflexivity | reflexivity]). }
  destruct (branch_input_variable_lines
              (mk_locals EmptyString EmptyString EmptyString (variable_unit mdata)
                         None None [] None None None false None) Hiv)
    as (l1 & Hl1 & Hrel & _ & Hlines1).
  rewrite app_nil_r in Hlines1.
  split.
  - intros Hev.
    destruct (Hbuild (var_name l1)
                (level_lines ++ [cloud_density_line W setup mdata; members_line W setup])%list)
      as [Hok Hlines].
    { intros d e.
      destruct (branch_simulation_type_cloud d e l1 Hev)
        as (l2 & Hl2 & Hs & Hl & Hn & He & Hv & Hlines2).
      exists l1, l2. rewrite Hlines2, Hlines1. done. }
    split; [exact Hok|]. rewrite Hlines.
    rewrite fmap_last, last_cons_app_two. cbn [fmap option_fmap option_map].
    by rewrite (members_line_10_21 W setup Hmin Htot).
  - intros Hev.
    destruct (Hbuild (var_name l1)
                (level_lines ++
                 [w_str (W "cloud" None) +:+ ":" +:+ tab +:+ symbols "geq" +:+ " "
                  +:+ ens_param_thr setup +:+ " " +:+ variable_unit mdata])%list)
      as [Hok Hlines].
    { intros d e.
      destruct (branch_simulation_type_probability d e l1 Hev Hrel)
        as (l2 & Hl2 & Hs & Hl & Hn & He & Hv & Hlines2).
      exists l1, l2. rewrite Hlines2, Hlines1. done. }
    split; [exact Hok|]. exists (var_name l1). exact Hlines.
Qed.

End config_lines.

Lemma dict_get_Some {V} (k : string) (v : V) (d : dict V) :
  dict_get k d = Some v -> (k, v) ∈ d.
Proof.
  induction d as [|[k' v'] d IH]; [discriminate|]. cbn.
  destruct (String.eqb_spec k' k) as [->|_].
  - intros [= ->]. apply list_elem_of_here.
  - intros H. apply list_elem_of_further, IH, H.
Qed.

Lemma sample_words_nonempty (lang key : string) (ctx : option string) :
  w_str (sample_words lang key ctx) <> EmptyString.
Proof.
  unfold sample_words. cbn [w_str].
  destruct (dict_get _ sample_word_table) as [w|] eqn:Hw.
  - apply dict_get_Some in Hw. revert Hw. generalize (key +:+ "/" +:+ default EmptyString ctx).
    intros k Hw. assert (Forall (fun kw : string * string => kw.2 <> EmptyString)
                                sample_word_table) as Hall
      by (repeat constructor; discriminate).
    rewrite Forall_forall in Hall. apply (Hall _ Hw).
  - by destruct key.
Qed.

Lemma create_plot_config_members_witness :
  let setup := sample_setup "cloud_occurrence_probability" in
  let config := sample_create_plot_config setup sample_mdata in
  input_variable setup ∈ ["concentration"; "deposition"] /\
  ens_param_mem_min setup = Some 10%Z /\
  length (default [] (ens_member_id setup)) = 21%nat /\
  is_Ok config /\
  last (right_top_lines_of config) =
    Some (capitalize
            (w_c (sample_words "en" "number_of" (Some "abbr")) +:+ " "
             +:+ w_str (sample_words "en" "member" (Some "pl"))
             +:+ ":" +:+ tab +:+ w_str (sample_words "en" "minimum" (Some "abbr"))
             +:+ " 10$\,/\,$21 (48%)")).
Proof.
  intros setup config.
  assert (H1 : input_variable setup ∈ ["concentration"; "deposition"]) by constructor.
  assert (H2 : ens_param_mem_min setup = Some 10%Z) by reflexivity.
  assert (H3 : length (default [] (ens_member_id setup)) = 21%nat) by reflexivity.
  assert (H4 : ens_variable setup ∈ ["cloud_arrival_time"; "cloud_departure_time";
                                     "cloud_occurrence_probability"])
    by (repeat constructor).
  repeat (split; [assumption|]).
  exact (proj1 (create_plot_config_members sample_words sample_symbols
                  (fun _ _ => Ok "Averaged over 8:00$\,$h") (fun _ => Ok "500$-$2000 m AGL")
                  (fun _ => "00-20") setup sample_mdata
                  "Averaged over 8:00$\,$h" "500$-$2000 m AGL"
                  (sample_words_nonempty "en") eq_refl eq_refl eq_refl H1 H2 H3) H4).
Defined.

(** No line of the right top box reads, or holds, the text [10/21 (48%)]:
    the plain probability has no line of the members, and the line of the
    occurrence probability sets the stroke in mathematics mode and the
    abbreviation of minimum before the numbers. *)
Lemma create_plot_config_no_plain_fraction :
  ~ (exists ens_variable line,
       ens_variable ∈ ["probability"; "cloud_occurrence_probability"] /\
       line ∈ right_top_lines_of
                (sample_create_plot_config (sample_setup ens_variable) sample_mdata) /\
       contains "10/21 (48%)" line = true).
Proof.
  intros (ev & line & Hev & Hline & Hc).
  repeat (apply elem_of_cons in Hev as [-> | Hev]); [..|by apply elem_of_nil in Hev].
  all: vm_compute in Hline;
    repeat (apply elem_of_cons in Hline as [-> | Hline]); [..|by apply elem_of_nil in Hline];
    vm_compute in Hc; discriminate Hc.
Qed.

Example create_plot_config_lines_occurrence :
  right_top_lines_of
    (sample_create_plot_config (sample_setup "cloud_occurrence_probability") sample_mdata)
  = ["Input variable:" +:+ tab +:+ "Activity concentration";
     "Level:" +:+ tab +:+ "500$-$2000 m AGL";
     "Cloud density:" +:+ tab +:+ "min. 1e-09 Bq m$^{-3}$";
     "No. members:" +:+ tab +:+ "min. 10$\,/\,$21 (48%)"].
Proof. vm_compute. reflexivity. Qed.

Example create_plot_config_lines_probability :
  right_top_lines_of (sample_create_plot_config (sample_setup "probability") sample_mdata)
  = ["Input variable:" +:+ tab +:+ "Activity concentration";
     "Level:" +:+ tab +:+ "500$-$2000 m AGL";
     "Cloud:" +:+ tab +:+ "$\geq$ 1e-09 Bq m$^{-3}$"].
Proof. vm_compute. reflexivity. Qed.

(** *** A single block with its colours *)

Lemma fill_line_colors_exact (default_color : pyval) (cs : list pyval) :
  fill_line_colors default_color (length cs) cs = Ok (fill_color default_color <$> cs).
Proof.
  induction cs as [|c cs IH]; [reflexivity|].
  cbn [length fill_line_colors]. rewrite IH. reflexivity.
Qed.

Lemma draw_lines_colors (self : FlexAxesTextBox.t) (loc : loc_param) (dx : option float)
    (kw : kwargs) (ha va : string) (x0 y0 : float) (dy_line : float)
    (block : list text_t) (cs : list pyval) (dy : float) :
  derive loc (FlexAxesTextBox.dx self) (FlexAxesTextBox.dy self) = Ok (ha, va, x0, y0) ->
  no_alignment kw ->
  length block = length cs ->
  draw_lines self loc dx kw dy_line block cs dy =
    (flat_map (colored_row_calls self dx kw ha va x0 y0)
              (sched_lines dy_line (zip block cs) dy).1,
     Ok (sched_lines dy_line (zip block cs) dy).2).
Proof.
  intros Hloc Hkw. revert cs dy.
  induction block as [|line block IH]; intros [|c cs] dy Hlen; try discriminate Hlen;
    [reflexivity|].
  injection Hlen as Hlen.
  cbn [draw_lines zip zip_with sched_lines tail].
  rewrite trace_bind_lift_Ok.
  rewrite (text_line self loc line dx dy c kw ha va x0 y0 Hloc Hkw).
  rewrite trace_bind_Ok, (IH cs _ Hlen).
  destruct (sched_lines dy_line (zip block cs) (dy + dy_line)) as [rows dy'].
  reflexivity.
Qed.

(** C10: [text_block] issues the calls and has the result of [text_blocks]
    on the single block, with the colours of the block as the single entry
    of the colour list.  When the location resolves, no alignment is set
    from outside and the colours, if given, are as many as the lines, these
    calls place the lines one below the other from [dy0] on in steps of
    [dy_line], each in its colour; with [reverse], lines and colours are
    both taken from the last to the first. *)
Theorem text_block_text_blocks (self : FlexAxesTextBox.t) (loc : loc_param)
    (block : list text_t) (colors : option (list pyval))
    (dy0 dy_line dy_block : option float) (rev : bool) (dx : option float) (kw : kwargs) :
  text_block self loc block colors dy0 dy_line dy_block rev dx kw =
    text_blocks self loc [block] dy0 dy_line dy_block rev (Some [colors]) dx kw /\
  forall ha va x0 y0,
    derive loc (FlexAxesTextBox.dx self) (FlexAxesTextBox.dy self) = Ok (ha, va, x0, y0) ->
    no_alignment kw ->
    (forall cs, colors = Some cs -> length cs = length block) ->
    let filled := block_colors (pop_color kw).1 block colors in
    let rows := if rev then zip (reverse block) (reverse filled) else zip block filled in
    let dy_line' := default 2.5%float dy_line in
    text_blocks self loc [block] dy0 dy_line dy_block rev (Some [colors]) dx kw =
      (flat_map (colored_row_calls self dx (pop_color kw).2 ha va x0 y0)
                (sched_lines dy_line' rows (default dy_line' dy0)).1,
       Ok (Some [Some filled])).
Proof.
  split; [reflexivity|].
  intros ha va x0 y0 Hloc Hkw Hcs filled rows dy_line'.
  apply no_alignment_pop_color in Hkw.
  unfold text_blocks. destruct (pop_color kw) as [c kw'] eqn:Hpop. cbn [fst snd] in *.
  cbn [length Nat.eqb]. rewrite trace_bind_lift_Ok.
  assert (fill_colors c [block] [colors] = Ok [filled]) as ->.
  { cbn [fill_colors]. subst filled. unfold block_colors.
    destruct colors as [cs|]; [|reflexivity].
    rewrite <- (Hcs cs eq_refl), fill_line_colors_exact. reflexivity. }
  rewrite trace_bind_lift_Ok.
  assert (length block = length filled) as Hlen.
  { subst filled. unfold block_colors. destruct colors as [cs|].
    - by rewrite length_fmap, (Hcs cs eq_refl).
    - by rewrite length_replicate. }
  assert (forall b cs, length b = length cs ->
    draw_blocks self loc dx kw' dy_line' (default dy_line' dy_block) [b] [cs]
      (default dy_line' dy0)
    ≫= (fun _ => mret (Some (Some <$> [filled])))
    = (flat_map (colored_row_calls self dx kw' ha va x0 y0)
         (sched_lines dy_line' (zip b cs) (default dy_line' dy0)).1,
       Ok (Some [Some filled] : colors_t))) as Hdraw.
  { intros b cs Hb. cbn [draw_blocks hd tail].
    rewrite (draw_lines_colors self loc dx kw' ha va x0 y0 dy_line' b cs _ Hloc Hkw Hb).
    rewrite trace_bind_Ok. cbn [mbind trace_bind mret trace_ret fst snd].
    by rewrite !app_nil_r. }
  subst rows. destruct rev.
  - unfold revert. change (reverse [block]) with [block].
    change (reverse [filled]) with [filled]. cbn [fmap list_fmap].
    apply Hdraw. by rewrite !length_reverse.
  - by apply Hdraw.
Qed.

Lemma text_block_text_blocks_witness :
  let kw : kwargs := {["c" := VStr "blue"]} in
  let block := [Str "Latitude"; Str "Longitude"; Str "Height"] in
  let colors := Some [VNone; VStr "red"; VNone] in
  derive (LocStr "tl") (FlexAxesTextBox.dx sample_box) (FlexAxesTextBox.dy sample_box)
    = Ok ("left", "top", 0.0 + 0.25, 1.0 - 0.5)%float /\
  no_alignment kw /\
  (forall cs, colors = Some cs -> length cs = length block) /\
  text_blocks sample_box (LocStr "tl") [block] (Some (-2.0)%float) (Some (-2.5)%float) None true
    (Some [colors]) None kw =
    (flat_map (colored_row_calls sample_box None (pop_color kw).2 "left" "top"
                 (0.0 + 0.25) (1.0 - 0.5))%float
       (sched_lines (-2.5)%float
          (zip (reverse block) (reverse (block_colors (pop_color kw).1 block colors)))
          (-2.0)%float).1,
     Ok (Some [Some (block_colors (pop_color kw).1 block colors)])).
Proof.
  intros kw block colors.
  assert (H1 : derive (LocStr "tl") (FlexAxesTextBox.dx sample_box)
                 (FlexAxesTextBox.dy sample_box)
               = Ok ("left", "top", 0.0 + 0.25, 1.0 - 0.5)%float) by reflexivity.
  assert (H2 : no_alignment kw) by (repeat split; reflexivity).
  assert (H3 : forall cs, colors = Some cs -> length cs = length block)
    by (intros cs [= <-]; reflexivity).
  split; [exact H1 | split; [exact H2 | split; [exact H3 |]]].
  exact (proj2 (text_block_text_blocks sample_box (LocStr "tl") block colors
                  (Some (-2.0)%float) (Some (-2.5)%float) None true None kw)
           _ _ _ _ H1 H2 H3).
Defined.

Example text_block_reverse :
  text_call_color <$>
    (text_block sample_box (LocStr "tl") [Str "Latitude"; Str "Longitude"; Str "Height"]
       (Some [VNone; VStr "red"; VNone]) (Some (-2.0)%float) (Some (-2.5)%float) None true
       None {["c" := VStr "blue"]}).1
  = [Some (0.25, -0.5, Str "Height", Some (VStr "blue"));
     Some (0.25, -1.75, Str "Longitude", Some (VStr "red"));
     Some (0.25, -3.0, Str "Latitude", Some (VStr "blue"))]%float.
Proof. vm_compute. reflexivity. Qed.

(** A colour list that is shorter than its block is not noticed by the
    length checks, and indexing it fails. *)
Example text_block_short_colors :
  text_block sample_box (LocStr "tl") [Str "Latitude"; Str "Longitude"] (Some [VStr "red"])
    None None None false None ∅ = ([], Raise index_error).
Proof. vm_compute. reflexivity. Qed.

(** A colour list for another number of blocks: the message of the error
    refers to the name [colors], which has been deleted. *)
Example text_blocks_colors_length :
  text_blocks sample_box (LocStr "tl") [[Str "Latitude"]; [Str "Start"]] None None None false
    (Some [None]) None ∅ = ([], Raise (UnboundLocalError "colors")).
Proof. vm_compute. reflexivity. Qed.

(** ** Words in several languages (words/word.py) *)

Section words.
Import Words Words.Word.

Lemma dict_get_set_eq {V} (k : string) (v : V) (d : dict V) :
  dict_get k (dict_set k v d) = Some v.
Proof.
  induction d as [|[k' v'] d IH]; cbn.
  - by rewrite String.eqb_refl.
  - destruct (String.eqb_spec k' k) as [->|Hne]; cbn.
    + by rewrite String.eqb_refl.
    + destruct (String.eqb_spec k' k); [done|]. exact IH.
Qed.

Lemma dict_get_set_ne {V} (k k' : string) (v : V) (d : dict V) :
  k <> k' -> dict_get k' (dict_set k v d) = dict_get k' d.
Proof.
  intros Hne. induction d as [|[k0 v0] d IH]; cbn.
  - destruct (String.eqb_spec k k'); [done|done].
  - destruct (String.eqb_spec k0 k) as [->|Hne0]; cbn.
    + destruct (String.eqb_spec k k'); [done|done].
    + destruct (String.eqb_spec k0 k'); [done|]. exact IH.
Qed.

Lemma dict_get_keys {V} (k : string) (d : dict V) :
  k ∈ keys d <-> exists v, dict_get k d = Some v.
Proof.
  unfold keys. induction d as [|[k' v'] d IH]; cbn.
  - split; [by intros ?%elem_of_nil | by intros [? ?]].
  - rewrite elem_of_cons. destruct (String.eqb_spec k' k) as [->|Hne].
    + split; [by eauto | by left].
    + rewrite <- IH. split; [intros [->|?]; [done|done] | by right].
Qed.

Lemma dict_get_not_keys {V} (k : string) (d : dict V) :
  k ∉ keys d <-> dict_get k d = None.
Proof.
  rewrite dict_get_keys. destruct (dict_get k d); split; try done.
  - intros H. exfalso. apply H. eauto.
  - by intros _ [? ?].
Qed.

Lemma keys_dict_set_new {V} (k : string) (v : V) (d : dict V) :
  k ∉ keys d -> keys (dict_set k v d) = (keys d ++ [k])%list.
Proof.
  unfold keys. induction d as [|[k' v'] d IH]; cbn; [done|].
  rewrite not_elem_of_cons. intros [Hne Hd].
  destruct (String.eqb_spec k' k); [congruence|]. cbn. by rewrite IH.
Qed.

Lemma keys_dict_set_set {V} (k : string) (v : V) (d : dict V) :
  list_to_set (keys (dict_set k v d)) =@{gset string} {[k]} ∪ list_to_set (keys d).
Proof.
  unfold keys. induction d as [|[k' v'] d IH]; cbn; [set_solver|].
  destruct (String.eqb_spec k' k) as [->|Hne]; cbn; [set_solver|].
  rewrite IH. set_solver.
Qed.

Lemma keys_dict_remove {V} (k : string) (d : dict V) :
  list_to_set (keys (dict_remove k d)) =@{gset string} list_to_set (keys d) ∖ {[k]}.
Proof.
  unfold keys, dict_remove, dict. induction d as [|[k' v'] d IH]; [set_solver|].
  rewrite filter_cons. destruct (decide ((k', v').1 <> k)) as [Hne|Heq]; cbn in *.
  - rewrite IH. set_solver.
  - rewrite IH. apply dec_stable in Heq. subst. set_solver.
Qed.

Lemma dict_remove_elem {V} (k k' : string) (v : V) (d : dict V) :
  (k', v) ∈ dict_remove k d -> (k', v) ∈ d.
Proof. unfold dict_remove, dict. rewrite list_elem_of_filter. tauto. Qed.

Lemma dict_get_elem {V} (k : string) (v : V) (d : dict V) :
  dict_get k d = Some v -> (k, v) ∈ d.
Proof.
  induction d as [|[k' v'] d IH]; cbn; [done|].
  destruct (String.eqb_spec k' k) as [->|Hne].
  - intros [= ->]. apply list_elem_of_here.
  - intros H. apply list_elem_of_further. by apply IH.
Qed.

Lemma set_variants_keys (vs : dict pyval) (acc r : dict string) :
  WordVariants.set_variants vs acc = Return r ->
  list_to_set (keys r) =@{gset string} list_to_set (keys acc) ∪ list_to_set (keys vs).
Proof.
  revert acc. induction vs as [|[c w] vs IH]; intros acc; cbn.
  - intros [= ->]. set_solver.
  - destruct w; try discriminate. intros H. apply IH in H. rewrite H.
    rewrite keys_dict_set_set. set_solver.
Qed.

Lemma set_variants_get (vs : dict pyval) (acc r : dict string) (c x : string) :
  WordVariants.set_variants vs acc = Return r ->
  dict_get c r = Some x ->
  dict_get c acc = Some x \/ (c, VStr x) ∈ vs.
Proof.
  revert acc. induction vs as [|[c' w] vs IH]; intros acc; cbn.
  - intros [= ->]. by left.
  - destruct w; try discriminate. intros H Hx.
    destruct (IH _ H Hx) as [Hacc|Hin].
    + destruct (decide (c' = c)) as [->|Hne].
      * rewrite dict_get_set_eq in Hacc. injection Hacc as ->. right. apply list_elem_of_here.
      * rewrite dict_get_set_ne in Hacc by done. by left.
    + right. by apply list_elem_of_further.
Qed.

Lemma call_spec (l : string) (word : dict pyval) (v : WordVariants.t) :
  WordVariants.call l word = Return v ->
  WordVariants.lang v = Some l /\
  ctx_set v = list_to_set (keys word) ∖ {["default_"]} /\
  is_Return (WordVariants.__str__ v) /\
  forall c x, dict_get c (WordVariants._variants v) = Some x -> (c, VStr x) ∈ word.
Proof.
  unfold WordVariants.call. destruct (dict_get "lang_" word); [discriminate|].
  unfold WordVariants.__init__.
  destruct (WordVariants.set_variants _ _) as [r|] eqn:Hr; [|discriminate]. cbn.
  destruct r as [|[c0 x0] r'] eqn:Er; [discriminate|]. intros [= <-].
  split; [done|]. split; [|split].
  - unfold ctx_set. cbn [WordVariants._variants]. rewrite (set_variants_keys _ _ _ Hr).
    rewrite keys_dict_remove. set_solver.
  - unfold WordVariants.__str__, WordVariants.ctx. cbn. rewrite String.eqb_refl. by eexists.
  - cbn [WordVariants._variants]. intros c x Hx.
    destruct (set_variants_get _ _ _ _ _ Hr Hx) as [Hacc|Hin]; [done|].
    by eapply dict_remove_elem.
Qed.

Lemma define_words_other (ctxs : list string) (langs : dict word_arg)
    (acc r : dict WordVariants.t) (l : string) :
  define_words ctxs langs acc = Return r ->
  l ∉ keys langs -> dict_get l r = dict_get l acc.
Proof.
  revert acc. induction langs as [|[l' word] langs IH]; intros acc; cbn.
  - by intros [= ->].
  - rewrite not_elem_of_cons.
    destruct (match word with WVal (VStr w) => _ | WVal _ => _ | WDict d => _ end) as [d|];
      [|discriminate]. cbn.
    destruct (WordVariants.call l' d) as [v|]; [|discriminate]. cbn.
    intros H [Hne Hl]. rewrite (IH _ H Hl). by apply dict_get_set_ne.
Qed.

Lemma define_words_keys (ctxs : list string) (langs : dict word_arg)
    (acc r : dict WordVariants.t) :
  define_words ctxs langs acc = Return r ->
  NoDup (keys acc ++ keys langs) ->
  keys r = (keys acc ++ keys langs)%list.
Proof.
  revert acc. induction langs as [|[l' word] langs IH]; intros acc; cbn.
  - intros [= ->] _. by rewrite app_nil_r.
  - destruct (match word with WVal (VStr w) => _ | WVal _ => _ | WDict d => _ end) as [d|];
      [|discriminate]. cbn.
    destruct (WordVariants.call l' d) as [v|]; [|discriminate]. cbn.
    intros H Hnd.
    assert (Hl' : l' ∉ keys acc).
    { apply NoDup_app in Hnd as (_ & Hd & _). intros Hin. apply (Hd _ Hin). apply list_elem_of_here. }
    rewrite (IH _ H).
    + rewrite keys_dict_set_new by done. by rewrite <- app_assoc.
    + rewrite keys_dict_set_new by done. rewrite <- app_assoc. exact Hnd.
Qed.

Lemma define_words_get (ctxs : list string) (langs : dict word_arg)
    (acc r : dict WordVariants.t) (l : string) (v : WordVariants.t) :
  define_words ctxs langs acc = Return r ->
  dict_get l r = Some v ->
  dict_get l acc = Some v \/
  exists word d, (l, word) ∈ langs /\ expand_word ctxs word = Return d /\
                 WordVariants.call l d = Return v.
Proof.
  revert acc. induction langs as [|[l' word] langs IH]; intros acc; cbn.
  - intros [= ->] ?. by left.
  - change (match word with WVal (VStr w) => _ | WVal _ => _ | WDict d => _ end)
      with (expand_word ctxs word).
    destruct (expand_word ctxs word) as [d|] eqn:Hd; [|discriminate]. cbn.
    destruct (WordVariants.call l' d) as [v'|] eqn:Hv'; [|discriminate]. cbn.
    intros H Hl. destruct (IH _ H Hl) as [Hacc|(word' & d' & Hin & ? & ?)].
    + destruct (decide (l' = l)) as [->|Hne].
      * rewrite dict_get_set_eq in Hacc. injection Hacc as ->. right.
        exists word, d. split; [apply list_elem_of_here|done].
      * rewrite dict_get_set_ne in Hacc by done. by left.
    + right. exists word', d'. split; [by apply list_elem_of_further|done].
Qed.

Lemma define_words_elem (ctxs : list string) (langs : dict word_arg)
    (acc r : dict WordVariants.t) (l : string) (word : word_arg) :
  define_words ctxs langs acc = Return r ->
  NoDup (keys langs) ->
  (l, word) ∈ langs ->
  exists d v, expand_word ctxs word = Return d /\ WordVariants.call l d = Return v /\
              dict_get l r = Some v.
Proof.
  revert acc. induction langs as [|[l' word'] langs IH]; intros acc; cbn.
  - intros _ _ ?%elem_of_nil. done.
  - change (match word' with WVal (VStr w) => _ | WVal _ => _ | WDict d => _ end)
      with (expand_word ctxs word').
    destruct (expand_word ctxs word') as [d|] eqn:Hd; [|discriminate]. cbn.
    destruct (WordVariants.call l' d) as [v'|] eqn:Hv'; [|discriminate]. cbn.
    intros H Hnd Hin. apply NoDup_cons in Hnd as [Hl' Hnd].
    apply elem_of_cons in Hin as [[= -> ->]|Hin].
    + exists d, v'. split; [done|]. split; [done|].
      rewrite (define_words_other _ _ _ _ _ H Hl'). apply dict_get_set_eq.
    + by apply (IH _ H Hnd Hin).
Qed.

Lemma check_words_some (n : string) (langs : dict word_arg) (cs : list string)
    (r : option (list string)) :
  check_words n langs (Some cs) = Return r -> r = Some cs.
Proof.
  induction langs as [|[l word] langs IH]; cbn; [by intros [= <-]|].
  destruct (String.eqb l "name"); [discriminate|].
  destruct word as [[]|d]; try discriminate; try done.
  case_bool_decide; [done|discriminate].
Qed.

Lemma check_words_spec (n : string) (langs : dict word_arg)
    (ctxs0 r : option (list string)) (l : string) (word : word_arg) :
  check_words n langs ctxs0 = Return r ->
  (l, word) ∈ langs ->
  match word with
  | WVal v => exists w, v = VStr w
  | WDict d => exists cs, r = Some cs /\ list_to_set cs =@{gset string} list_to_set (keys d)
  end.
Proof.
  revert ctxs0. induction langs as [|[l' word'] langs IH]; intros ctxs0; cbn.
  - by intros _ ?%elem_of_nil.
  - destruct (String.eqb l' "name"); [discriminate|].
    intros H Hin. apply elem_of_cons in Hin as [[= -> ->]|Hin].
    + destruct word' as [[]|d]; try discriminate; [by eexists|].
      destruct ctxs0 as [cs|].
      * case_bool_decide as Hset; [|discriminate].
        rewrite (check_words_some _ _ _ _ H). by exists cs.
      * rewrite (check_words_some _ _ _ _ H). by exists (keys d).
    + destruct word' as [[]|d]; try discriminate; [by eapply IH|].
      destruct ctxs0 as [cs|].
      * case_bool_decide; [|discriminate]. by eapply IH.
      * by eapply IH.
Qed.

Lemma set_default_langs (self : Word.t) (l : option string) (q : option query_arg) :
  _langs (set_default self l q).1 = _langs self /\ name (set_default self l q).1 = name self.
Proof.
  unfold set_default. destruct l as [l|].
  - case_bool_decide; [|done]. destruct q as [[|[]]|]; done.
  - destruct (langs self); [done|]. destruct q as [[|[]]|]; done.
Qed.

Lemma __init___inv (n default : option string) (query : option query_arg)
    (langs : dict word_arg) (w : Word.t) :
  __init__ n default query langs = Return w ->
  exists ctxs0,
    check_words (name w) langs None = Return ctxs0 /\
    define_words (from_option id ["default"] ctxs0) langs [] = Return (_langs w) /\
    exists self0, w = (set_default self0 default query).1 /\
                  (set_default self0 default query).2 = Return tt /\
                  _langs self0 = _langs w.
Proof.
  unfold __init__. destruct langs as [|[l0 first] langs]; [discriminate|].
  match goal with |- context [match ?x with Some n => if isidentifier n then _ else _ | None => _ end] =>
    destruct x as [sn|]; [|discriminate] end.
  destruct (isidentifier sn); [|discriminate]. cbn [mbind result_bind].
  destruct (check_words sn _ None) as [ctxs0|] eqn:Hc; [|discriminate].
  cbn [mbind result_bind].
  match goal with |- context [define_words ?a ?b []] =>
    destruct (define_words a b []) as [r|] eqn:Hd; [|discriminate] end.
  cbn [mbind result_bind].
  pose proof (set_default_langs (mk sn r EmptyString None) default query) as [HL HN].
  destruct (set_default _ default query) as [self res] eqn:Hs. cbn in HL, HN.
  destruct res as [[]|]; [|discriminate]. intros [= <-].
  exists ctxs0. rewrite HN, HL. split; [done|]. split; [done|].
  exists (mk sn r EmptyString None). by rewrite Hs.
Qed.

Lemma set_variants_other (vs : dict pyval) (acc r : dict string) (c : string) :
  WordVariants.set_variants vs acc = Return r ->
  c ∉ keys vs -> dict_get c r = dict_get c acc.
Proof.
  revert acc. induction vs as [|[c' w] vs IH]; intros acc; cbn.
  - by intros [= ->].
  - destruct w; try discriminate. rewrite not_elem_of_cons. intros H [Hne Hc].
    rewrite (IH _ H Hc). by apply dict_get_set_ne.
Qed.

Lemma set_variants_elem (vs : dict pyval) (acc r : dict string) (c x : string) :
  WordVariants.set_variants vs acc = Return r ->
  NoDup (keys vs) ->
  (c, VStr x) ∈ vs -> dict_get c r = Some x.
Proof.
  revert acc. induction vs as [|[c' w] vs IH]; intros acc; cbn.
  - by intros _ _ ?%elem_of_nil.
  - destruct w; try discriminate. intros H Hnd Hin.
    apply NoDup_cons in Hnd as [Hc' Hnd].
    apply elem_of_cons in Hin as [[= -> ->]|Hin].
    + rewrite (set_variants_other _ _ _ _ H Hc'). apply dict_get_set_eq.
    + by apply (IH _ H Hnd Hin).
Qed.

Lemma NoDup_keys_dict_remove {V} (k : string) (d : dict V) :
  NoDup (keys d) -> NoDup (keys (dict_remove k d)).
Proof.
  unfold keys, dict_remove, dict. induction d as [|[k' v'] d IH]; [done|].
  cbn [fmap list_fmap]. intros [Hk' Hnd]%NoDup_cons. rewrite filter_cons.
  destruct (decide ((k', v').1 <> k)); [|by apply IH].
  cbn [fmap list_fmap]. apply NoDup_cons. split; [|by apply IH].
  intros Hin. apply Hk'. apply list_elem_of_fmap in Hin as ([k0 v0] & -> & Hin).
  apply list_elem_of_filter in Hin as [_ Hin]. apply list_elem_of_fmap. by exists (k0, v0).
Qed.

Lemma call_elem (l : string) (word : dict pyval) (v : WordVariants.t) (c x : string) :
  WordVariants.call l word = Return v ->
  NoDup (keys word) ->
  (c, VStr x) ∈ word -> c <> "default_" ->
  dict_get c (WordVariants._variants v) = Some x.
Proof.
  unfold WordVariants.call. destruct (dict_get "lang_" word); [discriminate|].
  unfold WordVariants.__init__.
  destruct (WordVariants.set_variants _ _) as [r|] eqn:Hr; [|discriminate]. cbn.
  destruct r as [|[c0 x0] r'] eqn:Er; [discriminate|]. intros [= <-] Hnd Hin Hc.
  cbn [WordVariants._variants]. apply (set_variants_elem _ _ _ _ _ Hr).
  - by apply NoDup_keys_dict_remove.
  - unfold dict_remove, dict. apply list_elem_of_filter. by split.
Qed.

Lemma ctx_dict_get (v : WordVariants.t) (c x : string) :
  WordVariants.ctx v (Some c) = Return x <-> dict_get c (WordVariants._variants v) = Some x.
Proof.
  unfold WordVariants.ctx. destruct (dict_get c _); split; intros H; try discriminate H;
    by injection H as ->.
Qed.

(** X5: A word that has been constructed is defined in the languages it was
    given, in their order, and in no other.  Each language answers with the
    variants built from the word given for it: a word given as a dictionary
    reads in a context exactly what the dictionary holds for it (the key
    [default_] apart), and a word given as a string reads as this string in
    every context.  Without a default, the first language is the default
    one. *)
Theorem Word_langs (n default : option string) (query : option query_arg)
    (langs : dict word_arg) (w : Word.t) :
  __init__ n default query langs = Return w ->
  NoDup (keys langs) ->
  Word.langs w = keys langs /\
  (forall l word, (l, word) ∈ langs ->
     exists v, in_ w l = Return v /\ WordVariants.lang v = Some l /\
       match word with
       | WVal val =>
           exists s, val = VStr s /\ WordVariants.__str__ v = Return s /\
                     forall c x, WordVariants.ctx v (Some c) = Return x -> x = s
       | WDict d =>
           NoDup (keys d) ->
           forall c x, WordVariants.ctx v (Some c) = Return x <->
                       (c, VStr x) ∈ d /\ c <> "default_"
       end) /\
  (forall l, l ∉ keys langs -> exists msg, in_ w l = Fail (Exn (ValueError msg))) /\
  (default = None -> query = None -> head (keys langs) = Some (Word.default w)).
Proof.
  intros H Hnd. destruct (__init___inv _ _ _ _ _ H) as (ctxs0 & Hc & Hd & self0 & Hw & Hr & HL).
  assert (Hkeys : Word.langs w = keys langs).
  { unfold Word.langs. by rewrite (define_words_keys _ _ _ _ Hd). }
  split; [done|]. split; [|split].
  - intros l word Hin.
    destruct (define_words_elem _ _ _ _ _ _ Hd Hnd Hin) as (d & v & He & Hcall & Hv).
    exists v. unfold in_. rewrite Hv. split; [done|].
    pose proof (call_spec _ _ _ Hcall) as (Hlang & Hctxs & [s0 Hstr] & Hval).
    split; [done|].
    pose proof (check_words_spec _ _ _ _ _ _ Hc Hin) as Hword.
    destruct word as [val|d0].
    + destruct Hword as [s ->]. injection He as <-. exists s. split; [done|].
      assert (Hall : forall c x, WordVariants.ctx v (Some c) = Return x -> x = s).
      { intros c x Hx%ctx_dict_get. apply Hval in Hx.
        apply list_elem_of_fmap in Hx as (c' & [= _ ->] & _). done. }
      split; [|exact Hall]. rewrite Hstr. f_equal. by apply (Hall _ _ Hstr).
    + injection He as <-. intros Hnd0 c x. rewrite ctx_dict_get. split.
      * intros Hx. split; [by apply Hval|]. intros ->.
        assert (Hin' : "default_" ∈ ctx_set v).
        { unfold ctx_set. apply elem_of_list_to_set, dict_get_keys. by exists x. }
        rewrite Hctxs in Hin'. set_solver.
      * intros [Hx Hne]. by apply (call_elem _ _ _ _ _ Hcall).
  - intros l Hl. unfold in_.
    assert (Hout : l ∉ Word.langs w) by by rewrite Hkeys.
    apply dict_get_not_keys in Hout. rewrite Hout. by eexists.
  - intros -> ->. rewrite Hw. unfold set_default, Word.langs in *. rewrite HL in *.
    rewrite Hkeys in *. by destruct (keys langs).
Qed.

Lemma Word_langs_witness :
  exists w v,
    __init__ (Some "high_school") None None
      [("en", WVal (VStr "high school"));
       ("de", WDict [("default", VStr "Mittelschule"); ("pl", VStr "Mittelschulen")])]
      = Return w /\
    Word.langs w = ["en"; "de"] /\ Word.default w = "en" /\
    in_ w "de" = Return v /\
    WordVariants.ctx v (Some "pl") = Return "Mittelschulen".
Proof.
  eexists. 
  set (langs := [("en", WVal (VStr "high school"));
                 ("de", WDict [("default", VStr "Mittelschule"); ("pl", VStr "Mittelschulen")])]).
  assert (Hnd : NoDup (keys langs)).
  { cbn. repeat constructor; set_solver. }
  assert (Hin : ("de", WDict [("default", VStr "Mittelschule"); ("pl", VStr "Mittelschulen")])
                ∈ langs) by (right; left).
  destruct (Word_langs (Some "high_school") None None langs _ eq_refl Hnd)
    as (H1 & H2 & _ & H4).
  destruct (H2 _ _ Hin) as (v & Hv & _ & Hd).
  exists v. split; [reflexivity|]. split; [exact H1|]. split.
  - specialize (H4 eq_refl eq_refl). apply (inj Some). symmetry. exact H4.
  - split; [exact Hv|]. apply Hd.
    + cbn. repeat constructor; set_solver.
    + split; [right; left | discriminate].
Defined.

Lemma ctx_Return (v : WordVariants.t) (c : string) :
  is_Return (WordVariants.ctx v (Some c)) <-> c ∈ ctx_set v.
Proof.
  unfold WordVariants.ctx, ctx_set. rewrite elem_of_list_to_set, dict_get_keys.
  destruct (dict_get c _) as [x|]; split.
  - intros _. by exists x.
  - intros _. by exists x.
  - by intros [? ?].
  - by intros [? ?].
Qed.

Lemma expand_word_keys (n : string) (langs : dict word_arg) (ctxs0 : option (list string))
    (l : string) (word : word_arg) (d : dict pyval) :
  check_words n langs None = Return ctxs0 ->
  (l, word) ∈ langs ->
  expand_word (from_option id ["default"] ctxs0) word = Return d ->
  list_to_set (keys d) =@{gset string} list_to_set (from_option id ["default"] ctxs0).
Proof.
  intros Hc Hin He. pose proof (check_words_spec _ _ _ _ _ _ Hc Hin) as Hw.
  destruct word as [v|d'].
  - destruct Hw as [w ->]. injection He as <-. unfold keys.
    rewrite <- list_fmap_compose. f_equal. by rewrite list_fmap_id.
  - destruct Hw as (cs & -> & Hcs). injection He as <-. symmetry. exact Hcs.
Qed.

(** X6: All languages of a constructed word know the same
    contexts, and the default context of each of them is defined. *)
Theorem Word_contexts (n default : option string) (query : option query_arg)
    (langs : dict word_arg) (w : Word.t) (l1 l2 : string) (v1 v2 : WordVariants.t) :
  __init__ n default query langs = Return w ->
  in_ w l1 = Return v1 ->
  in_ w l2 = Return v2 ->
  (forall c, is_Return (WordVariants.ctx v1 (Some c)) <->
             is_Return (WordVariants.ctx v2 (Some c))) /\
  is_Return (WordVariants.__str__ v1) /\
  is_Return (WordVariants.ctx v1 None).
Proof.
  intros H H1 H2.
  destruct (__init___inv _ _ _ _ _ H) as (ctxs0 & Hc & Hd & _).
  assert (Hset : forall l v, in_ w l = Return v ->
            ctx_set v = list_to_set (from_option id ["default"] ctxs0) ∖ {["default_"]} /\
            is_Return (WordVariants.__str__ v)).
  { intros l v. unfold in_. destruct (dict_get l (_langs w)) as [v'|] eqn:Hv; [|discriminate].
    intros [= ->].
    destruct (define_words_get _ _ _ _ _ _ Hd Hv) as [?|(word & d & Hin & He & Hcall)]; [done|].
    apply call_spec in Hcall as (_ & Hs & Hstr & _). split; [|done].
    rewrite Hs. by rewrite (expand_word_keys _ _ _ _ _ _ Hc Hin He). }
  destruct (Hset _ _ H1) as [S1 Hstr], (Hset _ _ H2) as [S2 _].
  split; [|split; [done|exact Hstr]].
  intros c. rewrite !ctx_Return. by rewrite S1, S2.
Qed.

Lemma Word_contexts_witness :
  exists w v1 v2,
    __init__ (Some "train") None None
      [("en", WDict [("default", VStr "train"); ("pl", VStr "trains")]);
       ("de", WVal (VStr "Zug"))] = Return w /\
    in_ w "en" = Return v1 /\ in_ w "de" = Return v2 /\
    (is_Return (WordVariants.ctx v1 (Some "pl")) <->
     is_Return (WordVariants.ctx v2 (Some "pl"))).
Proof.
  eexists _, _, _. split; [reflexivity|]. split; [reflexivity|]. split; [reflexivity|].
  exact (proj1 (Word_contexts (Some "train") None None
                  [("en", WDict [("default", VStr "train"); ("pl", VStr "trains")]);
                   ("de", WVal (VStr "Zug"))] _ "en" "de" _ _ eq_refl eq_refl eq_refl) "pl").
Defined.

(** X7: A word given as a plain string in some language reads the same in
    every context of this language. *)
Theorem Word_plain_string (n default : option string) (query : option query_arg)
    (langs : dict word_arg) (w : Word.t) (l s : string) :
  __init__ n default query langs = Return w ->
  NoDup (keys langs) ->
  (l, WVal (VStr s)) ∈ langs ->
  exists v, in_ w l = Return v /\
            WordVariants.__str__ v = Return s /\
            WordVariants.ctx v None = Return s /\
            forall c, is_Return (WordVariants.ctx v (Some c)) ->
                      WordVariants.ctx v (Some c) = Return s.
Proof.
  intros H Hnd Hin.
  destruct (__init___inv _ _ _ _ _ H) as (ctxs0 & Hc & Hd & _).
  destruct (define_words_elem _ _ _ _ _ _ Hd Hnd Hin) as (d & v & He & Hcall & Hv).
  exists v. unfold in_. rewrite Hv. split; [done|].
  injection He as <-. apply call_spec in Hcall as (_ & _ & Hstr & Hval).
  assert (Hall : forall c, is_Return (WordVariants.ctx v (Some c)) ->
                           WordVariants.ctx v (Some c) = Return s).
  { intros c [x Hx]. rewrite Hx. f_equal. unfold WordVariants.ctx in Hx.
    destruct (dict_get c _) as [y|] eqn:Hy; [|discriminate]. injection Hx as ->.
    apply Hval in Hy. apply list_elem_of_fmap in Hy as (c' & [= _ ->] & _). done. }
  split; [by apply Hall|]. split; [by apply Hall|]. exact Hall.
Qed.

Lemma Word_plain_string_witness :
  exists w v,
    __init__ (Some "train") None None
      [("en", WDict [("default", VStr "train"); ("pl", VStr "trains")]);
       ("de", WVal (VStr "Zug"))] = Return w /\
    in_ w "de" = Return v /\ WordVariants.ctx v (Some "pl") = Return "Zug".
Proof.
  assert (Hnd : NoDup (keys [("en", WDict [("default", VStr "train"); ("pl", VStr "trains")]);
                             ("de", WVal (VStr "Zug"))])).
  { cbn. repeat constructor; set_solver. }
  assert (Hin : ("de", WVal (VStr "Zug")) ∈
                [("en", WDict [("default", VStr "train"); ("pl", VStr "trains")]);
                 ("de", WVal (VStr "Zug"))]) by set_solver.
  destruct (Word_plain_string (Some "train") None None
              [("en", WDict [("default", VStr "train"); ("pl", VStr "trains")]);
               ("de", WVal (VStr "Zug"))] _ "de" "Zug" eq_refl Hnd Hin)
    as (v & Hv & _ & _ & Hall).
  eexists _, v. split; [reflexivity|]. split; [exact Hv|].
  apply Hall. revert Hv. vm_compute. intros [= <-]. by eexists.
Defined.

(** X8: The name of a constructed word is an identifier: the name given, or
    else the word in the first language, which then is a plain string. *)
Theorem Word_name (n default : option string) (query : option query_arg)
    (langs : dict word_arg) (w : Word.t) :
  __init__ n default query langs = Return w ->
  isidentifier (name w) = true /\
  match n with
  | Some (String _ _ as given) => name w = given
  | _ => exists l rest, langs = (l, WVal (VStr (name w))) :: rest
  end.
Proof.
  unfold __init__. destruct langs as [|[l0 first] langs]; [discriminate|].
  match goal with |- context [match ?x with Some n => if isidentifier n then _ else _ | None => _ end] =>
    destruct x as [sn|] eqn:Hsn; [|discriminate] end.
  destruct (isidentifier sn) eqn:Hid; [|discriminate]. cbn [mbind result_bind].
  destruct (check_words sn _ None) as [ctxs0|] eqn:Hc; [|discriminate].
  cbn [mbind result_bind].
  match goal with |- context [define_words ?a ?b []] =>
    destruct (define_words a b []) as [r|] eqn:Hd; [|discriminate] end.
  cbn [mbind result_bind].
  pose proof (set_default_langs (mk sn r EmptyString None) default query) as [_ HN].
  destruct (set_default _ default query) as [self res] eqn:Hs. cbn in HN.
  destruct res as [[]|]; [|discriminate]. intros [= <-]. rewrite HN.
  split; [done|].
  destruct n as [[|c n]|].
  - destruct first as [[]|]; try discriminate. injection Hsn as ->. by eexists _, _.
  - by injection Hsn.
  - destruct first as [[]|]; try discriminate. injection Hsn as ->. by eexists _, _.
Qed.

Lemma Word_name_witness :
  exists w,
    __init__ None None None [("en", WVal (VStr "school")); ("de", WVal (VStr "Schule"))]
      = Return w /\ name w = "school".
Proof.
  eexists. split; [reflexivity|].
  destruct (Word_name None None None
              [("en", WVal (VStr "school")); ("de", WVal (VStr "Schule"))] _ eq_refl)
    as [_ (l & rest & Heq)].
  by injection Heq.
Defined.

(** X9: A word whose only language is a dictionary without a context, or with
    the context [default_] alone, is not constructed: [StopIteration]
    leaves [__init__]. *)
Theorem Word_no_contexts (n l : string) (default : option string)
    (query : option query_arg) (d : dict pyval) :
  isidentifier n = true ->
  l <> "name" ->
  Forall (fun kv => kv.1 = "default_") d ->
  __init__ (Some n) default query [(l, WDict d)] = Fail StopIteration.
Proof.
  intros Hn Hl Hd. unfold __init__.
  assert (Hsn : match Some n with
                | Some (String _ _ as n0) => Some n0
                | _ => (None : option string)
                end = Some n).
  { destruct n; [discriminate|done]. }
  rewrite Hsn, Hn. cbn [mbind result_bind check_words].
  destruct (String.eqb_spec l "name"); [done|]. cbn [from_option id define_words mbind result_bind].
  assert (Hrm : dict_remove "default_" d = []).
  { unfold dict_remove, dict. induction Hd as [|[k v] d Hk _ IH]; [done|].
    cbn in Hk. subst. rewrite filter_cons_False; [done|]. cbn. by intros ?. }
  assert (Hget : dict_get "lang_" d = None).
  { clear Hrm. induction Hd as [|[k v] d Hk _ IH]; [done|]. cbn in Hk. subst. cbn. exact IH. }
  unfold WordVariants.call. rewrite Hget, Hrm. done.
Qed.

Lemma Word_no_contexts_witness :
  __init__ (Some "train") None None [("en", WDict [])] = Fail StopIteration.
Proof.
  apply Word_no_contexts; [reflexivity|discriminate|constructor].
Defined.

(** X10: [set_default] with a language that the word does not have raises and
    leaves the word as it was; with a language that it has and a query
    that cannot be called it raises as well, but the default language has
    been set by then; a query that can be called decides the default. *)
Theorem set_default_outcomes (self : Word.t) (lang : string) :
  (lang ∉ Word.langs self ->
   forall query, exists msg,
     set_default self (Some lang) query = (self, Fail (Exn (ValueError msg)))) /\
  (lang ∈ Word.langs self ->
   (forall v, v <> VNone ->
      exists self' msg,
        set_default self (Some lang) (Some (NotCallable v))
          = (self', Fail (Exn (ValueError msg))) /\
        _default self' = lang /\ _default_query self' = _default_query self) /\
   (forall answer, exists self',
      set_default self (Some lang) (Some (Callable answer)) = (self', Return tt) /\
      Word.default self' = answer) /\
   (exists self',
      set_default self (Some lang) None = (self', Return tt) /\
      Word.default self' = lang)).
Proof.
  split.
  - intros Hl query. unfold set_default. rewrite bool_decide_eq_false_2 by done. by eexists.
  - intros Hl. unfold set_default. rewrite bool_decide_eq_true_2 by done.
    split; [|split].
    + intros v Hv. destruct v; try done; by eexists _, _.
    + intros answer. by eexists.
    + by eexists.
Qed.

Lemma set_default_outcomes_witness :
  exists self' msg,
    set_default (mk "w" [("en", WordVariants.mk (Some "en") [("default", "w")] "default")]
                    "en" None)
                (Some "en") (Some (NotCallable (VInt 1)))
      = (self', Fail (Exn (ValueError msg))) /\
    _default self' = "en".
Proof.
  assert (Hin : "en" ∈ Word.langs
            (mk "w" [("en", WordVariants.mk (Some "en") [("default", "w")] "default")]
                "en" None)) by (cbn; set_solver).
  destruct (proj1 (proj2 (set_default_outcomes _ "en") Hin) (VInt 1))
    as (self' & msg & H1 & H2 & _); [done|].
  by exists self', msg.
Defined.

End words.

(** ** The locations that are accepted *)

Lemma signed_int_nil (d : Decimal.signed_int) :
  d = Decimal.Pos Decimal.Nil \/ d = Decimal.Neg Decimal.Nil \/
  (d <> Decimal.Pos Decimal.Nil /\ d <> Decimal.Neg Decimal.Nil).
Proof. destruct d as [[]|[]]; auto; right; right; split; discriminate. Qed.

Lemma str_of_Z_inv (n : Z) (s : string) (d : Decimal.signed_int) :
  NilZero.int_of_string s = Some d -> str_of_Z n = s -> n = Z.of_int d.
Proof.
  unfold str_of_Z. intros Hs <-. rewrite <- (DecimalZ.of_to n) at 1.
  destruct (signed_int_nil (Z.to_int n)) as [E|[E|[E1 E2]]].
  - rewrite E in *. rewrite NilZero.isi_posnil in Hs. by injection Hs as <-.
  - rewrite E in *. rewrite NilZero.isi_negnil in Hs. by injection Hs as <-.
  - rewrite (NilZero.isi _ E1 E2) in Hs. by injection Hs as <-.
Qed.

Lemma str_of_Z_None (n : Z) (s : string) :
  NilZero.int_of_string s = None -> str_of_Z n <> s.
Proof.
  unfold str_of_Z. intros Hs <-.
  destruct (signed_int_nil (Z.to_int n)) as [E|[E|[E1 E2]]].
  - rewrite E in *. by rewrite NilZero.isi_posnil in Hs.
  - rewrite E in *. by rewrite NilZero.isi_negnil in Hs.
  - by rewrite (NilZero.isi _ E1 E2) in Hs.
Qed.

(** The components that [_eval_loc_vert] and [_eval_loc_horz] accept when
    they are single characters. *)
Lemma _eval_loc_vert_char (a : ascii) (r : string) :
  _eval_loc_vert (String a EmptyString) = Ok r ->
  a ∈ ["0"; "1"; "2"; "b"; "c"; "t"]%char.
Proof.
  unfold _eval_loc_vert. repeat case_bool_decide; try discriminate; intros _;
    match goal with
    | H : String a EmptyString ∈ _ |- _ =>
        rewrite !elem_of_cons in H; destruct H as [H|[H|[H|H]]];
        try discriminate H; try (by apply elem_of_nil in H);
        injection H as ->; set_solver
    end.
Qed.

Lemma _eval_loc_horz_char (a : ascii) (r : string) :
  _eval_loc_horz (String a EmptyString) = Ok r ->
  a ∈ ["0"; "1"; "2"; "l"; "c"; "r"]%char.
Proof.
  unfold _eval_loc_horz. repeat case_bool_decide; try discriminate; intros _;
    match goal with
    | H : String a EmptyString ∈ _ |- _ =>
        rewrite !elem_of_cons in H; destruct H as [H|[H|[H|H]]];
        try discriminate H; try (by apply elem_of_nil in H);
        injection H as ->; set_solver
    end.
Qed.

Lemma __init___two (a b : ascii) :
  is_Ok (__init__ (LocStr (String a (String b EmptyString)))) <->
  a ∈ ["0"; "1"; "2"; "b"; "c"; "t"]%char /\ b ∈ ["0"; "1"; "2"; "l"; "c"; "r"]%char.
Proof.
  unfold __init__. rewrite _prepare_loc_two. split.
  - intros [r H].
    destruct (_eval_loc_vert (String a EmptyString)) as [y|] eqn:Hy; [|discriminate].
    destruct (_eval_loc_horz (String b EmptyString)) as [x|] eqn:Hx; [|discriminate].
    split; [by eapply _eval_loc_vert_char | by eapply _eval_loc_horz_char].
  - intros [Ha Hb]. rewrite !elem_of_cons in Ha, Hb.
    destruct Ha as [->|[->|[->|[->|[->|[->|Ha]]]]]]; try (by apply elem_of_nil in Ha);
      destruct Hb as [->|[->|[->|[->|[->|[->|Hb]]]]]]; try (by apply elem_of_nil in Hb);
      eexists; reflexivity.
Qed.

Lemma __init___str_cases (s : string) :
  is_Ok (__init__ (LocStr s)) <->
  s = "center" \/
  exists a b, s = String a (String b EmptyString) /\
              a ∈ ["0"; "1"; "2"; "b"; "c"; "t"]%char /\
              b ∈ ["0"; "1"; "2"; "l"; "c"; "r"]%char.
Proof.
  split.
  - intros H. destruct (decide (s = "center")) as [->|Hne]; [by left|]. right.
    destruct (decide (String.length s = 2%nat)) as [Hlen|Hlen].
    + destruct s as [|a [|b [|c s]]]; try discriminate Hlen.
      exists a, b. split; [done|]. by apply __init___two.
    + destruct H as [r H]. unfold __init__ in H.
      by rewrite _prepare_loc_other in H.
  - intros [->|(a & b & -> & Ha & Hb)]; [eexists; reflexivity|].
    by apply __init___two.
Qed.

(** X1: The strings that [BoxLocation] accepts are ["center"] and the
    two-character codes whose first character names a row by its digit or
    letter and whose second character names a column; digits and letters
    may be mixed.  Every other string is rejected. *)
Theorem __init___accepts (s : string) :
  is_Ok (__init__ (LocStr s)) <->
  s = "center" \/
  exists a b, s = String a (String b EmptyString) /\
              a ∈ ["0"; "1"; "2"; "b"; "c"; "t"]%char /\
              b ∈ ["0"; "1"; "2"; "l"; "c"; "r"]%char.
Proof. apply __init___str_cases. Qed.

Lemma __init___LocInt (n : Z) :
  is_Ok (__init__ (LocInt n)) <-> is_Ok (__init__ (LocStr (str_of_Z n))).
Proof.
  unfold __init__.
  change (_prepare_loc (LocInt n)) with (_prepare_loc (LocStr (str_of_Z n))).
  destruct (_prepare_loc (LocStr (str_of_Z n))) as [[y x]|]; cbn.
  - split; intros _; by eexists.
  - split; intros [? [=]].
Qed.

(** X2: An integer is accepted as a location exactly when it is one of 10,
    11, 12, 20, 21 and 22: the codes 00, 01 and 02 of the bottom row are
    the integers 0, 1 and 2, whose text has one character. *)
Theorem __init___int (n : Z) :
  is_Ok (__init__ (LocInt n)) <-> n ∈ [10; 11; 12; 20; 21; 22]%Z.
Proof.
  split.
  - intros H.
    assert (Hs : is_Ok (__init__ (LocStr (str_of_Z n)))) by by apply __init___LocInt.
    apply __init___str_cases in Hs as [Hc|(a & b & Hs & Ha & Hb)].
    + exfalso. by apply (str_of_Z_None n "center").
    + rewrite !elem_of_cons in Ha, Hb.
      destruct Ha as [->|[->|[->|[->|[->|[->|Ha]]]]]]; try (by apply elem_of_nil in Ha);
        destruct Hb as [->|[->|[->|[->|[->|[->|Hb]]]]]]; try (by apply elem_of_nil in Hb);
        match type of Hs with
        | str_of_Z n = ?s =>
            let r := eval vm_compute in (NilZero.int_of_string s) in
            match r with
            | Some ?d => pose proof (str_of_Z_inv n s d eq_refl Hs) as Hn; cbn in Hn; subst n;
                         first [ discriminate Hs | set_solver ]
            | None => exfalso; exact (str_of_Z_None n s eq_refl Hs)
            end
        end.
  - rewrite !elem_of_cons.
    intros [->|[->|[->|[->|[->|[->|H]]]]]]; try (by apply elem_of_nil in H);
      eexists; reflexivity.
Qed.

(** ** Drawing all or nothing *)

Lemma requested_va_insert_color (va : string) (kw : kwargs) (c : pyval) :
  requested_va va (<["color" := c]> kw) = requested_va va kw.
Proof. unfold requested_va, get2. by rewrite !lookup_insert_ne. Qed.

(** For a box, a location and keyword arguments, [text] either fails for
    every line before it draws, or it goes through for every line. *)
Lemma text_uniform (self : FlexAxesTextBox.t) (loc : loc_param) (dx : option float)
    (kw : kwargs) :
  (exists e, forall s dy c, text self loc s dx dy (<["color" := c]> kw) = ([], Raise e)) \/
  (forall s dy c, exists w, text self loc s dx dy (<["color" := c]> kw) = (w, Ok tt)).
Proof.
  destruct (derive loc (FlexAxesTextBox.dx self) (FlexAxesTextBox.dy self))
    as [[[[ha va] x0] y0]|e] eqn:Hloc.
  - destruct (is_str (requested_va va kw) "top_baseline") eqn:Hva.
    + left. eexists. intros s dy c.
      rewrite (text_top_baseline self loc s dx dy _ ha va x0 y0 Hloc)
        by by rewrite requested_va_insert_color.
      rewrite lookup_insert_ne by done. reflexivity.
    + right. intros s dy c. eexists.
      apply (text_calls self loc s dx dy _ ha va x0 y0 Hloc).
      by rewrite requested_va_insert_color.
  - left. exists e. intros s dy c. unfold text. by rewrite Hloc.
Qed.

Lemma draw_lines_fails (self : FlexAxesTextBox.t) (loc : loc_param) (dx : option float)
    (kw : kwargs) (e : exn) (dy_line : float) (block : list text_t) (cs : list pyval)
    (dy : float) :
  (forall s dy c, text self loc s dx dy (<["color" := c]> kw) = ([], Raise e)) ->
  length block <= length cs ->
  draw_lines self loc dx kw dy_line block cs dy =
    match block with
    | [] => ([], Ok dy)
    | _ => ([], Raise e)
    end.
Proof.
  intros Hfail Hlen. destruct block as [|line block]; [reflexivity|].
  destruct cs as [|c cs]; [cbn in Hlen; lia|].
  cbn [draw_lines]. rewrite trace_bind_lift_Ok, Hfail. reflexivity.
Qed.

Lemma draw_lines_succeeds (self : FlexAxesTextBox.t) (loc : loc_param) (dx : option float)
    (kw : kwargs) (dy_line : float) (block : list text_t) (cs : list pyval) (dy : float) :
  (forall s dy c, exists w, text self loc s dx dy (<["color" := c]> kw) = (w, Ok tt)) ->
  length block <= length cs ->
  exists w dy', draw_lines self loc dx kw dy_line block cs dy = (w, Ok dy').
Proof.
  intros Hok. revert cs dy. induction block as [|line block IH]; intros cs dy Hlen.
  - by eexists _, _.
  - destruct cs as [|c cs]; [cbn in Hlen; lia|].
    cbn [draw_lines tail]. rewrite trace_bind_lift_Ok.
    destruct (Hok line (Some dy) c) as [w Hw]. rewrite Hw, trace_bind_Ok.
    destruct (IH cs (dy + dy_line)%float) as (w' & dy' & H'); [cbn in Hlen; lia|].
    rewrite H'. by eexists _, _.
Qed.

Lemma draw_blocks_atomic (self : FlexAxesTextBox.t) (loc : loc_param) (dx : option float)
    (kw : kwargs) (dy_line dy_block : float) (blocks : list (list text_t))
    (cbs : list (list pyval)) (dy : float) (e : exn) :
  colors_cover blocks cbs ->
  (draw_blocks self loc dx kw dy_line dy_block blocks cbs dy).2 = Raise e ->
  (draw_blocks self loc dx kw dy_line dy_block blocks cbs dy).1 = [] /\
  (exists e', forall s dy c, text self loc s dx dy (<["color" := c]> kw) = ([], Raise e')).
Proof.
  intros Hcov. destruct (text_uniform self loc dx kw) as [[e' Hfail]|Hok].
  - intros _. split; [|by exists e'].
    revert dy. induction Hcov as [|block cs blocks cbs Hlen _ IH]; intros dy; [reflexivity|].
    cbn [draw_blocks hd tail]. rewrite (draw_lines_fails _ _ _ _ e') by done.
    destruct block; [|reflexivity]. rewrite trace_bind_Ok. cbn [fst]. by rewrite IH.
  - intros Hr. exfalso. revert dy Hr.
    induction Hcov as [|block cs blocks cbs Hlen _ IH]; intros dy; [discriminate|].
    cbn [draw_blocks hd tail].
    destruct (draw_lines_succeeds self loc dx kw dy_line block cs dy Hok Hlen)
      as (w & dy' & Hw).
    rewrite Hw, trace_bind_Ok. cbn [snd]. apply IH.
Qed.

Lemma fill_line_colors_length (d : pyval) (n : nat) (cs r : list pyval) :
  fill_line_colors d n cs = Ok r -> n <= length r /\ length r = length cs.
Proof.
  revert cs r. induction n as [|n IH]; intros cs r; cbn.
  - intros [= <-]. lia.
  - destruct cs as [|c cs]; [discriminate|].
    destruct (fill_line_colors d n cs) as [r'|] eqn:Hr; [|discriminate]. cbn.
    intros [= <-]. apply IH in Hr. cbn. lia.
Qed.

Lemma fill_colors_cover (d : pyval) (blocks : list (list text_t))
    (cbs : list (option (list pyval))) (filled : list (list pyval)) :
  fill_colors d blocks cbs = Ok filled -> colors_cover blocks filled.
Proof.
  revert cbs filled. induction blocks as [|block blocks IH]; intros cbs filled; cbn.
  - intros [= <-]. constructor.
  - destruct cbs as [|c cbs]; [discriminate|].
    destruct (match c with None => _ | Some cs => _ end) as [line|] eqn:Hl; [|discriminate].
    cbn. destruct (fill_colors d blocks cbs) as [rest|] eqn:Hr; [|discriminate]. cbn.
    intros [= <-]. constructor; [|by eapply IH].
    destruct c as [cs|].
    + apply fill_line_colors_length in Hl. lia.
    + injection Hl as <-. by rewrite length_replicate.
Qed.

Lemma colors_cover_revert (blocks : list (list text_t)) (cbs : list (list pyval)) :
  colors_cover blocks cbs -> colors_cover (revert blocks) (revert cbs).
Proof.
  unfold colors_cover, revert. intros H.
  apply Forall2_fmap. apply Forall2_reverse.
  eapply Forall2_impl; [exact H|]. intros block cs Hlen. cbn.
  by rewrite !length_reverse.
Qed.

Lemma text_blocks_atomic (self : FlexAxesTextBox.t) (loc : loc_param)
    (blocks : list (list text_t)) (dy0 dy_line dy_block : option float) (reverse : bool)
    (colors : colors_t) (dx : option float) (kw : kwargs) (e : exn) :
  (text_blocks self loc blocks dy0 dy_line dy_block reverse colors dx kw).2 = Raise e ->
  (text_blocks self loc blocks dy0 dy_line dy_block reverse colors dx kw).1 = [].
Proof.
  unfold text_blocks. destruct (pop_color kw) as [c kw'].
  match goal with |- context [lift ?r ≫= _] => destruct r as [cbs|e0] eqn:Hc end;
    [|reflexivity].
  rewrite trace_bind_lift_Ok.
  destruct (fill_colors c blocks cbs) as [filled|e1] eqn:Hf; [|reflexivity].
  rewrite trace_bind_lift_Ok.
  apply fill_colors_cover in Hf.
  set (bs := if reverse then (revert blocks, revert filled) else (blocks, filled)).
  assert (Hcov : colors_cover bs.1 bs.2).
  { subst bs. destruct reverse; [by apply colors_cover_revert|done]. }
  destruct bs as [blocks' colors']. cbn [fst snd] in Hcov.
  pose proof (draw_blocks_atomic self loc dx kw' (default 2.5%float dy_line)
                (default (default 2.5%float dy_line) dy_block) blocks' colors'
                (default (default 2.5%float dy_line) dy0)) as Hd.
  destruct (draw_blocks _ _ _ _ _ _ _ _ _) as [w [dy|e2]].
  - rewrite trace_bind_Ok. discriminate.
  - intros _. destruct (Hd e2 Hcov eq_refl) as [Hw _]. cbn in Hw. by subst w.
Qed.

Lemma split_lines_length (block : list line_t) (ls rs : list text_t) :
  split_lines block = Ok (ls, rs) -> length ls = length rs.
Proof.
  revert ls rs. induction block as [|line block IH]; intros ls rs; cbn.
  - by intros [= <- <-].
  - destruct (split_line line) as [[l r]|]; [|discriminate]. cbn.
    destruct (split_lines block) as [[ls' rs']|]; [|discriminate]. cbn.
    intros [= <- <-]. cbn. f_equal. by apply IH.
Qed.

Lemma split_blocks_shape (blocks : list block_t) (bl br : list (list text_t)) :
  split_blocks blocks = Ok (bl, br) ->
  Forall2 (fun l r => length l = length r) bl br.
Proof.
  revert bl br. induction blocks as [|block blocks IH]; intros bl br; cbn.
  - intros [= <- <-]. constructor.
  - destruct (split_lines (block_lines block)) as [[ls rs]|] eqn:Hs; [|discriminate]. cbn.
    destruct (split_blocks blocks) as [[bl' br']|]; [|discriminate]. cbn.
    intros [= <- <-]. constructor; [by eapply split_lines_length|by apply IH].
Qed.

Lemma fill_line_colors_enough (d : pyval) (n : nat) (cs : list pyval) :
  n <= length cs -> is_Ok (fill_line_colors d n cs).
Proof.
  revert cs. induction n as [|n IH]; intros cs Hlen; [by eexists|].
  destruct cs as [|c cs]; [cbn in Hlen; lia|]. cbn.
  destruct (IH cs) as [r ->]; [cbn in Hlen; lia|]. by eexists.
Qed.

Lemma fill_colors_filled (d : pyval) (blocks : list (list text_t))
    (filled : list (list pyval)) :
  colors_cover blocks filled -> is_Ok (fill_colors d blocks (Some <$> filled)).
Proof.
  induction 1 as [|block cs blocks filled Hlen _ [r IH]]; [by eexists|].
  cbn. destruct (fill_line_colors_enough d _ _ Hlen) as [line ->]. cbn.
  rewrite IH. by eexists.
Qed.

(** What a call of [text_blocks] that returns tells: the colours were of
    the length of the blocks and could be filled, and [text] goes through
    unless there is no line at all. *)
Lemma text_blocks_returns (self : FlexAxesTextBox.t) (loc : loc_param)
    (blocks : list (list text_t)) (dy0 dy_line dy_block : option float) (reverse : bool)
    (colors : colors_t) (dx : option float) (kw : kwargs)
    (w : list ax_call) (r : colors_t) :
  text_blocks self loc blocks dy0 dy_line dy_block reverse colors dx kw = (w, Ok r) ->
  (match colors with
   | None => r = None
   | Some cbs => exists filled, r = Some (Some <$> filled) /\
                                length filled = length blocks /\
                                colors_cover blocks filled
   end) /\
  ((exists e, forall s dy c,
      text self loc s dx dy (<["color" := c]> (pop_color kw).2) = ([], Raise e)) ->
   Forall (fun block => block = []) blocks).
Proof.
  unfold text_blocks. destruct (pop_color kw) as [c kw']. cbn [snd].
  match goal with |- context [lift ?r ≫= _] => destruct r as [cbs|e0] eqn:Hc end;
    [|discriminate].
  rewrite trace_bind_lift_Ok.
  destruct (fill_colors c blocks cbs) as [filled|e1] eqn:Hf; [|discriminate].
  rewrite trace_bind_lift_Ok.
  pose proof (fill_colors_cover _ _ _ _ Hf) as Hcov.
  set (bs := if reverse then (revert blocks, revert filled) else (blocks, filled)).
  assert (Hbs : colors_cover bs.1 bs.2 /\
                (Forall (fun block => block = []) bs.1 ->
                 Forall (fun block => block = []) blocks)).
  { subst bs. destruct reverse; cbn [fst snd]; [|done].
    split; [by apply colors_cover_revert|].
    unfold revert. rewrite Forall_fmap, Forall_reverse.
    intros HF. eapply Forall_impl; [exact HF|]. intros block. cbn. intros H.
    apply (f_equal length) in H. rewrite length_reverse in H. by destruct block. }
  destruct bs as [blocks' colors']. cbn [fst snd] in Hbs. destruct Hbs as [Hcov' Hempty].
  destruct (draw_blocks _ _ _ _ _ _ _ _ _) as [w' [dy|e2]] eqn:Hd; [|discriminate].
  rewrite trace_bind_Ok. cbn. intros [= <- <-]. split.
  - destruct colors as [cbs'|]; [|done]. exists filled. split; [done|]. split; [|done].
    symmetry. by eapply Forall2_length.
  - intros [e Hfail]. apply Hempty. clear Hempty Hf Hc Hcov.
    revert w' dy Hd. generalize (default (default 2.5%float dy_line) dy0).
    induction Hcov' as [|block cs blocks' colors' Hlen _ IH]; intros d0 w' dy;
      [constructor|].
    cbn [draw_blocks hd tail]. rewrite (draw_lines_fails _ _ _ _ e) by done.
    destruct block; [|discriminate]. rewrite trace_bind_Ok. cbn [fst].
    destruct (draw_blocks _ _ _ _ _ _ blocks' _ _) as [w'' r''] eqn:Hd'.
    intros [= _ ->]. constructor; [done|]. by eapply IH.
Qed.

Lemma draw_blocks_empty (self : FlexAxesTextBox.t) (loc : loc_param) (dx : option float)
    (kw : kwargs) (dy_line dy_block : float) (blocks : list (list text_t))
    (cbs : list (list pyval)) (dy : float) :
  Forall (fun block => block = []) blocks ->
  exists dy', draw_blocks self loc dx kw dy_line dy_block blocks cbs dy = ([], Ok dy').
Proof.
  intros H. revert cbs dy. induction H as [|block blocks -> _ IH]; intros cbs dy.
  - by eexists.
  - cbn [draw_blocks draw_lines].
    change (mret dy : draw float) with (([], Ok dy) : draw float).
    rewrite trace_bind_Ok. cbn [fst snd].
    destruct (IH (tail cbs) (dy + dy_block)%float) as [dy' ->]. by eexists.
Qed.

(** [text_blocks] returns when the colours can be filled and [text] goes
    through, or there is no line to draw. *)
Lemma text_blocks_goes_through (self : FlexAxesTextBox.t) (loc : loc_param)
    (blocks : list (list text_t)) (dy0 dy_line dy_block : option float) (rev : bool)
    (colors : colors_t) (dx : option float) (kw : kwargs) :
  (match colors with
   | None => True
   | Some cbs => length cbs = length blocks /\
                 is_Ok (fill_colors (pop_color kw).1 blocks cbs)
   end) ->
  ((forall s dy c, exists w,
      text self loc s dx dy (<["color" := c]> (pop_color kw).2) = (w, Ok tt)) \/
   Forall (fun block => block = []) blocks) ->
  is_Ok (text_blocks self loc blocks dy0 dy_line dy_block rev colors dx kw).2.
Proof.
  unfold text_blocks. destruct (pop_color kw) as [c kw']. cbn [fst snd].
  intros Hcol Htext.
  assert (exists cbs filled,
            match colors with
            | None => Ok (replicate (length blocks) None)
            | Some cbs =>
                if (length cbs =? length blocks)%nat then Ok cbs
                else Raise (UnboundLocalError "colors")
            end = Ok cbs /\ fill_colors c blocks cbs = Ok filled) as (cbs & filled & -> & Hf).
  { destruct colors as [cbs|].
    - destruct Hcol as [Hlen [filled Hf]]. exists cbs, filled.
      by rewrite Hlen, Nat.eqb_refl.
    - eexists _, _. split; [done|]. apply fill_colors_None. }
  rewrite trace_bind_lift_Ok, Hf, trace_bind_lift_Ok.
  apply fill_colors_cover in Hf.
  set (bs := if rev then (revert blocks, revert filled) else (blocks, filled)).
  assert (Hbs : colors_cover bs.1 bs.2 /\
                (Forall (fun block => block = []) blocks ->
                 Forall (fun block => block = []) bs.1)).
  { subst bs. destruct rev; cbn [fst snd]; [|done].
    split; [by apply colors_cover_revert|].
    unfold revert. rewrite Forall_fmap, Forall_reverse.
    intros HF. eapply Forall_impl; [exact HF|]. by intros block ->. }
  destruct bs as [blocks' colors']. cbn [fst snd] in Hbs. destruct Hbs as [Hcov Hempty].
  destruct (draw_blocks self loc dx kw' (default 2.5%float dy_line)
              (default (default 2.5%float dy_line) dy_block) blocks' colors'
              (default (default 2.5%float dy_line) dy0)) as [w [dy|e]] eqn:Hd.
  - rewrite trace_bind_Ok. by eexists.
  - exfalso. destruct Htext as [Hok|Hnone].
    + pose proof (draw_blocks_atomic self loc dx kw' (default 2.5%float dy_line)
                    (default (default 2.5%float dy_line) dy_block) blocks' colors'
                    (default (default 2.5%float dy_line) dy0) e Hcov) as Ha.
      rewrite Hd in Ha. destruct (Ha eq_refl) as [_ [e' Hfail]].
      destruct (Hok (Str EmptyString) None VNone) as [w' Hw]. rewrite Hfail in Hw. discriminate.
    + destruct (draw_blocks_empty self loc dx kw' (default 2.5%float dy_line)
                  (default (default 2.5%float dy_line) dy_block) blocks' colors'
                  (default (default 2.5%float dy_line) dy0) (Hempty Hnone)) as [dy' Hd'].
      rewrite Hd' in Hd. discriminate.
Qed.

(** [text] from the two bottom anchors fails for the same keyword
    arguments. *)
Lemma text_bottom (self : FlexAxesTextBox.t) (x : string) (dx : option float) (kw : kwargs) :
  x = "l" \/ x = "r" ->
  if is_str (requested_va "baseline" kw) "top_baseline"
  then exists e, forall s dy c,
         text self (LocStr ("b" +:+ x)) s dx dy (<["color" := c]> kw) = ([], Raise e)
  else forall s dy c, exists w,
         text self (LocStr ("b" +:+ x)) s dx dy (<["color" := c]> kw) = (w, Ok tt).
Proof.
  intros Hx.
  assert (exists ha x0, derive (LocStr ("b" +:+ x)) (FlexAxesTextBox.dx self)
                          (FlexAxesTextBox.dy self)
                        = Ok (ha, "baseline", x0, (0.0 + FlexAxesTextBox.dy self)%float))
    as (ha & x0 & Hloc).
  { destruct Hx as [-> | ->]; by eexists _, _. }
  destruct (is_str (requested_va "baseline" kw) "top_baseline") eqn:Hva.
  - eexists. intros s dy c.
    rewrite (text_top_baseline self _ s dx dy _ _ _ _ _ Hloc)
      by by rewrite requested_va_insert_color.
    rewrite lookup_insert_ne by done. reflexivity.
  - intros s dy c. eexists.
    apply (text_calls self _ s dx dy _ _ _ _ _ Hloc).
    by rewrite requested_va_insert_color.
Qed.

Lemma text_blocks_hfill_atomic (self : FlexAxesTextBox.t) (loc_y : loc_param)
    (blocks : blocks_t) (dy0 dy_line dy_block : option float) (rev : bool)
    (colors : colors_t) (dx : option float) (kw : kwargs) (e : exn) :
  (text_blocks_hfill self loc_y blocks dy0 dy_line dy_block rev colors dx kw).2 = Raise e ->
  (text_blocks_hfill self loc_y blocks dy0 dy_line dy_block rev colors dx kw).1 = [].
Proof.
  unfold text_blocks_hfill.
  destruct (split_blocks _) as [[bl br]|e0] eqn:Hsplit; [|reflexivity].
  rewrite trace_bind_lift_Ok.
  pose proof (text_blocks_atomic self (LocStr "bl") bl dy0 dy_line dy_block rev colors dx kw)
    as Hleft.
  destruct (text_blocks self (LocStr "bl") bl dy0 dy_line dy_block rev colors dx kw)
    as [w [colors'|e1]] eqn:Hl.
  - rewrite trace_bind_Ok. cbn [fst snd]. intros He. exfalso.
    apply text_blocks_returns in Hl as [Hcol Hfail].
    apply split_blocks_shape in Hsplit.
    assert (Hr : is_Ok (text_blocks self (LocStr "br") br dy0 dy_line dy_block rev colors'
                          (PrimFloat.opp <$> dx) kw).2).
    { apply text_blocks_goes_through.
      - destruct colors as [cbs|]; [|by subst].
        destruct Hcol as (filled & -> & Hlen & Hcov).
        assert (Hcov' : colors_cover br filled).
        { clear -Hsplit Hcov. revert filled Hcov.
          induction Hsplit as [|l r bl br Hlr _ IH]; intros filled Hcov.
          - inversion Hcov. constructor.
          - inversion Hcov as [|? cs ? filled' Hlen Hcov']; subst.
            constructor; [lia|by apply IH]. }
        split; [|by apply fill_colors_filled].
        rewrite length_fmap, Hlen. by eapply Forall2_length.
      - pose proof (text_bottom self "l" dx (pop_color kw).2 (or_introl eq_refl)) as HL.
        pose proof (text_bottom self "r" (PrimFloat.opp <$> dx) (pop_color kw).2
                      (or_intror eq_refl)) as HR.
        destruct (is_str (requested_va "baseline" (pop_color kw).2) "top_baseline").
        + right. specialize (Hfail HL). clear -Hfail Hsplit.
          induction Hsplit as [|l r bl br Hlr _ IH]; [constructor|].
          inversion Hfail; subst. constructor; [|by apply IH].
          by destruct r.
        + by left. }
    destruct Hr as [r Hr]. rewrite Hr in He. discriminate.
  - intros _. rewrite trace_bind_Raise. by apply (Hleft e1).
Qed.

(** X3: [text_blocks] draws all lines or none: a call that raises has drawn
    nothing.  The colours are checked and filled before the first line is
    drawn, and what makes [text] fail does not depend on the line. *)
Theorem text_blocks_all_or_nothing (self : FlexAxesTextBox.t) (loc : loc_param)
    (blocks : list (list text_t)) (dy0 dy_line dy_block : option float) (rev : bool)
    (colors : colors_t) (dx : option float) (kw : kwargs) (e : exn) :
  (text_blocks self loc blocks dy0 dy_line dy_block rev colors dx kw).2 = Raise e ->
  (text_blocks self loc blocks dy0 dy_line dy_block rev colors dx kw).1 = [].
Proof. apply text_blocks_atomic. Qed.

Lemma text_blocks_all_or_nothing_witness :
  (text_blocks sample_box (LocStr "bottom left") [[Str "Height"; Str "Start"]]
     None None None false None None ∅).2 = Raise (NameError "line") /\
  (text_blocks sample_box (LocStr "bottom left") [[Str "Height"; Str "Start"]]
     None None None false None None ∅).1 = [].
Proof.
  split; [reflexivity|].
  exact (text_blocks_all_or_nothing sample_box (LocStr "bottom left")
           [[Str "Height"; Str "Start"]] None None None false None None ∅
           (NameError "line") eq_refl).
Defined.

(** X4: [text_blocks_hfill] draws all left and right parts or nothing: when
    the left parts have been drawn, the right parts are drawn as well. *)
Theorem text_blocks_hfill_all_or_nothing (self : FlexAxesTextBox.t) (loc_y : loc_param)
    (blocks : blocks_t) (dy0 dy_line dy_block : option float) (rev : bool)
    (colors : colors_t) (dx : option float) (kw : kwargs) (e : exn) :
  (text_blocks_hfill self loc_y blocks dy0 dy_line dy_block rev colors dx kw).2 = Raise e ->
  (text_blocks_hfill self loc_y blocks dy0 dy_line dy_block rev colors dx kw).1 = [].
Proof. apply text_blocks_hfill_atomic. Qed.

Lemma text_blocks_hfill_all_or_nothing_witness :
  let kw : kwargs := {["va" := VStr "top_baseline"]} in
  let blocks := BlocksList [BList [LStr ("Height:" +:+ tab +:+ "100 m AGL")]] in
  (text_blocks_hfill sample_box (LocStr "b") blocks None None None false None None kw).2
    = Raise (KeyError "vs") /\
  (text_blocks_hfill sample_box (LocStr "b") blocks None None None false None None kw).1 = [].
Proof.
  intros kw blocks. split; [reflexivity|].
  exact (text_blocks_hfill_all_or_nothing sample_box (LocStr "b") blocks None None None
           false None None kw (KeyError "vs") eq_refl).
Defined.

(** ** The baseline of a text *)

(** X11: The options of the baseline accumulate: an option given to
    [show_baseline] stays in force in every later call that does not give
    it anew, also in a call without options.  After two calls, the second
    of which shows the baseline, [text] draws the text and then the line
    at the height of the text, with the option of the first call. *)
Theorem show_baseline_accumulates (self : FlexAxesTextBox.t) (defaults kw1 kw2 kw : kwargs)
    (v1 : bool) (k : string) (v : pyval) (loc : loc_param) (s : text_t)
    (dx dy : option float) (ha va : string) (x0 y0 : float) :
  kw1 !! k = Some v ->
  kw2 !! k = None ->
  derive loc (FlexAxesTextBox.dx self) (FlexAxesTextBox.dy self) = Ok (ha, va, x0, y0) ->
  is_str (requested_va va kw) "top_baseline" = false ->
  let '(box1, defaults1) := show_baseline self defaults v1 kw1 in
  let '(box2, defaults2) := show_baseline box1 defaults1 true kw2 in
  defaults2 !! k = Some v /\
  exists kw_text kw_line,
    text box2 loc s dx dy kw =
      ([ax_text (x0 + default 0.0 dx * FlexAxesTextBox.dx self)%float
                (y0 + default 0.0 dy * FlexAxesTextBox.dy self)%float s kw_text;
        ax_axhline (y0 + default 0.0 dy * FlexAxesTextBox.dy self)%float kw_line],
       Ok tt) /\
    kw_line !! k = Some v.
Proof.
  intros H1 H2 Hloc Hva. unfold show_baseline.
  assert (Hk : (kw2 ∪ (kw1 ∪ defaults)) !! k = Some v).
  { rewrite lookup_union_r by done. by apply lookup_union_Some_l. }
  split; [exact Hk|]. eexists _, _. split; [|exact Hk].
  cbn [FlexAxesTextBox.dx FlexAxesTextBox.dy].
  exact (text_calls (FlexAxesTextBox.mk (FlexAxesTextBox.dx self) (FlexAxesTextBox.dy self)
                       true (kw2 ∪ (kw1 ∪ defaults)))
           loc s dx dy kw ha va x0 y0 Hloc Hva).
Qed.

Lemma show_baseline_accumulates_witness :
  let '(box1, defaults1) :=
    show_baseline sample_box _baseline_kwargs_default true {["color" := VStr "red"]} in
  let '(box2, defaults2) := show_baseline box1 defaults1 true ∅ in
  defaults2 !! "color" = Some (VStr "red").
Proof.
  exact (proj1 (show_baseline_accumulates sample_box _baseline_kwargs_default
                  {["color" := VStr "red"]} ∅ ∅ true "color" (VStr "red") (LocStr "tl")
                  (Str "Concentration") None None "left" "top" _ _
                  eq_refl eq_refl eq_refl eq_refl)).
Defined.

(** ** Coloured strings *)

Lemma split_max_aux_skip (sep : string) (n : option nat) (cur p rest : string) :
  ColorStr.split_max_aux sep n (String.length p) cur (p +:+ rest)
  = ColorStr.split_max_aux sep n 0 cur rest.
Proof.
  induction p as [|a p IH]; [reflexivity|].
  change (String a p +:+ rest) with (String a (p +:+ rest)).
  cbn [String.length ColorStr.split_max_aux]. exact IH.
Qed.

Lemma prefix_split (p s : string) :
  String.prefix p s = true -> exists rest, s = p +:+ rest.
Proof.
  revert s. induction p as [|a p IH]; intros s; [by exists s|].
  destruct s as [|b s]; [discriminate|]. cbn.
  destruct (Ascii.ascii_dec a b) as [->|]; [|discriminate].
  intros H. destruct (IH s H) as [rest ->]. by exists rest.
Qed.

Lemma string_app_cons (x : ascii) (a b : string) : String x a +:+ b = String x (a +:+ b).
Proof. reflexivity. Qed.

Lemma string_app_assoc (a b c : string) : (a +:+ b) +:+ c = a +:+ (b +:+ c).
Proof.
  induction a as [|x a IH]; [reflexivity|]. rewrite !string_app_cons. by rewrite IH.
Qed.

Lemma string_app_nil_r (a : string) : a +:+ EmptyString = a.
Proof. induction a as [|x a IH]; [reflexivity|]. rewrite string_app_cons. by rewrite IH. Qed.

Lemma string_app_length (a b : string) :
  String.length (a +:+ b) = (String.length a + String.length b)%nat.
Proof.
  induction a as [|x a IH]; [reflexivity|]. rewrite string_app_cons. cbn. by rewrite IH.
Qed.

Lemma split_max_aux_nonempty (sep : string) (n : option nat) (skip : nat) (cur s : string) :
  ColorStr.split_max_aux sep n skip cur s <> [].
Proof.
  revert n skip cur. induction s as [|c s IH]; intros n skip cur; [done|].
  cbn [ColorStr.split_max_aux]. destruct skip; [|apply IH].
  destruct n as [[|n]|]; try done; destruct (String.prefix sep (String c s)); try done;
    apply IH.
Qed.

Lemma join_cons (sep part : string) (parts : list string) :
  parts <> [] -> join sep (part :: parts) = part +:+ sep +:+ join sep parts.
Proof. by destruct parts. Qed.

Lemma split_max_aux_join (sep : string) (m : nat) :
  sep <> EmptyString ->
  forall (s : string) (n : option nat) (cur : string),
    String.length s <= m ->
    join sep (ColorStr.split_max_aux sep n 0 cur s) = cur +:+ s /\
    (forall k, n = Some k -> length (ColorStr.split_max_aux sep n 0 cur s) <= S k).
Proof.
  intros Hsep. induction m as [|m IH]; intros s n cur Hlen.
  - destruct s; [|cbn in Hlen; lia]. cbn. rewrite string_app_nil_r. split; [done|].
    intros; cbn; lia.
  - destruct s as [|c s]; [cbn; rewrite string_app_nil_r; split; [done|intros; cbn; lia]|].
    cbn [ColorStr.split_max_aux].
    assert (Hcases : n = Some 0%nat \/ (n <> Some 0%nat)) by (destruct n as [[|?]|]; auto).
    destruct Hcases as [->|Hn]; [split; [done|intros; cbn; lia]|].
    assert (match n with
            | Some 0%nat => [cur +:+ String c s]
            | _ => if String.prefix sep (String c s)
                   then cur :: ColorStr.split_max_aux sep (Nat.pred <$> n)
                                  (String.length sep - 1) EmptyString s
                   else ColorStr.split_max_aux sep n 0 (cur +:+ String c EmptyString) s
            end
            = if String.prefix sep (String c s)
              then cur :: ColorStr.split_max_aux sep (Nat.pred <$> n)
                             (String.length sep - 1) EmptyString s
              else ColorStr.split_max_aux sep n 0 (cur +:+ String c EmptyString) s) as ->.
    { by destruct n as [[|?]|]. }
    destruct (String.prefix sep (String c s)) eqn:Hp.
    + apply prefix_split in Hp as [rest Hrest].
      destruct sep as [|c0 sep']; [done|]. injection Hrest as -> ->.
      cbn [String.length].
      replace (S (String.length sep') - 1) with (String.length sep') by lia.
      rewrite split_max_aux_skip.
      assert (Hl : String.length rest <= m).
      { cbn in Hlen. rewrite string_app_length in Hlen. lia. }
      destruct (IH rest (Nat.pred <$> n) EmptyString Hl) as [IH1 IH2].
      split.
      * rewrite join_cons by apply split_max_aux_nonempty. rewrite IH1. reflexivity.
      * intros k ->. destruct k as [|k]; [done|]. cbn [length].
        specialize (IH2 k eq_refl). lia.
    + assert (Hl : String.length s <= m) by (cbn in Hlen; lia).
      destruct (IH s n (cur +:+ String c EmptyString) Hl) as [IH1 IH2].
      split; [|exact IH2]. rewrite IH1. by rewrite string_app_assoc.
Qed.

(** X12: [ColorStr.split] keeps the text and the colour: the parts joined by
    the separator give the text back, every part carries the colour of the
    whole, and a bound on the number of splits bounds the number of
    parts. *)
Theorem ColorStr_split_join (s : string) (c : pyval) (sep : string) (maxsplit : Z)
    (parts : list text_t) :
  ColorStr.split s c sep maxsplit = Ok parts ->
  join sep (ColorStr.__str__ <$> parts) = s /\
  Forall (fun part => part = ColorStr (ColorStr.__str__ part) c) parts /\
  ((0 <= maxsplit)%Z -> (Z.of_nat (length parts) <= maxsplit + 1)%Z).
Proof.
  unfold ColorStr.split, ColorStr.str_split.
  destruct (String.eqb_spec sep EmptyString) as [->|Hsep]; [discriminate|].
  cbn [mbind res_bind]. intros [= <-].
  set (n := if (maxsplit <? 0)%Z then None else Some (Z.to_nat maxsplit)).
  destruct (split_max_aux_join sep (String.length s) Hsep s n EmptyString (le_n _))
    as [Hjoin Hlen].
  split; [|split].
  - change (List.map ?f ?l) with (f <$> l). rewrite <- list_fmap_compose.
    rewrite <- Hjoin at 2. f_equal. rewrite <- (list_fmap_id (ColorStr.split_max_aux _ _ _ _ _)) at 2.
    by apply list_fmap_ext.
  - apply Forall_forall. intros part Hin. apply list_elem_of_In in Hin.
    apply in_map_iff in Hin as (t & <- & _). reflexivity.
  - intros Hm. rewrite length_map. subst n.
    destruct (Z.ltb_spec maxsplit 0); [lia|]. specialize (Hlen _ eq_refl). lia.
Qed.

Lemma ColorStr_split_join_witness :
  exists parts,
    ColorStr.split "###X#" (VStr "red") "X" 1 = Ok parts /\
    join "X" (ColorStr.__str__ <$> parts) = "###X#".
Proof.
  eexists. split; [reflexivity|].
  exact (proj1 (ColorStr_split_join "###X#" (VStr "red") "X" 1 _ eq_refl)).
Defined.

(** ** The boxes of the concentration plot *)

Lemma format_level_ranges_ok (cmap : float -> pyval) (levels : list float)
    (extend : string) :
  levels <> [] -> extend ∈ extend_modes ->
  exists p labels,
    store_properties cmap levels extend = Ok p /\
    _format_level_ranges p = Ok labels /\
    length labels = length (colors p) /\
    length labels = n_ranges (length levels) extend.
Proof.
  intros Hne He.
  destruct (first_last_level levels Hne) as [[l0 H0] [ln Hn]].
  assert (0 < length levels)%nat as Hlen by (destruct levels; [done | cbn; lia]).
  pose proof (slice_lengths levels) as (_ & Hs1 & Hs2).
  pose proof (slice_lengths (cmap <$> linspace01 (length levels + 1))) as (Hc0 & Hc1 & Hc2).
  rewrite length_fmap, linspace01_length in Hc0, Hc1, Hc2.
  unfold extend_modes in He.
  repeat (apply elem_of_cons in He as [->|He]); [..|by apply elem_of_nil in He].
  all: unfold store_properties; cbn [colors_by_extend mbind res_bind];
    eexists _, _; split; [reflexivity|];
    unfold _format_level_ranges, n_ranges;
    cbn [FlexPlotConcentration.levels FlexPlotConcentration.extend
         FlexPlotConcentration.colors bool_decide decide_rel];
    rewrite ?H0, ?Hn.
  all: repeat match goal with
             | |- context [bool_decide ?P] =>
                 let b := eval vm_compute in (bool_decide P) in
                 change (bool_decide P) with b
             end;
    cbn [mbind res_bind app].
  all: match goal with
       | |- (if (length ?L =? ?C)%nat then _ else _) = _ /\ _ =>
           assert (length L = C) as HL
             by (repeat (progress cbn [length] || rewrite length_app
                         || rewrite length_zip_with);
                 rewrite Hs1, Hs2, ?Hc0, ?Hc1, ?Hc2, ?length_fmap, ?linspace01_length; lia);
           rewrite (proj2 (Nat.eqb_eq _ _) HL);
           split; [reflexivity | split; [exact HL |]]
       end.
  all: repeat (progress cbn [length] || rewrite length_app || rewrite length_zip_with);
    rewrite Hs1, Hs2; lia.
Qed.

Lemma split_lines_pairs (ls rs : list text_t) :
  length ls = length rs ->
  split_lines (zip_with (fun l r => LSeq [l; r]) ls rs) = Ok (ls, rs).
Proof.
  revert rs. induction ls as [|l ls IH]; intros [|r rs] Hlen; try discriminate; [done|].
  cbn. rewrite IH by (cbn in Hlen; lia). reflexivity.
Qed.

Lemma omap_flat_map {A B C} (f : B -> option C) (g : A -> list B) (h : A -> C) (l : list A) :
  (forall a, omap f (g a) = [h a]) -> omap f (flat_map g l) = h <$> l.
Proof.
  intros H. induction l as [|a l IH]; [reflexivity|].
  cbn. rewrite omap_app, H, IH. reflexivity.
Qed.

Lemma sched_lines_snd {A} (dy_line : float) (block : list A) (dy : float) :
  snd <$> (sched_lines dy_line block dy).1 = block.
Proof.
  revert dy. induction block as [|a block IH]; intros dy; [reflexivity|].
  cbn. specialize (IH (dy + dy_line)%float).
  destruct (sched_lines dy_line block _). cbn in *. by rewrite IH.
Qed.

Lemma schedule_single_snd {A} (dy0 dy_line dy_block : option float) (block : list A) :
  snd <$> schedule dy0 dy_line dy_block false [block] = block.
Proof.
  unfold schedule. cbn [sched_blocks].
  pose proof (sched_lines_snd (default 2.5%float dy_line) block
                (default (default 2.5%float dy_line) dy0)) as H.
  destruct (sched_lines _ block _). cbn in *. by rewrite app_nil_r.
Qed.

Lemma omap_row_calls (self : FlexAxesTextBox.t) (dx : option float) (kw : kwargs)
    (ha va : string) (x0 y0 : float) (c : pyval) (row : float * text_t) :
  omap text_and_color (row_calls self dx kw ha va x0 y0 c row)
  = [(row.2, Some (drawn_color c row.2))].
Proof.
  unfold row_calls, line_calls, line_kwargs. cbn [omap list_omap text_and_color].
  assert (omap text_and_color
            (if _show_baseline self
             then [ax_axhline (y0 + row.1 * FlexAxesTextBox.dy self)
                              (_baseline_kwargs self)]
             else []) = []) as -> by by destruct (_show_baseline self).
  destruct row as [d [s|s c']]; cbn.
  - rewrite !lookup_insert_ne by done. by rewrite lookup_insert_eq.
  - by rewrite lookup_insert_eq.
Qed.

(** The texts of a block of pairs that [text_blocks_hfill] draws, with
    their colours: all left parts, then all right parts. *)
Lemma hfill_pairs (self : FlexAxesTextBox.t) (loc_y : loc_param) (ls rs : list text_t)
    (dy0 dy_line : option float) (dx : option float) (kw : kwargs) :
  no_alignment kw ->
  length ls = length rs ->
  let r := text_blocks_hfill self loc_y
             (BlocksList [BList (zip_with (fun l r => LSeq [l; r]) ls rs)])
             dy0 dy_line None false None dx kw in
  r.2 = Ok None /\
  omap text_and_color r.1 =
    ((fun s => (s, Some (drawn_color (pop_color kw).1 s))) <$> (ls ++ rs))%list.
Proof.
  intros Hkw Hlen r. subst r. unfold text_blocks_hfill.
  cbn [flatten_blocks mbind list_bind app block_lines split_blocks].
  rewrite (split_lines_pairs ls rs Hlen). cbn [mbind res_bind].
  rewrite trace_bind_lift_Ok.
  rewrite (text_blocks_calls self (LocStr "bl") [ls] dy0 dy_line None false dx kw
             "left" "baseline" (0.0 + FlexAxesTextBox.dx self)%float
             (0.0 + FlexAxesTextBox.dy self)%float eq_refl Hkw).
  rewrite trace_bind_Ok.
  rewrite (text_blocks_calls self (LocStr "br") [rs] dy0 dy_line None false
             (PrimFloat.opp <$> dx) kw
             "right" "baseline" (1.0 - FlexAxesTextBox.dx self)%float
             (0.0 + FlexAxesTextBox.dy self)%float eq_refl Hkw).
  cbn [fst snd]. split; [reflexivity|].
  rewrite omap_app, fmap_app.
  rewrite !(omap_flat_map _ _ (fun row => (row.2, Some (drawn_color (pop_color kw).1 row.2))))
    by (intros; apply omap_row_calls).
  assert (forall rows : list (float * text_t),
            (fun row : float * text_t =>
               (row.2, Some (drawn_color (pop_color kw).1 row.2))) <$> rows
            = (fun s => (s, Some (drawn_color (pop_color kw).1 s))) <$> (snd <$> rows))
    as Hrows by (intros; by rewrite <- list_fmap_compose).
  by rewrite !Hrows, !schedule_single_snd.
Qed.

(** X13: The legend of the concentration plot: for a ladder of levels with at
    least one colour, [fill_box_top_right] returns, and it draws the title,
    then a mark [###] in the colour of each range, then the label of each
    range in black. *)
Theorem fill_box_top_right_legend (cmap : float -> pyval) (levels : list float)
    (extend : string) (box : FlexAxesTextBox.t) :
  levels <> [] -> extend ∈ extend_modes ->
  (0 < n_ranges (length levels) extend)%nat ->
  exists p labels,
    store_properties cmap levels extend = Ok p /\
    _format_level_ranges p = Ok labels /\
    (fill_box_top_right p box).2 = Ok tt /\
    omap text_and_color (fill_box_top_right p box).1 =
      ((Str "Concentration (Bq m$^-3$)", None)
       :: ((fun c => (ColorStr "###" c, Some c)) <$> colors p)
       ++ ((fun l => (Str l, Some (VStr "black"))) <$> labels))%list.
Proof.
  intros Hne He Hn.
  destruct (format_level_ranges_ok cmap levels extend Hne He) as (p & labels & Hp & Hl & Hlen & Hr).
  exists p, labels. split; [done|]. split; [done|].
  unfold fill_box_top_right. rewrite Hl.
  assert (Hva : is_str (requested_va "top" ({["size" := VStr "large"]} : kwargs))
                        "top_baseline" = false) by (vm_compute; reflexivity).
  rewrite (text_calls box (LocStr "tc") _ None None {["size" := VStr "large"]}
             "center" "top" 0.5%float (1.0 - FlexAxesTextBox.dy box)%float eq_refl Hva).
  rewrite trace_bind_Ok, trace_bind_lift_Ok.
  assert (exists parts,
            match colors p with
            | c :: _ => ColorStr.split "###" c "X" 1
            | [] => Raise index_error
            end = Ok parts) as [parts ->].
  { destruct (colors p); [cbn in Hlen; lia | by eexists]. }
  rewrite trace_bind_lift_Ok. unfold text_block_hfill.
  assert (Hkw : no_alignment ({["size" := VStr "medium"; "family" := VStr "monospace"]} : kwargs))
    by (repeat split; vm_compute; reflexivity).
  assert (Hlen' : length ((fun c => ColorStr "###" c) <$> colors p) = length (Str <$> labels))
    by (by rewrite !length_fmap).
  clear Hn Hr.
  pose proof (hfill_pairs box (LocStr "b") ((fun c => ColorStr "###" c) <$> colors p)
                (Str <$> labels) (Some 2.0%float) (Some 2.5%float) (Some 2.0%float) _
                Hkw Hlen') as [H2 H1].
  rewrite zip_with_fmap_l, zip_with_fmap_r in H1, H2.
  rewrite zip_with_fmap_l.
  destruct (text_blocks_hfill _ _ _ _ _ _ _ _ _ _) as [w r]. cbn [fst snd] in H1, H2. subst r.
  rewrite trace_bind_Ok. cbn [fst snd mret trace_ret]. split; [reflexivity|].
  rewrite app_nil_r. unfold line_calls. rewrite omap_app. rewrite H1.
  assert (omap text_and_color
            (if _show_baseline box
             then [ax_axhline (1.0 - FlexAxesTextBox.dy box + default 0.0 None
                               * FlexAxesTextBox.dy box)%float (_baseline_kwargs box)]
             else []) = []) as Hb by by destruct (_show_baseline box).
  cbn [omap list_omap text_and_color app]. rewrite Hb.
  cbn [app]. f_equal. rewrite fmap_app, <- !list_fmap_compose. reflexivity.
Qed.

Lemma fill_box_top_right_legend_witness :
  exists p labels,
    store_properties sample_cmap [1; 10; 100]%float "max" = Ok p /\
    _format_level_ranges p = Ok labels /\
    (fill_box_top_right p sample_box).2 = Ok tt.
Proof.
  assert (H1 : [1; 10; 100]%float <> []) by discriminate.
  assert (H2 : "max" ∈ extend_modes) by (unfold extend_modes; repeat constructor).
  assert (H3 : (0 < n_ranges (length [1; 10; 100]%float) "max")%nat) by (vm_compute; lia).
  destruct (fill_box_top_right_legend sample_cmap [1; 10; 100]%float "max" sample_box H1 H2 H3)
    as (p & labels & Hp & Hl & Hr & _).
  by exists p, labels.
Defined.

(** A ladder of one level that is not extended has no colour, and the
    legend fails when it reads the first colour label. *)
Example fill_box_top_right_no_color :
  exists p w,
    store_properties sample_cmap [1]%float "none" = Ok p /\
    fill_box_top_right p sample_box = (w, Raise index_error).
Proof. eexists _, _. split; reflexivity. Qed.

(** X14: The calls that the plot makes on its own boxes resolve their locations
    and split their lines: on every box, [fill_box_top] draws its five
    texts, [fill_box_bottom_right] the title and the two parts of each of
    its thirteen lines, and [add_sample_labels] its nine labels, and all
    of them return. *)
Theorem box_fillers_return (box : FlexAxesTextBox.t) :
  ((fill_box_top box).2 = Ok tt /\
   length (omap text_and_color (fill_box_top box).1) = 5%nat) /\
  ((fill_box_bottom_right box).2 = Ok tt /\
   length (omap text_and_color (fill_box_bottom_right box).1) = 27%nat) /\
  ((add_sample_labels box).2 = Ok tt /\
   length (omap text_and_color (add_sample_labels box).1) = 9%nat).
Proof.
  destruct box as [dx dy [|] kwb]; repeat split; vm_compute; reflexivity.
Qed.

(** ** The configuration and the boxes that read it *)

Lemma upper_ascii_idemp (c : ascii) : upper_ascii (upper_ascii c) = upper_ascii c.
Proof. destruct c as [[] [] [] [] [] [] [] []]; reflexivity. Qed.

Lemma capitalize_idemp (s : string) : capitalize (capitalize s) = capitalize s.
Proof. destruct s as [|c s]; [reflexivity|]. cbn. by rewrite upper_ascii_idemp. Qed.

Lemma dict_get_capitalize_texts (k : string) (d : dict string) :
  dict_get k (capitalize_texts d) = capitalize <$> dict_get k d.
Proof.
  unfold capitalize_texts. induction d as [|[k' v] d IH]; [reflexivity|].
  cbn. destruct (String.eqb k' k); [reflexivity|exact IH].
Qed.

Lemma capitalize_texts_fixed (d : dict string) :
  Forall (fun kv => capitalize kv.2 = kv.2) (capitalize_texts d).
Proof.
  unfold capitalize_texts. apply Forall_fmap, Forall_forall. intros [k v] _. cbn.
  apply capitalize_idemp.
Qed.

Lemma Ok_eq {A : Type} (a b : A) : (Ok a : res A) = Ok b -> a = b.
Proof. by intros [= ->]. Qed.

Section config.

Variable words : string -> string -> option string -> Word.
Variable symbols : string -> string.
Variable format_integr_period : MetaData -> InputSetup -> res string.
Variable format_level_label : MetaData -> res string.
Variable format_range : list Z -> string.
Variables (setup : InputSetup) (mdata : MetaData).

Local Abbreviation W := (words (lang setup)).

(** What the branches of [create_plot_config] leave of the number of levels
    and of the extend mode. *)
Lemma branch_input_variable_levels (l l' : Locals) :
  branch_input_variable format_level_label W setup mdata l = Ok l' ->
  extend_ l' = extend_ l /\
  (n_levels l' = n_levels l \/ n_levels l' = Some 8%Z \/ n_levels l' = Some 9%Z).
Proof.
  unfold branch_input_variable.
  destruct (String.eqb (input_variable setup) "concentration").
  - destruct (format_level_label mdata) as [level|]; [|discriminate]. cbn [mbind res_bind].
    destruct (integrate setup); intros [= <-]; cbn; auto.
  - destruct (String.eqb (input_variable setup) "deposition"); intros [= <-]; cbn; auto.
Qed.

Lemma branch_simulation_type_levels (d e : string) (l l' : Locals) :
  branch_simulation_type symbols W setup mdata d e l = Ok l' ->
  (n_levels l' = n_levels l /\ (extend_ l' = extend_ l \/ extend_ l' = Some "both")) \/
  (n_levels l' = Some 9%Z /\ extend_ l' = Some "both") \/
  (plot_variable setup = "affected_area_mono" /\
   simulation_type setup = "deterministic" /\
   n_levels l' = Some 1%Z /\ extend_ l' = Some "none").
Proof.
  unfold branch_simulation_type, branch_ens_variable, use_variable_rel.
  repeat match goal with
         | |- context [String.eqb ?a ?b] => destruct (String.eqb_spec a b)
         | |- context [String.prefix ?a ?b] => destruct (String.prefix a b)
         | |- context [bool_decide ?P] => destruct (bool_decide P)
         | |- context [variable_rel ?x] => destruct (variable_rel x) eqn:?
         end; cbn; try discriminate; intros [= <-]; cbn; auto 10.
Qed.

(** What a configuration that [create_plot_config] returns is made of. *)
Lemma create_plot_config_inv (c : ConfigDct) :
  create_plot_config words symbols format_integr_period format_level_label format_range
    setup mdata = Ok c ->
  (exists (l0 l1 l : Locals) (d e : string),
     branch_input_variable format_level_label W setup mdata l0 = Ok l1 /\
     n_levels l0 = None /\ extend_ l0 = None /\
     branch_simulation_type symbols W setup mdata d e l1 = Ok l /\
     n_levels l = Some (dct_n_levels c) /\ dct_extend c = extend_ l /\
     (if String.eqb (plot_variable setup) "affected_area_mono"
      then dct_colors c = [VRGB (200 / 255) (200 / 255) (200 / 255)]
      else exists cs,
             colors_flexplot (dct_n_levels c) (default "max" (extend_ l)) = Ok cs /\
             dct_colors c = VStr <$> cs)) /\
  fst <$> top (dct_labels c) = ["tl"; "bl"; "tr"; "br"] /\
  (forall k, k ∈ ["title_unit"; "max"; "site"] ->
             is_Some (dict_get k (right_middle (dct_labels c)))) /\
  Forall (Forall (fun kv => capitalize kv.2 = kv.2)) (label_groups (dct_labels c)) /\
  (exists title lines,
     right_top (dct_labels c) = [("title", L (capitalize title));
                                 ("lines", Lines (capitalize <$> lines))]) /\
  dct_markers c = markers_fixed.
Proof.
  unfold create_plot_config.
  destruct (format_integr_period mdata setup) as [integr|]; [|discriminate].
  cbn [mbind res_bind]. unfold format_coord_label.
  cbn [String.eqb Ascii.eqb Bool.eqb mbind res_bind].
  match goal with
  | |- context [branch_input_variable _ _ _ _ ?l0] =>
      destruct (branch_input_variable format_level_label W setup mdata l0) as [l1|] eqn:H1;
      [|discriminate]
  end.
  cbn [mbind res_bind].
  match goal with
  | |- context [branch_simulation_type _ _ _ _ ?d ?e l1] =>
      destruct (branch_simulation_type symbols W setup mdata d e l1) as [l|] eqn:H2;
      [|discriminate]
  end.
  cbn [mbind res_bind].
  destruct (String.eqb (short_name l) EmptyString); [discriminate|].
  cbn [mbind res_bind].
  destruct (String.eqb (long_name l) EmptyString); [discriminate|].
  cbn [mbind res_bind capitalize_labels capitalize_label String.eqb Ascii.eqb Bool.eqb].
  destruct (n_levels l) as [n|] eqn:Hn; [|discriminate]. cbn [mbind res_bind].
  intros Hc.
  assert (exists colors,
            c = mk_dct (dct_labels c) n (model_info l) (extend_ l) (dct_legend_rstrip_zeros c)
                  (dct_level_range_style c) (dct_level_ranges_align c) (dct_mark_field_max c)
                  (dct_levels_scale c) (d_level l) colors markers_fixed /\
            (if String.eqb (plot_variable setup) "affected_area_mono"
             then colors = [VRGB (200 / 255) (200 / 255) (200 / 255)]
             else exists cs, colors_flexplot n (default "max" (extend_ l)) = Ok cs /\
                             colors = VStr <$> cs)) as (colors & Hrec & Hcolors).
  { destruct (String.eqb (plot_variable setup) "affected_area_mono"); cbn [mbind res_bind] in Hc.
    - apply Ok_eq in Hc; subst c. by eexists.
    - destruct (colors_flexplot n (default "max" (extend_ l))) as [cs|]; [|discriminate].
      apply Ok_eq in Hc; subst c. eexists. split; [reflexivity|]. by exists cs. }
  assert (Hlabels : exists tl bl tr br rm rb bt title lines,
            dct_labels c = mk_labels
              (capitalize_texts (dict_set "tl" tl [("tl", EmptyString); ("bl", bl);
                                                    ("tr", tr); ("br", br)]))
              [("title", L (capitalize title)); ("lines", Lines (capitalize <$> lines))]
              (capitalize_texts
                 (dict_set "unit" (unit_ l)
                    (dict_set "title_unit" (short_name l +:+ " (" +:+ unit_ l +:+ ")")
                       (dict_set "title" (short_name l) rm))))
              (capitalize_texts rb) (capitalize_texts bt) /\
            is_Some (dict_get "max" rm) /\ is_Some (dict_get "site" rm)).
  { destruct (String.eqb (plot_variable setup) "affected_area_mono"); cbn [mbind res_bind] in Hc.
    - apply Ok_eq in Hc; subst c. eexists _, _, _, _, _, _, _, _, _. split; [reflexivity|].
      destruct (right_middle_tc l);
        rewrite ?dict_get_set_ne by done; split; by eexists.
    - destruct (colors_flexplot n (default "max" (extend_ l))) as [cs|]; [|discriminate].
      apply Ok_eq in Hc; subst c. eexists _, _, _, _, _, _, _, _, _. split; [reflexivity|].
      destruct (right_middle_tc l);
        rewrite ?dict_get_set_ne by done; split; by eexists. }
  destruct Hlabels as (tl & bl & tr & br & rm & rb & bt & title & lines & Hl & Hmax & Hsite).
  clear Hc. rewrite Hrec. cbn [dct_labels dct_n_levels dct_extend dct_colors dct_markers].
  rewrite Hl. cbn [top right_middle right_top label_groups].
  split; [|split; [|split; [|split; [|split]]]].
  - eexists _, l1, l, _, _. split; [exact H1|]. split; [reflexivity|]. split; [reflexivity|].
    split; [exact H2|]. split; [exact Hn|]. split; [reflexivity|]. exact Hcolors.
  - reflexivity.
  - intros k Hk. rewrite dict_get_capitalize_texts.
    repeat (apply elem_of_cons in Hk as [->|Hk]); [..|by apply elem_of_nil in Hk].
    + rewrite dict_get_set_ne by done. rewrite dict_get_set_eq. by eexists.
    + rewrite !dict_get_set_ne by done. destruct Hmax as [x ->]. by eexists.
    + rewrite !dict_get_set_ne by done. destruct Hsite as [x ->]. by eexists.
  - do 4 (constructor; [apply capitalize_texts_fixed|]). constructor.
  - by exists title, lines.
  - reflexivity.
Qed.

(** X15: the colours of a configuration that [create_plot_config]
    returns.  For every plot variable other than [affected_area_mono] it
    holds 8 or 9 levels, extends the levels upwards or to both sides, and
    has one colour per level, and one more when it extends to both sides.
    For [affected_area_mono] it holds the single gray colour: with one
    level and no extension when the simulation is deterministic, but with
    the 8 or 9 levels of the input variable, extended upwards or to both
    sides, for any other simulation, where the colour does not match the
    levels. *)
Theorem create_plot_config_colors (c : ConfigDct) :
  create_plot_config words symbols format_integr_period format_level_label format_range
    setup mdata = Ok c ->
  if String.eqb (plot_variable setup) "affected_area_mono"
  then dct_colors c = [VRGB (200 / 255) (200 / 255) (200 / 255)] /\
       if String.eqb (simulation_type setup) "deterministic"
       then dct_n_levels c = 1%Z /\ dct_extend c = Some "none"
       else dct_n_levels c ∈ [8%Z; 9%Z] /\ dct_extend c ∈ [None; Some "both"]
  else dct_n_levels c ∈ [8%Z; 9%Z] /\
       dct_extend c ∈ [None; Some "both"] /\
       Z.of_nat (length (dct_colors c)) =
         (dct_n_levels c + match dct_extend c with Some _ => 1 | None => 0 end)%Z.
Proof.
  intros Hc. apply create_plot_config_inv in Hc as [Hc _].
  destruct Hc as (l0 & l1 & l & d & e & H1 & Hn0 & He0 & H2 & Hn & He & Hcol).
  apply branch_input_variable_levels in H1 as [He1 Hn1]. rewrite Hn0 in Hn1. rewrite He0 in He1.
  assert (Hlevels : (exists k, n_levels l1 = Some k /\ n_levels l = Some k \/
                               n_levels l = Some 9%Z) ->
                    dct_n_levels c = 8%Z \/ dct_n_levels c = 9%Z).
  { intros [k [[Hk1 Hk]|Hk]]; rewrite Hk in Hn; injection Hn as <-; [|auto].
    destruct Hn1 as [Hn1|[Hn1|Hn1]]; rewrite Hn1 in Hk1; [discriminate| |];
      injection Hk1 as <-; auto. }
  assert (Hgeneral : ~ (plot_variable setup = "affected_area_mono" /\
                        simulation_type setup = "deterministic") ->
                     (dct_n_levels c = 8%Z \/ dct_n_levels c = 9%Z) /\
                     (extend_ l = None \/ extend_ l = Some "both")).
  { intros Hno. apply branch_simulation_type_levels in H2.
    destruct H2 as [[Hn2 He2]|[[Hn2 He2]|(Hm' & Hd' & _)]]; [| |by destruct Hno].
    - rewrite He1 in He2. split; [|exact He2]. apply Hlevels.
      rewrite Hn2 in Hn. rewrite Hn in Hn2. exists (dct_n_levels c). left. by split.
    - split; [|by right]. apply Hlevels. exists 0%Z. by right. }
  destruct (String.eqb_spec (plot_variable setup) "affected_area_mono") as [Hm|Hm].
  - split; [exact Hcol|].
    destruct (String.eqb_spec (simulation_type setup) "deterministic") as [Hdet|Hdet].
    + revert H2. unfold branch_simulation_type, use_variable_rel. rewrite Hdet, Hm. cbn.
      destruct (variable_rel l1); [|discriminate]. cbn. intros [= <-]. cbn in Hn, He.
      split; [congruence|exact He].
    + destruct Hgeneral as [Hn' He']; [by intros [_ ?]|]. rewrite He.
      split; [destruct Hn' as [-> | ->]; repeat constructor
             |destruct He' as [-> | ->]; repeat constructor].
  - destruct Hcol as (cs & Hcs & ->). rewrite length_fmap. rewrite He.
    destruct Hgeneral as [Hn' He']; [by intros [? _]|].
    destruct Hn' as [Hn'|Hn'], He' as [He'|He']; rewrite Hn', He' in *;
      vm_compute in Hcs; injection Hcs as <-;
      (split; [repeat constructor|]); (split; [repeat constructor|]); reflexivity.
Qed.

Lemma fill_box_top_items_calls (plot : BoxedPlot) (items : dict string) :
  Plots.fill_box_top_items plot items =
    ((fun kv : string * string =>
        box_text kv.2 (kw_add
          [("loc", VStr kv.1); ("fontname", font_name (config plot));
           ("size", if String.eqb kv.1 "tl" then title_large (font_sizes (config plot))
                    else content_large (font_sizes (config plot)))] ∅)) <$> items, Ok tt).
Proof.
  induction items as [|[position label] items IH]; [reflexivity|].
  cbn [Plots.fill_box_top_items]. rewrite emit_bind, IH. reflexivity.
Qed.

(** X16: on a plot that holds the labels of a configuration returned by
    [create_plot_config], [fill_box_top] returns after exactly four texts,
    at the locations tl, bl, tr and br in this order; the first one alone
    has the large title size, the others the large content size; and each
    text is capitalized. *)
Theorem fill_box_top_on_config (c : ConfigDct) (plot : BoxedPlot) :
  create_plot_config words symbols format_integr_period format_level_label format_range
    setup mdata = Ok c ->
  built_from c plot ->
  let fs := font_sizes (config plot) in
  exists tl bl tr br : string,
    (Plots.fill_box_top plot).2 = Ok tt /\
    omap box_text_summary (Plots.fill_box_top plot).1 =
      [(tl, Some (VStr "tl"), Some (title_large fs));
       (bl, Some (VStr "bl"), Some (content_large fs));
       (tr, Some (VStr "tr"), Some (content_large fs));
       (br, Some (VStr "br"), Some (content_large fs))] /\
    length (Plots.fill_box_top plot).1 = 4%nat /\
    Forall (fun s => capitalize s = s) [tl; bl; tr; br].
Proof.
  intros Hc [Hl _] fs. apply create_plot_config_inv in Hc as (_ & Htop & _ & Hcap & _).
  unfold Plots.fill_box_top. rewrite fill_box_top_items_calls, Hl.
  unfold label_groups in Hcap. apply Forall_cons_1 in Hcap as [Hcap _].
  destruct (top (dct_labels c)) as [|[k1 tl] [|[k2 bl] [|[k3 tr] [|[k4 br] [|? ?]]]]];
    try discriminate Htop.
  injection Htop as -> -> -> ->. exists tl, bl, tr, br.
  split; [reflexivity|]. split; [reflexivity|]. split; [reflexivity|].
  do 4 (apply Forall_cons_1 in Hcap as [? Hcap]). by repeat constructor.
Qed.

(** X17: on a plot that holds the labels and the markers of a
    configuration returned by [create_plot_config], [fill_box_right_middle]
    returns: the title, the labels and the marker styles that it looks up
    are all there, whichever markers the plot asks for. *)
Theorem fill_box_right_middle_on_config
    (format_level_ranges : list float -> string -> string -> bool -> string -> list string)
    (c : ConfigDct) (plot : BoxedPlot) :
  create_plot_config words symbols format_integr_period format_level_label format_range
    setup mdata = Ok c ->
  built_from c plot ->
  (fill_box_right_middle format_level_ranges plot).2 = Ok tt.
Proof.
  intros Hc [Hl Hm]. apply create_plot_config_inv in Hc as (_ & _ & Hrm & _ & _ & Hmk).
  rewrite <- Hl in Hrm. rewrite Hmk in Hm.
  destruct (Hrm "title_unit") as [title_unit Ht]; [repeat constructor|].
  destruct (Hrm "max") as [label_max Hmax]; [repeat constructor|].
  destruct (Hrm "site") as [label_site Hsite]; [repeat constructor|].
  unfold fill_box_right_middle, assert_markers, dict_item. rewrite Ht, Hm, Hmax, Hsite.
  match goal with
  | |- context [legend_color_boxes ?a ?b ?c ?d ?e ?f] =>
      destruct (legend_color_boxes_ok a b c d e f) as [Hok _];
      destruct (legend_color_boxes a b c d e f) as [w r]
  end.
  cbn [fst snd] in Hok. subst r.
  destruct (mark_field_max (config plot)), (mark_release_site (config plot));
    by repeat first [ rewrite trace_bind_lift_Ok | rewrite emit_bind | rewrite trace_bind_Ok
                    | progress cbn [fst snd mret trace_ret markers_fixed dict_get String.eqb
                                    Ascii.eqb Bool.eqb] ].
Qed.

(** X18: every text among the labels of a configuration returned by
    [create_plot_config] is capitalized: the labels of the boxes at the
    top, the right middle, the right bottom and the bottom, and the title
    and every line of the right top box. *)
Theorem create_plot_config_capitalized (c : ConfigDct) :
  create_plot_config words symbols format_integr_period format_level_label format_range
    setup mdata = Ok c ->
  Forall (fun s => capitalize s = s) (label_texts (dct_labels c)).
Proof.
  intros Hc. apply create_plot_config_inv in Hc as (_ & _ & _ & Hcap & (title & lines & Hrt) & _).
  unfold label_texts. apply Forall_app. split.
  - apply Forall_fmap, Forall_concat. exact Hcap.
  - rewrite Hrt. cbn. rewrite app_nil_r. constructor; [apply capitalize_idemp|].
    apply Forall_fmap, Forall_forall. intros x _. apply capitalize_idemp.
Qed.

End config.

Lemma create_plot_config_colors_witness :
  (exists c,
     sample_create_plot_config (sample_setup "probability") sample_mdata = Ok c /\
     dct_n_levels c ∈ [8%Z; 9%Z] /\
     dct_extend c ∈ [None; Some "both"] /\
     Z.of_nat (length (dct_colors c)) =
       (dct_n_levels c + match dct_extend c with Some _ => 1 | None => 0 end)%Z) /\
  (exists c,
     sample_create_plot_config sample_setup_mono sample_mdata = Ok c /\
     dct_colors c = [VRGB (200 / 255) (200 / 255) (200 / 255)] /\
     dct_n_levels c ∈ [8%Z; 9%Z] /\ dct_extend c ∈ [None; Some "both"]).
Proof.
  split.
  - assert (H : exists c,
               sample_create_plot_config (sample_setup "probability") sample_mdata = Ok c)
      by (eexists; vm_compute; reflexivity).
    destruct H as [c H]. exists c. split; [exact H|].
    exact (create_plot_config_colors _ _ _ _ _ _ _ c H).
  - assert (H : exists c, sample_create_plot_config sample_setup_mono sample_mdata = Ok c)
      by (eexists; vm_compute; reflexivity).
    destruct H as [c H]. exists c. split; [exact H|].
    exact (create_plot_config_colors _ _ _ _ _ _ _ c H).
Defined.

Lemma fill_box_top_on_config_witness :
  exists c,
    sample_create_plot_config (sample_setup "mean") sample_mdata = Ok c /\
    built_from c (sample_plot_of c) /\
    length (Plots.fill_box_top (sample_plot_of c)).1 = 4%nat.
Proof.
  assert (H : exists c, sample_create_plot_config (sample_setup "mean") sample_mdata = Ok c)
    by (eexists; vm_compute; reflexivity).
  destruct H as [c H]. exists c. split; [exact H|].
  assert (Hb : built_from c (sample_plot_of c)) by (split; reflexivity).
  split; [exact Hb|].
  destruct (fill_box_top_on_config _ _ _ _ _ _ _ c (sample_plot_of c) H Hb)
    as (tl & bl & tr & br & _ & _ & Hlen & _).
  exact Hlen.
Defined.

Lemma fill_box_right_middle_on_config_witness :
  exists c,
    sample_create_plot_config (sample_setup "cloud_arrival_time") sample_mdata = Ok c /\
    built_from c (sample_plot_of c) /\
    (fill_box_right_middle sample_format_level_ranges (sample_plot_of c)).2 = Ok tt.
Proof.
  assert (H : exists c,
             sample_create_plot_config (sample_setup "cloud_arrival_time") sample_mdata = Ok c)
    by (eexists; vm_compute; reflexivity).
  destruct H as [c H]. exists c. split; [exact H|].
  assert (Hb : built_from c (sample_plot_of c)) by (split; reflexivity).
  split; [exact Hb|].
  exact (fill_box_right_middle_on_config _ _ _ _ _ _ _ sample_format_level_ranges c
           (sample_plot_of c) H Hb).
Defined.

Lemma create_plot_config_capitalized_witness :
  exists c,
    sample_create_plot_config (sample_setup "median") sample_mdata = Ok c /\
    Forall (fun s => capitalize s = s) (label_texts (dct_labels c)).
Proof.
  assert (H : exists c, sample_create_plot_config (sample_setup "median") sample_mdata = Ok c)
    by (eexists; vm_compute; reflexivity).
  destruct H as [c H]. exists c. split; [exact H|].
  exact (create_plot_config_capitalized _ _ _ _ _ _ _ c H).
Defined.

(** ** The bounding box of the map (plot.py) *)

Section bbox.

Import FlexAxesMapRotatedPole.

Lemma mul_zero_r (d : float) : finite_float d -> exists s, Prim2SF (d * 0) = S754_zero s.
Proof.
  unfold finite_float. rewrite FloatAxioms.mul_spec.
  destruct (Prim2SF d) as [s|s| |s m e]; try done; intros _; by eexists.
Qed.

Lemma add_zero_r (x z : float) (s : bool) :
  proper_float x -> Prim2SF z = S754_zero s -> (x + z)%float = x.
Proof.
  unfold proper_float. intros Hx Hz. apply FloatAxioms.Prim2SF_inj.
  rewrite FloatAxioms.add_spec, Hz.
  destruct (Prim2SF x) as [[|]|sx| |sx m e]; try done. by destruct s.
Qed.

Lemma opp_zero (z : float) (s : bool) :
  Prim2SF z = S754_zero s -> Prim2SF (- z) = S754_zero (negb s).
Proof. intros Hz. by rewrite FloatAxioms.opp_spec, Hz. Qed.

(** X19: [padded_bbox] pads both directions by a fraction of the extent in
    longitude: the left and the right edge move outwards by [px] times the
    extent in longitude, and the lower and the upper edge by [py] times the
    extent in longitude, not in latitude.  A single number serves as both
    factors, and the entry [bbox_pad_rel] of the configuration, when there
    is one, is used instead of the argument.  With the factor 0 the result
    is the data domain itself, when its corners are finite numbers other
    than the negative zero and its extent in longitude is finite. *)
Theorem padded_bbox_extent (rlat rlon : list float) (conf_bbox_pad_rel : option pad_rel_t)
    (pad_rel : pad_rel_t) (lon0 lon1 lat0 lat1 px py : float) :
  first_last rlon = Ok (lon0, lon1) ->
  first_last rlat = Ok (lat0, lat1) ->
  default pad_rel conf_bbox_pad_rel = PadNum px /\ py = px \/
  default pad_rel conf_bbox_pad_rel = PadSeq [px; py] ->
  let padx := ((lon1 - lon0) * px)%float in
  let pady := ((lon1 - lon0) * py)%float in
  padded_bbox rlat rlon conf_bbox_pad_rel pad_rel
    = Ok [lon0 + - padx; lon1 + padx; lat0 + - pady; lat1 + pady]%float /\
  (px = 0%float -> py = 0%float ->
   finite_float (lon1 - lon0) -> Forall proper_float [lon0; lon1; lat0; lat1] ->
   padded_bbox rlat rlon conf_bbox_pad_rel pad_rel = Ok [lon0; lon1; lat0; lat1]).
Proof.
  intros Hlon Hlat Hpad padx pady.
  assert (Hbox : padded_bbox rlat rlon conf_bbox_pad_rel pad_rel
                 = Ok [lon0 + - padx; lon1 + padx; lat0 + - pady; lat1 + pady]%float).
  { unfold padded_bbox. rewrite Hlon, Hlat. cbn [mbind res_bind].
    by destruct Hpad as [[-> ->]| ->]. }
  split; [exact Hbox|]. intros Hpx Hpy Hd Hproper. rewrite Hbox. subst padx pady px py.
  destruct (mul_zero_r _ Hd) as [s Hs].
  apply Forall_cons_1 in Hproper as [H0 Hproper]. apply Forall_cons_1 in Hproper as [H1 Hproper].
  apply Forall_cons_1 in Hproper as [H2 Hproper]. apply Forall_cons_1 in Hproper as [H3 _].
  by rewrite (add_zero_r lon0 _ _ H0 (opp_zero _ _ Hs)), (add_zero_r lon1 _ _ H1 Hs),
       (add_zero_r lat0 _ _ H2 (opp_zero _ _ Hs)), (add_zero_r lat1 _ _ H3 Hs).
Qed.

Lemma padded_bbox_extent_witness :
  padded_bbox [-4.4; 0; 3.4]%float [-6.8; 0; 4.8]%float None (PadNum 0.01)
    = Ok [-6.8 + - ((4.8 - -6.8) * 0.01); 4.8 + (4.8 - -6.8) * 0.01;
          -4.4 + - ((4.8 - -6.8) * 0.01); 3.4 + (4.8 - -6.8) * 0.01]%float /\
  padded_bbox [-4.4; 0; 3.4]%float [-6.8; 0; 4.8]%float (Some (PadSeq [0; 0]%float)) (PadNum 0.01)
    = Ok [-6.8; 4.8; -4.4; 3.4]%float.
Proof.
  split.
  - apply (padded_bbox_extent [-4.4; 0; 3.4]%float [-6.8; 0; 4.8]%float None (PadNum 0.01)
             (-6.8) 4.8 (-4.4) 3.4 0.01 0.01 eq_refl eq_refl).
    left. by split.
  - apply (padded_bbox_extent [-4.4; 0; 3.4]%float [-6.8; 0; 4.8]%float
             (Some (PadSeq [0; 0]%float)) (PadNum 0.01)
             (-6.8) 4.8 (-4.4) 3.4 0 0 eq_refl eq_refl);
      [by right | reflexivity | reflexivity | by vm_compute | repeat constructor; by vm_compute].
Defined.

End bbox.

(** ** The format keys of the file path (plot.py) *)

Section file_path.

Import FlexPlotter.

Lemma strip_prefix_spec (p s r : string) : strip_prefix p s = Some r <-> s = p +:+ r.
Proof.
  revert s. induction p as [|a p IH]; intros s; cbn.
  - split; [by intros [= ->] | by intros ->].
  - destruct s as [|b s]; [by split|]. destruct (Ascii.eqb_spec a b) as [->|Hab].
    + rewrite IH. split; [by intros -> | by intros [= ->]].
    + split; [done | intros [= <- _]; done].
Qed.

Lemma one_line_cons (c : ascii) (s : string) :
  one_line (String c s) <-> c <> "010"%char /\ one_line s.
Proof.
  unfold one_line. cbn. split.
  - intros H. split; [apply H; left | intros c' Hc'; apply H; by right].
  - intros [H1 H2] c' [->|Hc']%elem_of_cons; [exact H1 | by apply H2].
Qed.

Lemma brace_in_line_spec (rest : string) :
  brace_in_line rest = true <->
  exists spec post, rest = spec +:+ "}" +:+ post /\ one_line spec.
Proof.
  split.
  - induction rest as [|c rest IH]; cbn; [done|].
    destruct (Ascii.eqb_spec c "}") as [->|Hc].
    + intros _. exists EmptyString, rest. split; [reflexivity|]. intros c Hc. inversion Hc.
    + destruct (Ascii.eqb_spec c "010") as [->|Hn]; [done|].
      intros (spec & post & -> & Hspec)%IH. exists (String c spec), post.
      split; [reflexivity|]. by apply one_line_cons.
  - intros (spec & post & -> & Hspec). induction spec as [|c spec IH]; [reflexivity|].
    apply one_line_cons in Hspec as [Hc Hspec]. rewrite string_app_cons.
    cbn [brace_in_line]. destruct (Ascii.eqb_spec c "}"); [done|].
    destruct (Ascii.eqb_spec c "010"); [done|]. by apply IH.
Qed.

Lemma rx_match_spec (name s : string) :
  rx_match name s = true <->
  exists post,
    s = "{" +:+ name +:+ "}" +:+ post \/
    exists spec, s = "{" +:+ name +:+ ":" +:+ spec +:+ "}" +:+ post /\ one_line spec.
Proof.
  unfold rx_match. split.
  - destruct (strip_prefix ("{" +:+ name) s) as [r|] eqn:Hr; [|done].
    apply strip_prefix_spec in Hr as ->. rewrite string_app_assoc.
    destruct r as [|c rest]; [done|].
    destruct (Ascii.eqb_spec c "}") as [->|Hc].
    + intros _. exists rest. by left.
    + destruct (Ascii.eqb_spec c ":") as [->|Hc']; [|done]. cbn [orb andb].
      intros (spec & post & -> & Hspec)%brace_in_line_spec. exists post. right. by exists spec.
  - intros [post [-> | (spec & -> & Hspec)]].
    + rewrite (proj2 (strip_prefix_spec ("{" +:+ name) _ ("}" +:+ post)))
        by (by rewrite string_app_assoc).
      reflexivity.
    + rewrite (proj2 (strip_prefix_spec ("{" +:+ name) _ (":" +:+ spec +:+ "}" +:+ post)))
        by (by rewrite string_app_assoc).
      cbn [String.append Ascii.eqb Bool.eqb orb andb].
      apply brace_in_line_spec. by exists spec, post.
Qed.

Lemma rx_search_spec (name s : string) :
  rx_search name s = true <-> has_format_key name s.
Proof.
  unfold has_format_key. split.
  - induction s as [|c s IH]; cbn [rx_search].
    + rewrite orb_false_r. intros [post H]%rx_match_spec. by exists EmptyString, post.
    + intros [[post H]%rx_match_spec | (pre & post & H)%IH]%orb_true_iff.
      * by exists EmptyString, post.
      * exists (String c pre), post. rewrite !string_app_cons.
        destruct H as [-> | (spec & -> & Hspec)]; [by left | right; by exists spec].
  - intros (pre & post & H).
    assert (Hm : exists suf, s = pre +:+ suf /\ rx_match name suf = true).
    { destruct H as [-> | (spec & -> & Hspec)]; eexists; (split; [reflexivity|]);
        apply rx_match_spec; exists post; [by left | right; by exists spec]. }
    clear H. destruct Hm as (suf & -> & Hm). induction pre as [|c pre IH].
    + change (rx_search name suf = true). destruct suf; cbn [rx_search]; by rewrite Hm.
    + rewrite string_app_cons. cbn [rx_search]. rewrite IH. apply orb_true_r.
Qed.

Lemma several_remove_dups `{EqDecision A} (l : list A) :
  (1 <? length (remove_dups l))%nat = true <-> several l.
Proof.
  unfold several. rewrite Nat.ltb_lt. split.
  - pose proof (NoDup_remove_dups l) as Hnd.
    pose proof (fun x => elem_of_remove_dups l x) as Hin.
    destruct (remove_dups l) as [|a [|b r]]; cbn; [lia..|]. intros _. exists a, b.
    split; [apply Hin; left|]. split; [apply Hin; right; left|].
    apply NoDup_cons in Hnd as [Hnd _]. intros ->. apply Hnd. left.
  - intros (a & b & Ha & Hb & Hab).
    apply elem_of_remove_dups in Ha, Hb.
    destruct (remove_dups l) as [|x [|y r]]; cbn; [inversion Ha| |lia].
    apply list_elem_of_singleton in Ha, Hb. congruence.
Qed.

Lemma _check_file_path_fmt__core_spec (values : string -> list key_val)
    (file_path_fmt name : string) :
  (_check_file_path_fmt__core values file_path_fmt name = Ok tt /\
   (several (values name) -> has_format_key name file_path_fmt)) \/
  (_check_file_path_fmt__core values file_path_fmt name = Raise (NameError "fmt_key") /\
   several (values name) /\ ~ has_format_key name file_path_fmt).
Proof.
  unfold _check_file_path_fmt__core.
  destruct (1 <? length (remove_dups (values name)))%nat eqn:Hs; cbn [andb].
  - apply several_remove_dups in Hs.
    destruct (rx_search name file_path_fmt) eqn:Hk; cbn [negb].
    + left. split; [reflexivity|]. intros _. by apply rx_search_spec.
    + right. split; [reflexivity|]. split; [exact Hs|].
      intros Hk'%rx_search_spec. congruence.
  - left. split; [reflexivity|]. intros Hs'%several_remove_dups. congruence.
Qed.

(** X20: [check_file_path_fmt] returns exactly when the file path holds the
    format key [{name}] or [{name:...}] of every variable that takes
    several values; in every other case it raises the [NameError] of the
    unbound name [fmt_key], never the exception with the message that it
    builds. *)
Theorem check_file_path_fmt_spec (values : string -> list key_val) (file_path_fmt : string) :
  (check_file_path_fmt values file_path_fmt = Ok tt <->
   forall name, name ∈ format_keys ->
                several (values name) -> has_format_key name file_path_fmt) /\
  (check_file_path_fmt values file_path_fmt = Ok tt \/
   check_file_path_fmt values file_path_fmt = Raise (NameError "fmt_key")).
Proof.
  unfold check_file_path_fmt, format_keys.
  assert (Hall : forall names,
            (mapM (_check_file_path_fmt__core values file_path_fmt) names ≫= (fun _ => Ok tt)
               = Ok tt /\
             forall name, name ∈ names ->
                          several (values name) -> has_format_key name file_path_fmt) \/
            (mapM (_check_file_path_fmt__core values file_path_fmt) names ≫= (fun _ => Ok tt)
               = Raise (NameError "fmt_key") /\
             exists name, name ∈ names /\ several (values name) /\
                          ~ has_format_key name file_path_fmt)).
  { induction names as [|n names IH].
    - left. split; [reflexivity|]. intros name Hn. inversion Hn.
    - cbn [mapM].
      destruct (_check_file_path_fmt__core_spec values file_path_fmt n)
        as [[-> Hn]|[-> Hn]]; cbn [mbind res_bind].
      + destruct IH as [[Hok IH]|[Hr (name & Hname & IH)]].
        * left. destruct (mapM _ names) as [us|]; [|discriminate Hok].
          split; [reflexivity|]. intros name [->|Hname]%elem_of_cons; auto.
        * right. destruct (mapM _ names) as [us|]; [discriminate Hr|].
          split; [exact Hr|]. exists name. split; [by right | exact IH].
      + right. split; [reflexivity|]. exists n. split; [left | exact Hn]. }
  destruct (Hall ["age_ind"; "relpt_ind"; "time_ind"; "level_ind"; "species_id"; "field_type"])
    as [[-> H]|[-> (name & Hname & Hs & Hk)]].
  - split; [by split | by left].
  - split; [|by right]. split; [discriminate|]. intros H. destruct Hk. by apply H.
Qed.

End file_path.

(** ** Saving the plot (plot.py) *)

Section saving.

Local Abbreviation chars := list_ascii_of_string.

Lemma chars_app (a b : string) : chars (a +:+ b) = (chars a ++ chars b)%list.
Proof. induction a as [|x a IH]; [reflexivity|]. rewrite string_app_cons. cbn. by rewrite IH. Qed.

Lemma chars_length (s : string) : length (chars s) = String.length s.
Proof. induction s as [|x s IH]; [reflexivity|]. cbn. by rewrite IH. Qed.

Lemma chars_inj (a b : string) : chars a = chars b -> a = b.
Proof.
  intros H. rewrite <- (string_of_list_ascii_of_string a), <- (string_of_list_ascii_of_string b).
  by rewrite H.
Qed.

Lemma rfind_aux_notin (c : ascii) (s : string) (i found : Z) :
  c ∉ chars s -> rfind_aux c i found s = found.
Proof.
  revert i found. induction s as [|x s IH]; intros i found Hc; [reflexivity|].
  cbn in Hc |- *. apply not_elem_of_cons in Hc as [Hx Hc]. rewrite IH by done.
  destruct (Ascii.eqb_spec x c); congruence.
Qed.

Lemma rfind_aux_last (c : ascii) (a b : string) (i found : Z) :
  c ∉ chars b -> rfind_aux c i found (a +:+ String c b) = (i + Z.of_nat (String.length a))%Z.
Proof.
  intros Hc. revert i found. induction a as [|x a IH]; intros i found.
  - change (EmptyString +:+ String c b) with (String c b). cbn [rfind_aux].
    rewrite rfind_aux_notin by done. rewrite Ascii.eqb_refl. cbn. lia.
  - rewrite string_app_cons. cbn [rfind_aux String.length]. rewrite IH. lia.
Qed.

Lemma rfind_aux_app_notin (c : ascii) (a b : string) (i found : Z) :
  c ∉ chars b -> rfind_aux c i found (a +:+ b) = rfind_aux c i found a.
Proof.
  intros Hc. revert i found. induction a as [|x a IH]; intros i found.
  - change (EmptyString +:+ b) with b. by rewrite rfind_aux_notin.
  - rewrite string_app_cons. cbn [rfind_aux]. apply IH.
Qed.

Lemma rfind_aux_bound (c : ascii) (a : string) (i found : Z) :
  rfind_aux c i found a = found \/
  (i <= rfind_aux c i found a < i + Z.of_nat (String.length a))%Z.
Proof.
  revert i found. induction a as [|x a IH]; intros i found; [by left|].
  cbn [rfind_aux String.length].
  destruct (IH (i + 1)%Z (if Ascii.eqb x c then i else found)) as [-> | H].
  - destruct (Ascii.eqb x c); [right; lia | by left].
  - right. lia.
Qed.

Lemma rfind_aux_cases (c : ascii) (s : string) (i found : Z) :
  ((c ∉ chars s) /\ rfind_aux c i found s = found) \/
  (exists a b, s = a +:+ String c b /\ (c ∉ chars b) /\
               rfind_aux c i found s = (i + Z.of_nat (String.length a))%Z).
Proof.
  revert i found. induction s as [|x s IH]; intros i found.
  - left. split; [|reflexivity]. apply not_elem_of_nil.
  - cbn [rfind_aux].
    destruct (IH (i + 1)%Z (if Ascii.eqb x c then i else found)) as [[Hc ->] | (a & b & -> & Hc & ->)].
    + destruct (Ascii.eqb_spec x c) as [->|Hx].
      * right. exists EmptyString, s. split; [reflexivity|]. split; [exact Hc|]. cbn. lia.
      * left. split; [|reflexivity]. cbn. apply not_elem_of_cons. split; [congruence|exact Hc].
    + right. exists (String x a), b. split; [reflexivity|]. split; [exact Hc|].
      cbn [String.length]. lia.
Qed.

Lemma substring_all (s : string) : String.substring 0 (String.length s) s = s.
Proof. induction s as [|x s IH]; [reflexivity|]. cbn. by rewrite IH. Qed.

Lemma from_index_app (a b : string) :
  from_index (Z.of_nat (String.length a)) (a +:+ b) = b.
Proof.
  unfold from_index. rewrite Nat2Z.id, string_app_length.
  replace (String.length a + String.length b - String.length a)%nat
    with (String.length b) by lia.
  induction a as [|x a IH]; [apply substring_all|].
  rewrite string_app_cons. cbn [String.length String.substring]. exact IH.
Qed.

Lemma lower_ascii_dot (a : ascii) : lower_ascii a = "."%char -> a = "."%char.
Proof.
  destruct a as [[] [] [] [] [] [] [] []]; vm_compute; intros H; try reflexivity;
    discriminate H.
Qed.

Lemma lower_ascii_letter (a b : ascii) :
  lower_ascii a = b -> b <> "."%char -> b <> "/"%char -> a <> "."%char /\ a <> "/"%char.
Proof. intros <- H1 H2. split; intros ->; [by apply H1 | by apply H2]. Qed.

Lemma lower_extension (ext : string) :
  lower ext ∈ [".pdf"; ".png"] ->
  exists e, ext = String "." e /\ ("."%char ∉ chars e) /\ ("/"%char ∉ chars e).
Proof.
  intros H.
  assert (exists x y z : ascii,
            lower ext = String "." (String x (String y (String z EmptyString))) /\
            Forall (fun c => c <> "."%char /\ c <> "/"%char) [x; y; z])
    as (x & y & z & Hl & Hxyz).
  { repeat (apply elem_of_cons in H as [->|H]); [..|by apply elem_of_nil in H];
      eexists _, _, _; (split; [reflexivity|]); repeat constructor; discriminate. }
  destruct ext as [|d [|x' [|y' [|z' [|? ?]]]]]; try discriminate Hl.
  injection Hl as Hd Hx Hy Hz. apply lower_ascii_dot in Hd as ->.
  apply Forall_cons_1 in Hxyz as [[Hx1 Hx2] Hxyz].
  apply Forall_cons_1 in Hxyz as [[Hy1 Hy2] Hxyz].
  apply Forall_cons_1 in Hxyz as [[Hz1 Hz2] _].
  destruct (lower_ascii_letter _ _ Hx Hx1 Hx2), (lower_ascii_letter _ _ Hy Hy1 Hy2),
    (lower_ascii_letter _ _ Hz Hz1 Hz2).
  eexists. split; [reflexivity|]. cbn.
  split; intros Hin; repeat (apply elem_of_cons in Hin as [Hin|Hin]); try congruence;
    by apply elem_of_nil in Hin.
Qed.

Lemma rfind_sep_drop (p : string) :
  (-1 <= rfind "/" p < Z.of_nat (String.length p))%Z /\
  ("/"%char ∉ drop (Z.to_nat (rfind "/" p + 1)) (chars p)).
Proof.
  unfold rfind. destruct (rfind_aux_cases "/" p 0 (-1)) as [[Hc ->] | (a & b & -> & Hc & ->)].
  - split; [lia | exact Hc].
  - rewrite string_app_length. cbn [String.length]. split; [lia|].
    rewrite chars_app. cbn [list_ascii_of_string].
    replace (Z.to_nat (0 + Z.of_nat (String.length a) + 1)) with (length (chars a ++ ["/"%char]))
      by (rewrite length_app, chars_length; cbn; lia).
    change (chars a ++ "/"%char :: chars b)%list with (chars a ++ ["/"%char] ++ chars b)%list.
    rewrite app_assoc, drop_app_length. exact Hc.
Qed.

Lemma splitext_ext_has (p : string) :
  has_plot_extension p ->
  exists ext, splitext_ext p = ext /\ lower ext ∈ [".pdf"; ".png"].
Proof.
  intros (pre & c & mid & ext & -> & Hc1 & Hc2 & Hmid & Hext). exists ext. split; [|exact Hext].
  destruct (lower_extension ext Hext) as (e & -> & He1 & He2).
  assert (Hdot : rfind "." (pre +:+ String c mid +:+ String "." e)
                 = Z.of_nat (String.length (pre +:+ String c mid))).
  { unfold rfind. rewrite <- string_app_assoc, rfind_aux_last by done. lia. }
  assert (Hsep : rfind "/" (pre +:+ String c mid +:+ String "." e) = rfind "/" pre).
  { unfold rfind. rewrite rfind_aux_app_notin; [reflexivity|].
    rewrite chars_app. cbn. intros Hin.
    apply elem_of_cons in Hin as [Hin|Hin]; [congruence|].
    apply elem_of_app in Hin as [Hin|Hin]; [done|].
    apply elem_of_cons in Hin as [Hin|Hin]; [discriminate|done]. }
  assert (Hb : (rfind "/" pre < Z.of_nat (String.length pre))%Z /\ (-1 <= rfind "/" pre)%Z).
  { unfold rfind. destruct (rfind_aux_bound "/" pre 0 (-1)) as [-> | H]; lia. }
  unfold splitext_ext. rewrite Hdot, Hsep, string_app_length. cbn [String.length].
  replace (rfind "/" pre <? Z.of_nat (String.length pre + S (String.length mid)))%Z with true
    by (symmetry; apply Z.ltb_lt; lia).
  cbn [andb].
  match goal with
  | |- (if existsb ?f ?l then _ else _) = _ =>
      assert (Hex : existsb f l = true)
  end.
  { apply existsb_exists. exists c. split.
    - apply list_elem_of_In. rewrite <- string_app_assoc, chars_app, chars_app.
      cbn [list_ascii_of_string].
      set (k := Z.to_nat (rfind "/" pre + 1)).
      assert (Hk : (k <= length (chars pre))%nat) by (rewrite chars_length; subst k; lia).
      rewrite <- (app_assoc (chars pre)).
      rewrite drop_app_le by exact Hk.
      replace (Z.to_nat (Z.of_nat (String.length pre + S (String.length mid))
                         - (rfind "/" pre + 1)))
        with (length (drop k (chars pre)) + S (length (chars mid)))%nat
        by (rewrite length_drop, !chars_length; subst k; lia).
      rewrite take_app_add'; [|reflexivity].
      apply elem_of_app. right. cbn. left.
    - destruct (Ascii.eqb_spec c "."); [congruence|reflexivity]. }
  rewrite Hex.
  replace (String.length pre + S (String.length mid))%nat
    with (String.length (pre +:+ String c mid)) by (by rewrite string_app_length).
  rewrite <- string_app_assoc. apply from_index_app.
Qed.

Lemma splitext_ext_plot (p : string) :
  lower (splitext_ext p) ∈ [".pdf"; ".png"] -> has_plot_extension p.
Proof.
  unfold splitext_ext.
  destruct (rfind_sep_drop p) as [Hsep Hnosep].
  destruct ((rfind "/" p <? rfind "." p)%Z) eqn:Hlt; cbn [andb];
    [|intros H; repeat (apply elem_of_cons in H as [H|H]); try discriminate H;
      by apply elem_of_nil in H].
  apply Z.ltb_lt in Hlt.
  match goal with
  | |- context [existsb ?f ?l] => destruct (existsb f l) eqn:Hex
  end;
    [|intros H; repeat (apply elem_of_cons in H as [H|H]); try discriminate H;
      by apply elem_of_nil in H].
  apply existsb_exists in Hex as (c & Hin & Hc). apply list_elem_of_In in Hin.
  assert (c <> "."%char) as Hc1 by (intros ->; discriminate Hc). clear Hc.
  unfold rfind in Hlt, Hin |- *.
  destruct (rfind_aux_cases "." p 0 (-1)) as [[_ Hd] | (a & b & Hp & Hb & Hd)];
    [fold (rfind "/" p) in Hlt; rewrite Hd in Hlt; lia|].
  rewrite Hd in Hlt, Hin |- *. rewrite Z.add_0_l in Hlt, Hin |- *.
  fold (rfind "/" p) in Hlt, Hin. set (k := Z.to_nat (rfind "/" p + 1)) in *.
  assert (Hfi : from_index (Z.of_nat (String.length a)) p = String "." b)
    by (rewrite Hp; apply from_index_app).
  rewrite Hfi. intros Hext.
  apply list_elem_of_split in Hin as (b1 & b2 & Hbefore).
  assert (Hk : (k <= String.length a)%nat) by (subst k; lia).
  assert (Hv : drop k (chars p) = (b1 ++ c :: b2 ++ chars (String "." b))%list).
  { rewrite <- (take_drop (Z.to_nat (Z.of_nat (String.length a) - (rfind "/" p + 1)))
                           (drop k (chars p))).
    rewrite Hbefore, <- app_assoc. cbn [app]. do 3 f_equal.
    rewrite drop_drop.
    replace (k + Z.to_nat (Z.of_nat (String.length a) - (rfind "/" p + 1)))%nat
      with (length (chars a)) by (rewrite chars_length; subst k; lia).
    rewrite Hp at 1. by rewrite chars_app, drop_app_length. }
  exists (string_of_list_ascii (take k (chars p) ++ b1)), c, (string_of_list_ascii b2),
    (String "." b).
  rewrite Hv in Hnosep.
  apply not_elem_of_app in Hnosep as [_ Hnosep].
  apply not_elem_of_cons in Hnosep as [Hc2 Hnosep].
  apply not_elem_of_app in Hnosep as [Hb2 _].
  split; [|split; [exact Hc1|split; [congruence|split;
            [by rewrite list_ascii_of_string_of_list_ascii|exact Hext]]]].
  apply chars_inj. rewrite !chars_app. cbn [list_ascii_of_string].
  rewrite !list_ascii_of_string_of_list_ascii.
  rewrite <- (take_drop k (chars p)) at 1. rewrite Hv, <- !app_assoc. reflexivity.
Qed.

(** X21: without a format, [save] derives it from the extension of the
    path, in any case of the letters: a path that ends in [.pdf] or [.png]
    after a file name that does not consist of dots alone is saved and the
    figure closed; for any other path a [ValueError] is raised and nothing
    is saved.  A format that is given is not looked at: the figure is saved
    to the path as it is, with the same arguments. *)
Theorem save_spec (facecolor edgecolor : pyval) (file_path : string) :
  let saved :=
    ([fig_savefig file_path
        {["facecolor" := facecolor; "edgecolor" := edgecolor;
          "bbox_inches" := VStr "tight"; "pad_inches" := VFloat 0.15]};
      plt_close], Ok tt) in
  (has_plot_extension file_path -> save facecolor edgecolor file_path None = saved) /\
  (~ has_plot_extension file_path ->
   exists msg, save facecolor edgecolor file_path None = ([], Raise (ValueError msg))) /\
  (forall format, save facecolor edgecolor file_path (Some format) = saved).
Proof.
  intros saved. unfold save. split; [|split].
  - intros (ext & <- & Hext)%splitext_ext_has.
    rewrite bool_decide_eq_true_2 by exact Hext. reflexivity.
  - intros Hno. destruct (bool_decide (lower (splitext_ext file_path) ∈ [".pdf"; ".png"]))
      eqn:Hd.
    + apply bool_decide_eq_true_1 in Hd. destruct Hno. by apply splitext_ext_plot.
    + by eexists.
  - reflexivity.
Qed.

Lemma save_spec_witness :
  has_plot_extension "plots/test.PNG" /\
  ~ has_plot_extension "plots/.png" /\
  (save (VStr "white") (VStr "white") "plots/test.PNG" None).2 = Ok tt /\
  exists msg, save (VStr "white") (VStr "white") "plots/.png" None
              = ([], Raise (ValueError msg)).
Proof.
  assert (H1 : has_plot_extension "plots/test.PNG").
  { exists "plots/", "t"%char, "est", ".PNG". split; [reflexivity|].
    split; [discriminate|]. split; [discriminate|]. split.
    - cbn. intros H. repeat (apply elem_of_cons in H as [H|H]); try discriminate H.
      by apply elem_of_nil in H.
    - vm_compute. right. left. }
  assert (H2 : ~ has_plot_extension "plots/.png").
  { intros H%splitext_ext_has. destruct H as (ext & <- & H). vm_compute in H.
    repeat (apply elem_of_cons in H as [H|H]); try discriminate H. by apply elem_of_nil in H. }
  split; [exact H1|]. split; [exact H2|].
  destruct (save_spec (VStr "white") (VStr "white") "plots/test.PNG") as (Hs & _ & _).
  destruct (save_spec (VStr "white") (VStr "white") "plots/.png") as (_ & Hn & _).
  split; [by rewrite (Hs H1) | exact (Hn H2)].
Defined.

End saving.

(** ** The configuration of the map (plots.py) *)

Section map_conf.

Import Plots.

Local Ltac decide_iff :=
  let H := fresh in
  split; intros H;
  first [ reflexivity | discriminate H | by destruct H | by eexists ].

Local Ltac conf_facts :=
  split; [vm_compute; repeat constructor; set_solver|];
  split; [reflexivity|]; split; [reflexivity|]; split; [reflexivity|];
  split; [by eexists|]; split; decide_iff.

(** X22: [create_map_conf] knows five pairs of model and domain and raises
    for every other pair.  Every configuration that it returns names each
    key once, holds the language, the resolution [10m] for the two COSMO
    models and [50m] for IFS, the same resolution for cities and rivers and
    a smallest city; it holds a zoom factor exactly for the COSMO models,
    and an offset exactly for the domain [ch]. *)
Theorem create_map_conf_spec (domain model lang : string) :
  (is_Ok (create_map_conf domain model lang) <->
   (model, domain) ∈ [("cosmo1", "auto"); ("cosmo2", "auto"); ("cosmo1", "ch");
                      ("cosmo2", "ch"); ("ifs", "auto")]) /\
  forall conf, create_map_conf domain model lang = Ok conf ->
    NoDup (fst <$> conf) /\
    dict_get "lang" conf = Some (CStr lang) /\
    dict_get "geo_res" conf = Some (CStr (if String.eqb model "ifs" then "50m" else "10m")) /\
    dict_get "geo_res_cities" conf = dict_get "geo_res_rivers" conf /\
    is_Some (dict_get "min_city_pop" conf) /\
    (is_Some (dict_get "zoom_fact" conf) <-> model <> "ifs") /\
    (is_Some (dict_get "rel_offset" conf) <-> domain = "ch").
Proof.
  unfold create_map_conf.
  destruct (bool_decide ((model, domain) ∈ [("cosmo1", "auto"); ("cosmo2", "auto")])) eqn:H1.
  { apply bool_decide_eq_true_1 in H1. split.
    - split; [intros _|by eexists].
      repeat (apply elem_of_cons in H1 as [H1|H1]); [..|by apply elem_of_nil in H1];
        injection H1 as -> ->; repeat constructor.
    - intros conf [= <-].
      repeat (apply elem_of_cons in H1 as [H1|H1]); [..|by apply elem_of_nil in H1];
        injection H1 as -> ->; conf_facts. }
  apply bool_decide_eq_false_1 in H1.
  destruct (bool_decide ((model, domain) = ("cosmo1", "ch"))) eqn:H2.
  { apply bool_decide_eq_true_1 in H2. injection H2 as -> ->. split.
    - split; [intros _; repeat constructor | by eexists].
    - intros conf [= <-]. conf_facts. }
  apply bool_decide_eq_false_1 in H2.
  destruct (bool_decide ((model, domain) = ("cosmo2", "ch"))) eqn:H3.
  { apply bool_decide_eq_true_1 in H3. injection H3 as -> ->. split.
    - split; [intros _; repeat constructor | by eexists].
    - intros conf [= <-]. conf_facts. }
  apply bool_decide_eq_false_1 in H3.
  destruct (bool_decide ((model, domain) = ("ifs", "auto"))) eqn:H4.
  { apply bool_decide_eq_true_1 in H4. injection H4 as -> ->. split.
    - split; [intros _; repeat constructor | by eexists].
    - intros conf [= <-]. conf_facts. }
  apply bool_decide_eq_false_1 in H4. split; [|discriminate].
  split; [by intros [? ?]|]. intros H.
  apply elem_of_cons in H as [H|H]; [destruct H1; rewrite H; left|].
  apply elem_of_cons in H as [H|H]; [destruct H1; rewrite H; right; left|].
  apply elem_of_cons in H as [H|H]; [done|].
  apply elem_of_cons in H as [H|H]; [done|].
  apply elem_of_cons in H as [H|H]; [done|]. by apply elem_of_nil in H.
Qed.

End map_conf.

(** ** The range of the vertical levels (plots.py) *)

Section level_range.

Import Plots.

Lemma insert_rev_length (x : float) (l : list float) :
  length (insert_rev x l) = S (length l).
Proof.
  induction l as [|e l IH]; [reflexivity|]. cbn.
  destruct (PrimFloat.ltb x e); cbn; by rewrite ?IH.
Qed.

Lemma sorted_length (l : list float) : length (sorted l) = length l.
Proof.
  unfold sorted. rewrite length_reverse.
  assert (H : forall acc, length (foldl (fun acc x => insert_rev x acc) acc l)
                          = (length acc + length l)%nat).
  { induction l as [|x l IH]; intros acc; cbn; [lia|].
    rewrite IH, insert_rev_length. lia. }
  by rewrite H.
Qed.

Lemma SFltb_asym (a b : spec_float) : SFltb a b = true -> SFltb b a = false.
Proof.
  unfold SFltb.
  destruct a as [sa|sa| |sa ma ea], b as [sb|sb| |sb mb eb];
    cbn; try done;
    repeat match goal with s : bool |- _ => destruct s end; cbn; try done;
    change (Pos.compare_cont Eq) with Pos.compare;
    repeat match goal with
           | |- context [Z.compare ?u ?v] => destruct (Z.compare_spec u v)
           | |- context [Pos.compare ?u ?v] => destruct (Pos.compare_spec u v)
           end; cbn; try done; try lia.
Qed.

Lemma ltb_asym (a b : float) : PrimFloat.ltb a b = true -> PrimFloat.ltb b a = false.
Proof. rewrite !FloatAxioms.ltb_spec. apply SFltb_asym. Qed.

Lemma sorted_two (a b : float) (l : list float) :
  PrimFloat.ltb a b = true -> l ≡ₚ [a; b] -> sorted l = [a; b].
Proof.
  intros Hab Hl.
  assert (l = [a; b] \/ l = [b; a]) as [-> | ->].
  { symmetry in Hl. apply Permutation_length_2_inv in Hl. destruct Hl as [-> | ->]; auto. }
  - unfold sorted. cbn. by rewrite (ltb_asym _ _ Hab).
  - unfold sorted. cbn. by rewrite Hab.
Qed.

(** X23: which level ranges [format_vertical_level_range] accepts.  Two
    numbers always give a result, and none only when both are -1; two
    sequences with two values each always give a text; a number together
    with a sequence fails an assertion; and two sequences give a result
    only when both hold two, or both hold three values: a single range
    written as two sequences of one value raises, as do empty sequences. *)
Theorem format_vertical_level_range_accepts (unit : string) :
  (forall b t : float,
     exists r, format_vertical_level_range (LNum b) (LNum t) unit = Ok r /\
               (r = None <-> PrimFloat.eqb b (-1) = true /\ PrimFloat.eqb t (-1) = true)) /\
  (forall (x : float) (l : list float),
     format_vertical_level_range (LNum x) (LSeq l) unit = Raise (AssertionError []) /\
     format_vertical_level_range (LSeq l) (LNum x) unit = Raise (AssertionError [])) /\
  (forall bs ts : list float,
     length bs = 2%nat -> length ts = 2%nat ->
     exists s, format_vertical_level_range (LSeq bs) (LSeq ts) unit = Ok (Some s)) /\
  (forall bs ts : list float,
     is_Ok (format_vertical_level_range (LSeq bs) (LSeq ts) unit) ->
     length bs = length ts /\ (length bs = 2%nat \/ length bs = 3%nat)).
Proof.
  split; [|split; [|split]].
  - intros b t. cbn.
    destruct (PrimFloat.eqb b (-1)), (PrimFloat.eqb t (-1)); cbn;
      eexists; (split; [reflexivity|]); split; try done; by intros [? ?].
  - by intros x l.
  - intros bs ts Hb Ht. cbn. rewrite <- (sorted_length bs) in Hb. rewrite <- (sorted_length ts) in Ht.
    rewrite Hb, Ht. cbn.
    destruct (sorted bs) as [|b0 [|b1 [|? ?]]]; try discriminate Hb.
    destruct (sorted ts) as [|t0 [|t1 [|? ?]]]; try discriminate Ht.
    destruct (PrimFloat.eqb t0 b1); by eexists.
  - intros bs ts [r Hr]. cbn in Hr. rewrite !sorted_length in Hr.
    destruct (Nat.eqb_spec (length bs) (length ts)) as [Hlen|Hlen]; [|discriminate Hr].
    split; [exact Hlen|]. cbn in Hr. rewrite <- (sorted_length bs).
    destruct (sorted bs) as [|b0 [|b1 [|b2 [|? ?]]]]; try discriminate Hr; auto.
Qed.

(** X24: two level ranges may be given in any order.  For bottoms
    [b0 < b1] and tops [t0 < t1], in whatever order each pair is handed
    over, the two ranges are merged into the single range from [b0] to
    [t1] when the lower range ends where the upper one begins, and are
    written one after the other, the lower one first, otherwise. *)
Theorem format_vertical_level_range_two (unit : string) (b0 b1 t0 t1 : float)
    (bs ts : list float) :
  PrimFloat.ltb b0 b1 = true ->
  PrimFloat.ltb t0 t1 = true ->
  bs ≡ₚ [b0; b1] ->
  ts ≡ₚ [t0; t1] ->
  format_vertical_level_range (LSeq bs) (LSeq ts) unit =
    Ok (Some (if PrimFloat.eqb t0 b1 then fmt unit b0 t1
              else fmt unit b0 t0 +:+ " + " +:+ fmt unit b1 t1)).
Proof.
  intros Hb Ht Hbs Hts. cbn.
  rewrite (sorted_two _ _ _ Hb Hbs), (sorted_two _ _ _ Ht Hts). cbn.
  by destruct (PrimFloat.eqb t0 b1).
Qed.

Lemma format_vertical_level_range_two_witness :
  format_vertical_level_range (LSeq [2000; 500]%float) (LSeq [5000; 2000]%float) "m AGL" =
    Ok (Some (fmt "m AGL" 500 5000)).
Proof.
  apply (format_vertical_level_range_two "m AGL" 500 2000 2000 5000
           [2000; 500]%float [5000; 2000]%float).
  - reflexivity.
  - reflexivity.
  - apply perm_swap.
  - apply perm_swap.
Defined.

End level_range.

(** ** Multi-page PDF files (srutils/pdf.py) *)

Section pdf.

Import MultiPagePDF.

Context {file page err : Type}.
Variable PdfFileReader : string -> file + err.
Variable getPage : file -> nat -> page + err.
Variable caught : err -> bool.

Local Abbreviation reads := (first_page PdfFileReader getPage).
Local Abbreviation fails := (read_error PdfFileReader getPage caught).

Lemma _read_pages_from_spec (paths : list string) (acc : list page) :
  match _read_pages_from PdfFileReader getPage caught acc paths with
  | (read, inl pages) =>
      read = paths /\ exists new, pages = (acc ++ new)%list /\ Forall2 reads paths new
  | (read, inr e) =>
      exists done new path rest,
        paths = (done ++ path :: rest)%list /\ read = (done ++ [path])%list /\
        Forall2 reads done new /\ fails path e
  end.
Proof.
  revert acc. induction paths as [|path_i paths IH]; intros acc; cbn [_read_pages_from].
  - split; [reflexivity|]. exists []. by rewrite app_nil_r.
  - destruct (PdfFileReader path_i) as [f|c] eqn:Hf.
    + destruct (getPage f 0%nat) as [p|c] eqn:Hp.
      * specialize (IH (acc ++ [p])%list).
        destruct (_read_pages_from PdfFileReader getPage caught (acc ++ [p]) paths)
          as [read [pages|e]].
        -- destruct IH as (-> & new & -> & Hnew). split; [reflexivity|].
           exists (p :: new). rewrite <- app_assoc. split; [reflexivity|].
           constructor; [by exists f | exact Hnew].
        -- destruct IH as (done & new & path & rest & -> & -> & Hdone & He).
           exists (path_i :: done), (p :: new), path, rest.
           split; [reflexivity|]. split; [reflexivity|].
           split; [constructor; [by exists f | exact Hdone] | exact He].
      * exists [], [], path_i, paths. split; [reflexivity|]. split; [reflexivity|].
        split; [constructor|]. right. by exists f, c.
    + exists [], [], path_i, paths. split; [reflexivity|]. split; [reflexivity|].
      split; [constructor|]. left. by exists c.
Qed.

(** X25: [from_files] reads the first page of every file, in the order of
    the paths: when it returns, the document has one page per path, each
    the first page of its file.  When it raises, the files before the first
    one that cannot be read were read and no later file is opened; the
    error is a [PdfReadError] with the path of that file when the reader
    raised one of the errors that are caught, and the error of the library
    as it is otherwise (also for a file without a first page). *)
Theorem from_files_spec (paths : list string) :
  match from_files PdfFileReader getPage caught paths with
  | (read, inl pdf) => read = paths /\ Forall2 reads paths (pages pdf)
  | (read, inr e) =>
      exists done new path rest,
        paths = (done ++ path :: rest)%list /\ read = (done ++ [path])%list /\
        Forall2 reads done new /\ fails path e
  end.
Proof.
  unfold from_files, _read_pages.
  pose proof (_read_pages_from_spec paths []) as H.
  destruct (_read_pages_from PdfFileReader getPage caught [] paths) as [read [pages|e]].
  - destruct H as (-> & new & -> & Hnew). by split.
  - exact H.
Qed.

End pdf.

Section pdf_write.

Import MultiPagePDF.

Lemma rstrip_sep_empty (s : string) :
  rstrip_sep s = EmptyString ->
  forallb (fun c => Ascii.eqb c "/") (list_ascii_of_string s) = true.
Proof.
  induction s as [|c s IH]; [done|]. cbn.
  destruct (Ascii.eqb c "/"); cbn; [|done].
  destruct (String.eqb_spec (rstrip_sep s) EmptyString) as [Hr|Hr]; [|done].
  intros _. by apply IH.
Qed.

Lemma dirname_empty (p : string) :
  dirname p = EmptyString <-> ("/"%char ∉ list_ascii_of_string p).
Proof.
  unfold dirname, FlexPlotConcentration.rfind. split.
  - intros Hd Hin.
    destruct (rfind_aux_cases "/" p 0 (-1)) as [[Hc _] | (a & b & Hp & _ & Hr)]; [done|].
    rewrite Hr in Hd.
    replace (Z.to_nat (0 + Z.of_nat (String.length a) + 1)) with (S (String.length a)) in Hd
      by lia.
    assert (exists c s, String.substring 0 (S (String.length a)) p = String c s)
      as (c & s & Hs).
    { rewrite Hp. destruct a as [|x a]; [by eexists _, _|].
      rewrite string_app_cons. by eexists _, _. }
    rewrite Hs in Hd. cbn [String.eqb negb andb] in Hd.
    destruct (forallb _ (list_ascii_of_string (String c s))) eqn:Hall;
      cbn [negb] in Hd; [discriminate Hd|].
    apply rstrip_sep_empty in Hd. congruence.
  - intros Hc. destruct (rfind_aux_cases "/" p 0 (-1)) as [[_ ->] | (a & b & -> & _ & _)].
    + cbn. by destruct p.
    + destruct Hc. rewrite chars_app. apply elem_of_app. right. left.
Qed.

(** X26: [write] adds the pages of the document to the writer in their
    order, then opens the path and writes; it creates the directory of the
    path before it opens the file exactly when the path holds a slash, and
    creates no directory for a bare file name. *)
Theorem write_spec {page : Type} (self : t page) (path : string) :
  added_pages (write self path) = pages self /\
  (exists before, write self path = (before ++ [open_wb path; writer_write])%list /\
                  Forall (fun c => c <> open_wb path /\ c <> writer_write) before) /\
  (forall d, makedirs d ∈ write self path <->
             d = dirname path /\ "/"%char ∈ list_ascii_of_string path).
Proof.
  unfold write. split; [|split].
  - unfold added_pages. rewrite omap_app.
    assert (H : omap (fun c : call page => match c with addPage p => Some p | _ => None end)
                  (addPage <$> pages self) = pages self).
    { induction (pages self) as [|p ps IH]; [reflexivity|]. cbn. by rewrite IH. }
    rewrite H. destruct (negb _); cbn; by rewrite app_nil_r.
  - eexists. rewrite app_assoc. split; [reflexivity|].
    apply Forall_app. split.
    + apply Forall_fmap, Forall_forall. intros p _. by split.
    + destruct (negb _); repeat constructor; discriminate.
  - intros d. rewrite !elem_of_app.
    destruct (String.eqb_spec (dirname path) EmptyString) as [He|Hne]; cbn [negb].
    + split.
      * intros [H|[H|H]].
        -- apply list_elem_of_fmap in H as (p & Hp & _). discriminate Hp.
        -- by apply elem_of_nil in H.
        -- repeat (apply elem_of_cons in H as [H|H]); try discriminate H.
           by apply elem_of_nil in H.
      * intros [_ Hin]. apply dirname_empty in He. done.
    + split.
      * intros [H|[H|H]].
        -- apply list_elem_of_fmap in H as (p & Hp & _). discriminate Hp.
        -- apply list_elem_of_singleton in H. injection H as ->. split; [reflexivity|].
           destruct (decide ("/"%char ∈ list_ascii_of_string path)) as [Hin|Hnin]; [done|].
           apply dirname_empty in Hnin. done.
        -- repeat (apply elem_of_cons in H as [H|H]); try discriminate H.
           by apply elem_of_nil in H.
      * intros [-> _]. right. left. left.
Qed.

End pdf_write.

(** ** The lines that fill the box, from the lines given *)

Section hfill_lines.

Local Abbreviation chars := list_ascii_of_string.
Local Abbreviation nl := "010"%char.

(** *** Splitting what was joined *)






(** *** White space at the ends *)









(** *** Lines and blocks of a multi-line string *)











(** *** The parts of the lines given *)










(** *** What is drawn, whatever the colours *)

Section summary.

Variables (self : FlexAxesTextBox.t) (loc : loc_param) (dx : option float) (kw : kwargs).
Variables (ha va : string) (x0 y0 : float).
Hypothesis Hloc :
  derive loc (FlexAxesTextBox.dx self) (FlexAxesTextBox.dy self) = Ok (ha, va, x0, y0).
Hypothesis Hkw : no_alignment kw.

Local Abbreviation at_row := (fun row : float * text_t =>
  ((x0 + default 0.0 dx * FlexAxesTextBox.dx self)%float,
   (y0 + row.1 * FlexAxesTextBox.dy self)%float, row.2, Some (VStr ha))).




End summary.



End hfill_lines.


